(** * Synthetic wellness/aging dataset generator: model and properties

    A shallow embedding of the generation-and-validation pipeline of the
    TWA research dashboard:

    - [EnhancedDemographicGenerator]   (services/DemographicGenerator.ts)
    - [ResearchValidatedTWAGenerator]  (services/TWABehaviorGenerator.ts)
    - [WellnessAgingOutcomeGenerator]  (services/OutcomeGenerator.ts)
    - [LongitudinalTWADataGenerator]   (services/LongitudinalDataGenerator.ts)

    Conventions of the embedding.

    - A JavaScript [number] that the generators compute is a real number
      ([R]): the arithmetic of the source is read exactly, without the
      rounding, the infinities and the NaN of binary floating point.  Every
      division of the generators is by a non-zero literal, by the total of
      a probability table, or by the mortality risk, which is at least 0.1.
    - The validation engine divides by data-dependent quantities that can
      be zero.  Its statistics live in [jsnum], reals extended with
      [NaN] and the two infinities, with the special-value rules of
      IEEE 754 ([0/0 = NaN], [x/0 = +-Infinity], NaN is contagious).
    - Where rounding decides which branch a statistic takes (the
      zero-denominator guards of [calculateCorrelation] and
      [calculateLinearSlope]), the function is read a second time in
      IEEE 754 binary64, on the kernel's primitive floats ([Binary64]).
    - Counts and loop indices are integers: the two counts of a
      configuration are in [Z], a month index and a subject index in [nat].
    - [Math.random()] reads the next draw of an explicit random source that
      is threaded through every sampling call ([Rand]).
    - A value of a string-literal union type is a constructor of an
      inductive type; a lookup table keyed by such a value is a [match],
      and its [|| fallback] (unreachable for a typed key) is left out.  The
      age group is a plain [string] in the source and keeps its fallbacks.
    - A JavaScript object or [Map] used as a dictionary is an association
      list in insertion order ([dict]); keys are ordinary strings, not
      names that a JavaScript object inherits from its prototype.
    - A JavaScript function either returns normally or throws
      ([completion]). *)

From Stdlib Require Import Floats Uint63.
From Stdlib Require Import Reals Lra Lia List String Ascii ZArith Bool Arith.
From Stdlib Require Import DecimalString DecimalNat Decimal FinFun.
From Stdlib Require Import Sorted Permutation.
Import ListNotations.

Open Scope R_scope.

(** A decimal literal of a binary64 expression denotes the nearest binary64
    number, as it does in the source. *)
Set Warnings "-inexact-float".

(* ===================================================================== *)
(** * JavaScript numbers and the [Math] object                           *)
(* ===================================================================== *)

Module JS.

(** [Math.round(x)] is [floor(x + 0.5)]. *)
Definition Math_round (x : R) : R := IZR (Int_part (x + / 2)).

Definition Math_max (a b : R) : R := Rmax a b.
Definition Math_min (a b : R) : R := Rmin a b.
Definition Math_abs (a : R) : R := Rabs a.

(** [Math.pow(b, e)] for a positive base. *)
Definition Math_pow (b e : R) : R := Rpower b e.

Definition Math_sqrt (x : R) : R := sqrt x.

(** Comparison operators, as booleans. *)
Definition geb (x y : R) : bool := if Rle_dec y x then true else false.
Definition gtb (x y : R) : bool := if Rlt_dec y x then true else false.
Definition leb (x y : R) : bool := if Rle_dec x y then true else false.
Definition ltb (x y : R) : bool := if Rlt_dec x y then true else false.
(** [x === y] on numbers. *)
Definition strict_eq (x y : R) : bool :=
  if Req_dec_T x y then true else false.

(** [xs.reduce((a, b) => a + b, 0)] *)
Definition sum (xs : list R) : R := fold_left (fun a b => a + b) xs 0.

(** Numbers of the validation engine: a real, an infinity or NaN. *)
Inductive jsnum : Type :=
| Num (r : R)
| PInf
| NInf
| NaN.

Definition isNaN (x : jsnum) : bool :=
  match x with NaN => true | _ => false end.

Definition is_finite (x : jsnum) : Prop :=
  match x with Num _ => True | _ => False end.

Definition jneg (x : jsnum) : jsnum :=
  match x with
  | Num r => Num (- r)
  | PInf => NInf
  | NInf => PInf
  | NaN => NaN
  end.

Definition jadd (x y : jsnum) : jsnum :=
  match x, y with
  | NaN, _ | _, NaN => NaN
  | Num a, Num b => Num (a + b)
  | PInf, NInf | NInf, PInf => NaN
  | PInf, _ | _, PInf => PInf
  | NInf, _ | _, NInf => NInf
  end.

Definition jsub (x y : jsnum) : jsnum := jadd x (jneg y).

(** An infinity of the sign of [r], NaN for [r = 0]. *)
Definition signed_inf (r : R) : jsnum :=
  if Rlt_dec 0 r then PInf else if Rlt_dec r 0 then NInf else NaN.

Definition jmul (x y : jsnum) : jsnum :=
  match x, y with
  | NaN, _ | _, NaN => NaN
  | Num a, Num b => Num (a * b)
  | Num a, PInf | PInf, Num a => signed_inf a
  | Num a, NInf | NInf, Num a => signed_inf (- a)
  | PInf, PInf | NInf, NInf => PInf
  | PInf, NInf | NInf, PInf => NaN
  end.

(** Division: [0/0] and [Infinity/Infinity] are NaN, [a/0] is an
    infinity of the sign of [a] (the zero divisors of the engine are
    differences and counts, read as [+0]). *)
Definition jdiv (x y : jsnum) : jsnum :=
  match x, y with
  | NaN, _ | _, NaN => NaN
  | Num a, Num b => if Req_dec_T b 0 then signed_inf a else Num (a / b)
  | Num _, (PInf | NInf) => Num 0
  | (PInf | NInf), (PInf | NInf) => NaN
  | PInf, Num b => if Rlt_dec b 0 then NInf else PInf
  | NInf, Num b => if Rlt_dec b 0 then PInf else NInf
  end.

Definition jabs (x : jsnum) : jsnum :=
  match x with
  | Num r => Num (Rabs r)
  | PInf | NInf => PInf
  | NaN => NaN
  end.

(** [Math.max(x, y)]: NaN if either argument is NaN. *)
Definition jmax (x y : jsnum) : jsnum :=
  match x, y with
  | NaN, _ | _, NaN => NaN
  | PInf, _ | _, PInf => PInf
  | NInf, z | z, NInf => z
  | Num a, Num b => Num (Rmax a b)
  end.

(** [Math.sqrt(x)]: NaN below zero. *)
Definition jsqrt (x : jsnum) : jsnum :=
  match x with
  | Num r => if Rlt_dec r 0 then NaN else Num (R_sqrt.sqrt r)
  | PInf => PInf
  | NInf | NaN => NaN
  end.

(** [Math.pow(x, 2)] *)
Definition jpow2 (x : jsnum) : jsnum := jmul x x.

(** [xs.reduce((s, v) => s + v, 0)] over extended numbers. *)
Definition sumj (xs : list jsnum) : jsnum := fold_left jadd xs (Num 0).

(** Normal return or a thrown error. *)
Inductive completion (E A : Type) : Type :=
| Return (a : A)
| Throw (e : E).
Arguments Return {E A} a.
Arguments Throw {E A} e.

End JS.
Import JS.

(** The error taxonomy of the specification.  The source declares no error
    class and contains no [throw] statement. *)
Inductive GeneratorError : Type :=
| InvalidConfiguration
| InsufficientData.

(* ===================================================================== *)
(** * The random source                                                  *)
(* ===================================================================== *)

(** The draws that [Math.random()] will return, in order. *)
Definition RandomSource : Type := nat -> R.

(** A computation that consumes draws. *)
Definition Rand (A : Type) : Type := RandomSource -> A * RandomSource.

Definition ret {A} (a : A) : Rand A := fun s => (a, s).

Definition bind {A B} (m : Rand A) (k : A -> Rand B) : Rand B :=
  fun s => k (fst (m s)) (snd (m s)).

Definition Math_random : Rand R :=
  fun s => (s 0%nat, fun n => s (S n)).

Declare Scope rand_scope.
Delimit Scope rand_scope with rand.
Notation "x <- c ;; k" := (bind c (fun x => k))
  (at level 61, c at next level, right associativity) : rand_scope.
Open Scope rand_scope.

(** [for (x of xs) { out.push(body(x)) }] with the source threaded. *)
Fixpoint for_each {A B} (xs : list A) (body : A -> Rand B) : Rand (list B) :=
  match xs with
  | [] => ret []
  | x :: xs' =>
      y <- body x ;;
      ys <- for_each xs' body ;;
      ret (y :: ys)
  end.

(* ===================================================================== *)
(** * Data model (types.ts)                                              *)
(* ===================================================================== *)

Inductive Gender : Type := Male | Female | NonBinary.
Inductive Ethnicity : Type := White | Hispanic | Black | Asian | OtherEthnicity.
Inductive Education : Type := LessThanHS | HighSchool | SomeCollege | BachelorPlus.
Inductive IncomeBracket : Type := Under35k | From35to75k | From75to100k | Over100k.
Inductive FitnessLevel : Type := Low | Medium | High.
Inductive SleepType : Type := Regular | Short | Irregular.
Inductive Region : Type := Northeast | Midwest | South | West.
Inductive UrbanRural : Type := Urban | Suburban | Rural.
Inductive SmokingStatus : Type := Never | Former | Current.
Inductive Season : Type := Spring | Summer | Fall | Winter.

Definition Season_eqb (a b : Season) : bool :=
  match a, b with
  | Spring, Spring | Summer, Summer | Fall, Fall | Winter, Winter => true
  | _, _ => false
  end.

Definition SmokingStatus_eqb (a b : SmokingStatus) : bool :=
  match a, b with
  | Never, Never | Former, Former | Current, Current => true
  | _, _ => false
  end.

Record Demographics : Type := mkDemographics {
  id : string;
  age_group : string;
  age_numeric : R;
  gender : Gender;
  ethnicity : Ethnicity;
  education : Education;
  income_bracket : IncomeBracket;
  income_numeric : R;
  fitness_level : FitnessLevel;
  sleep_type : SleepType;
  region : Region;
  urban_rural : UrbanRural;
  occupation : string
}.

Record TWABehaviors : Type := mkTWABehaviors {
  motion_days_week : R;
  sleep_hours : R;
  sleep_quality_score : R;
  hydration_cups_day : R;
  diet_mediterranean_score : R;
  meditation_minutes_week : R;
  smoking_status : SmokingStatus;
  alcohol_drinks_week : R;
  added_sugar_grams_day : R;
  sodium_grams_day : R;
  processed_food_servings_week : R;
  social_connections_count : R;
  nature_minutes_week : R;
  cultural_hours_week : R;
  purpose_meaning_score : R
}.

Record WellnessOutcomes : Type := mkWellnessOutcomes {
  biological_age_years : R;
  biological_age_acceleration : R;
  mortality_risk_score : R;
  estimated_lifespan_years : R;
  crp_mg_l : R;
  il6_pg_ml : R;
  igf1_ng_ml : R;
  gdf15_pg_ml : R;
  cortisol_ug_dl : R;
  grip_strength_kg : R;
  gait_speed_ms : R;
  balance_score : R;
  frailty_index : R;
  cognitive_composite_score : R;
  processing_speed_score : R;
  life_satisfaction_score : R;
  stress_level_score : R;
  depression_risk_score : R;
  social_support_score : R
}.

Record MonthlyRecord : Type := mkMonthlyRecord {
  subject_id : string;
  month : nat;
  season : Season;
  observation_date : string;
  demographics : Demographics;
  behaviors : TWABehaviors;
  outcomes : WellnessOutcomes;
  meets_exercise_guidelines : bool;
  meets_sleep_guidelines : bool;
  high_diet_quality : bool;
  regular_meditation : bool;
  strong_social_support : bool;
  high_purpose : bool;
  healthy_aging_profile : R;
  blue_zone_similarity_score : R
}.

Inductive ExportFormat : Type := csv | json | excel.

Record DatasetConfig : Type := mkDatasetConfig {
  n_subjects : Z;
  months : Z;
  include_validation : bool;
  export_format : ExportFormat
}.

Record DemographicAccuracy : Type := mkDemographicAccuracy {
  age_distribution_ks_test : jsnum;
  income_education_correlation : jsnum;
  fitness_age_relationship : jsnum
}.

Record BehaviorCorrelations : Type := mkBehaviorCorrelations {
  exercise_sleep_correlation : jsnum;
  diet_meditation_correlation : jsnum;
  social_purpose_correlation : jsnum
}.

Record OutcomeValidity : Type := mkOutcomeValidity {
  biological_age_effects : jsnum;
  mortality_risk_factors : jsnum;
  purpose_longevity_relationship : jsnum
}.

Record LongitudinalCoherence : Type := mkLongitudinalCoherence {
  seasonal_variations : jsnum;
  aging_trajectories : jsnum;
  behavior_stability : jsnum
}.

Record ValidationResults : Type := mkValidationResults {
  demographic_accuracy : DemographicAccuracy;
  behavior_correlations : BehaviorCorrelations;
  outcome_validity : OutcomeValidity;
  longitudinal_coherence : LongitudinalCoherence
}.

(* ===================================================================== *)
(** * Strings: [toString] and [padStart]                                 *)
(* ===================================================================== *)

(** [n.toString()] for a non-negative integer. *)
Definition toString (n : nat) : string := NilEmpty.string_of_uint (Nat.to_uint n).

Fixpoint zeros (k : nat) : string :=
  match k with
  | O => EmptyString
  | S k' => String "0" (zeros k')
  end.

(** [s.padStart(width, '0')] *)
Definition padStart0 (width : nat) (s : string) : string :=
  (zeros (width - String.length s) ++ s)%string.

(* ===================================================================== *)
(** * EnhancedDemographicGenerator (services/DemographicGenerator.ts)    *)
(* ===================================================================== *)

Module DemographicGenerator.

(** The cumulative weight walk of [weightedRandomChoice]: [None] when the
    loop ends without returning. *)
Fixpoint weight_walk {T} (items : list T) (weights : list R) (random : R)
  : option T :=
  match items, weights with
  | item :: items', w :: weights' =>
      let random := random - w in
      if Rle_dec random 0 then Some item
      else weight_walk items' weights' random
  | _, _ => None
  end.

(** [weightedRandomChoice(items, weights)].  [undef] stands for the
    [undefined] that [items[items.length - 1]] yields on an empty array;
    every call of the source passes a non-empty literal. *)
Definition weightedRandomChoice {T} (undef : T) (items : list T)
  (weights : list R) : Rand T :=
  let totalWeight := sum weights in
  r <- Math_random ;;
  let random := r * totalWeight in
  ret match weight_walk items weights random with
      | Some item => item
      | None => last items undef
      end.

(** [xs.map((x, i) => f(i, x))] *)
Fixpoint mapi_from {A B} (i : nat) (f : nat -> A -> B) (xs : list A) : list B :=
  match xs with
  | [] => []
  | x :: xs' => f i x :: mapi_from (S i) f xs'
  end.

Definition shiftProbabilitiesTowardHigher (probabilities : list R) (factor : R)
  : list R :=
  let reduction := (factor - 1) * 0.1 in
  let len := INR (List.length probabilities) in
  let shifted :=
    mapi_from 0 (fun i p =>
      if Rlt_dec (INR i) (len / 2)
      then Math_max 0 (p - reduction)
      else Math_min 1 (p + reduction)) probabilities in
  let total := sum shifted in
  map (fun prob => prob / total) shifted.

Definition shiftProbabilitiesTowardLower (probabilities : list R) (factor : R)
  : list R :=
  let reduction := (factor - 1) * 0.1 in
  let len := INR (List.length probabilities) in
  let shifted :=
    mapi_from 0 (fun i p =>
      if Rlt_dec (INR i) (len / 2)
      then Math_min 1 (p + reduction)
      else Math_max 0 (p - reduction)) probabilities in
  let total := sum shifted in
  map (fun prob => prob / total) shifted.

Definition ageGroups : list string :=
  ["18-24"; "25-34"; "35-44"; "45-54"; "55-64"; "65-74"; "75+"]%string.

(** [ageMap[ageGroup] || 40] *)
Definition ageGroupToNumeric (ageGroup : string) : R :=
  if String.eqb ageGroup "18-24" then 21
  else if String.eqb ageGroup "25-34" then 29.5
  else if String.eqb ageGroup "35-44" then 39.5
  else if String.eqb ageGroup "45-54" then 49.5
  else if String.eqb ageGroup "55-64" then 59.5
  else if String.eqb ageGroup "65-74" then 69.5
  else if String.eqb ageGroup "75+" then 80
  else 40.

Definition incomeBracketToNumeric (incomeBracket : IncomeBracket) : R :=
  match incomeBracket with
  | Under35k => 25000
  | From35to75k => 55000
  | From75to100k => 87500
  | Over100k => 125000
  end.

Definition sampleAgeGroup : Rand string :=
  weightedRandomChoice EmptyString ageGroups
    [0.11; 0.14; 0.13; 0.12; 0.13; 0.11; 0.07].

Definition sampleGender : Rand Gender :=
  weightedRandomChoice NonBinary [Male; Female; NonBinary] [0.49; 0.505; 0.005].

Definition sampleEthnicity : Rand Ethnicity :=
  weightedRandomChoice OtherEthnicity
    [White; Hispanic; Black; Asian; OtherEthnicity]
    [0.60; 0.19; 0.13; 0.06; 0.02].

(** [ageEducationProbs[ageGroup] || [0.11, 0.27, 0.29, 0.33]] *)
Definition ageEducationProbs (ageGroup : string) : list R :=
  if String.eqb ageGroup "18-24" then [0.05; 0.25; 0.45; 0.25]
  else if String.eqb ageGroup "25-34" then [0.08; 0.22; 0.30; 0.40]
  else if String.eqb ageGroup "35-44" then [0.10; 0.25; 0.28; 0.37]
  else if String.eqb ageGroup "45-54" then [0.12; 0.28; 0.30; 0.30]
  else if String.eqb ageGroup "55-64" then [0.15; 0.32; 0.28; 0.25]
  else if String.eqb ageGroup "65-74" then [0.18; 0.35; 0.25; 0.22]
  else if String.eqb ageGroup "75+" then [0.20; 0.40; 0.25; 0.15]
  else [0.11; 0.27; 0.29; 0.33].

Definition sampleEducationByAge (ageGroup : string) : Rand Education :=
  weightedRandomChoice BachelorPlus
    [LessThanHS; HighSchool; SomeCollege; BachelorPlus]
    (ageEducationProbs ageGroup).

Definition incomeBaseProbs (education : Education) : list R :=
  match education with
  | LessThanHS => [0.50; 0.35; 0.10; 0.05]
  | HighSchool => [0.35; 0.40; 0.20; 0.05]
  | SomeCollege => [0.25; 0.45; 0.25; 0.05]
  | BachelorPlus => [0.10; 0.30; 0.35; 0.25]
  end.

Definition sampleIncomeByEducationAge (education : Education)
  (ageGroup : string) : Rand IncomeBracket :=
  let probabilities := incomeBaseProbs education in
  let ageMultiplier := ageGroupToNumeric ageGroup / 50 in
  let probabilities :=
    if gtb ageMultiplier 1
    then shiftProbabilitiesTowardHigher probabilities ageMultiplier
    else probabilities in
  weightedRandomChoice Over100k
    [Under35k; From35to75k; From75to100k; Over100k] probabilities.

Definition sampleFitnessByDemographics (ageGroup : string)
  (income : IncomeBracket) (education : Education) : Rand FitnessLevel :=
  let probabilities := [0.30; 0.50; 0.20] in
  let ageNumeric := ageGroupToNumeric ageGroup in
  let probabilities :=
    if gtb ageNumeric 50 then [0.50; 0.40; 0.10]
    else if ltb ageNumeric 30 then [0.15; 0.45; 0.40]
    else probabilities in
  let incomeNumeric := incomeBracketToNumeric income in
  let probabilities :=
    if gtb incomeNumeric 75000
    then shiftProbabilitiesTowardHigher probabilities 1.2
    else if ltb incomeNumeric 35000
    then shiftProbabilitiesTowardLower probabilities 1.2
    else probabilities in
  let probabilities :=
    match education with
    | BachelorPlus => shiftProbabilitiesTowardHigher probabilities 1.1
    | _ => probabilities
    end in
  weightedRandomChoice High [Low; Medium; High] probabilities.

Definition sampleSleepTypeByDemographics (ageGroup : string)
  (income : IncomeBracket) : Rand SleepType :=
  let probabilities := [0.60; 0.25; 0.15] in
  let ageNumeric := ageGroupToNumeric ageGroup in
  let probabilities :=
    if gtb ageNumeric 50 then [0.70; 0.20; 0.10]
    else if ltb ageNumeric 30 then [0.45; 0.30; 0.25]
    else probabilities in
  let incomeNumeric := incomeBracketToNumeric income in
  let probabilities :=
    if gtb incomeNumeric 75000 then [0.70; 0.20; 0.10]
    else if ltb incomeNumeric 35000 then [0.50; 0.30; 0.20]
    else probabilities in
  weightedRandomChoice Irregular [Regular; Short; Irregular] probabilities.

Definition sampleRegion : Rand Region :=
  weightedRandomChoice West [Northeast; Midwest; South; West]
    [0.17; 0.21; 0.38; 0.24].

Definition regionProbs (region : Region) : list R :=
  match region with
  | Northeast => [0.25; 0.60; 0.15]
  | Midwest => [0.15; 0.50; 0.35]
  | South => [0.20; 0.45; 0.35]
  | West => [0.30; 0.55; 0.15]
  end.

Definition sampleUrbanRuralByRegion (region : Region) : Rand UrbanRural :=
  weightedRandomChoice Rural [Urban; Suburban; Rural] (regionProbs region).

Definition educationOccupations (education : Education) : list string :=
  match education with
  | LessThanHS => ["Service Worker"; "Laborer"; "Retail Worker"; "Unemployed"]
  | HighSchool => ["Office Worker"; "Technician"; "Sales"; "Service Worker"]
  | SomeCollege =>
      ["Administrative"; "Technician"; "Sales Manager"; "Healthcare Support"]
  | BachelorPlus =>
      ["Professional"; "Manager"; "Engineer"; "Healthcare Professional"]
  end%string.

(** [ageOccupations[ageGroup] || ['Office Worker']] *)
Definition ageOccupations (ageGroup : string) : list string :=
  (if String.eqb ageGroup "18-24"
   then ["Student"; "Service Worker"; "Retail Worker"]
   else if String.eqb ageGroup "25-34"
   then ["Professional"; "Office Worker"; "Technician"]
   else if String.eqb ageGroup "35-44"
   then ["Manager"; "Professional"; "Healthcare Professional"]
   else if String.eqb ageGroup "45-54"
   then ["Manager"; "Professional"; "Administrative"]
   else if String.eqb ageGroup "55-64"
   then ["Manager"; "Administrative"; "Consultant"]
   else if String.eqb ageGroup "65-74"
   then ["Retired"; "Consultant"; "Part-time"]
   else if String.eqb ageGroup "75+"
   then ["Retired"; "Volunteer"]
   else ["Office Worker"])%string.

(** [xs.includes(x)] *)
Definition includes (xs : list string) (x : string) : bool :=
  existsb (String.eqb x) xs.

(** [Array.from(new Set(xs))]: first occurrences, in insertion order. *)
Definition from_Set (xs : list string) : list string :=
  fold_left (fun acc x => if includes acc x then acc else acc ++ [x]) xs [].

Definition sampleOccupationByDemographics (education : Education)
  (ageGroup : string) : Rand string :=
  let educationOccupations := educationOccupations education in
  let ageOccupationsList := ageOccupations ageGroup in
  let allOccupations := from_Set (educationOccupations ++ ageOccupationsList) in
  let weights :=
    map (fun occ => if includes educationOccupations occ then 1 else 0.5)
      allOccupations in
  weightedRandomChoice EmptyString allOccupations weights.

(** The identifier of subject [i]: [`SYNTH_${i.toString().padStart(6, '0')}`] *)
Definition subjectId (i : nat) : string :=
  ("SYNTH_" ++ padStart0 6 (toString i))%string.

(** One iteration of the loop of [generateCorrelatedDemographics]. *)
Definition generatePerson (i : nat) : Rand Demographics :=
  ageGroup <- sampleAgeGroup ;;
  education <- sampleEducationByAge ageGroup ;;
  income <- sampleIncomeByEducationAge education ageGroup ;;
  fitness <- sampleFitnessByDemographics ageGroup income education ;;
  sleepType <- sampleSleepTypeByDemographics ageGroup income ;;
  region <- sampleRegion ;;
  urbanRural <- sampleUrbanRuralByRegion region ;;
  gender <- sampleGender ;;
  ethnicity <- sampleEthnicity ;;
  occupation <- sampleOccupationByDemographics education ageGroup ;;
  ret {| id := subjectId i;
         age_group := ageGroup;
         age_numeric := ageGroupToNumeric ageGroup;
         gender := gender;
         ethnicity := ethnicity;
         education := education;
         income_bracket := income;
         income_numeric := incomeBracketToNumeric income;
         fitness_level := fitness;
         sleep_type := sleepType;
         region := region;
         urban_rural := urbanRural;
         occupation := occupation |}.

(** [for (let i = 0; i < nSamples; i++) demographics.push({...})] *)
Definition generateCorrelatedDemographics (nSamples : Z)
  : Rand (list Demographics) :=
  for_each (seq 0 (Z.to_nat nSamples)) generatePerson.

End DemographicGenerator.

(* ===================================================================== *)
(** * ResearchValidatedTWAGenerator (services/TWABehaviorGenerator.ts)   *)
(* ===================================================================== *)

Module TWABehaviorGenerator.

Record DemoFactors : Type := mkDemoFactors {
  age : R;
  income : R;
  df_education : Education;
  fitness : FitnessLevel;
  sleepType : SleepType;
  df_region : Region;
  urbanRural : UrbanRural
}.

Record SeasonalFactors : Type := mkSeasonalFactors {
  exercise : R;
  mood : R;
  outdoor : R
}.

Record SleepBehavior : Type := mkSleepBehavior {
  hours : R;
  quality : R
}.

(** The class carries its own copy of [weightedRandomChoice], with the
    body of the demographic generator's. *)
Definition weightedRandomChoice {T} (undef : T) (items : list T)
  (weights : list R) : Rand T :=
  DemographicGenerator.weightedRandomChoice undef items weights.

Definition calculateDemographicFactors (d : Demographics) : DemoFactors :=
  {| age := age_numeric d;
     income := income_numeric d;
     df_education := education d;
     fitness := fitness_level d;
     sleepType := sleep_type d;
     df_region := region d;
     urbanRural := urban_rural d |}.

Definition calculateSeasonalFactors (season : Season) : SeasonalFactors :=
  match season with
  | Spring => {| exercise := 1.1; mood := 1.05; outdoor := 1.2 |}
  | Summer => {| exercise := 1.2; mood := 1.1; outdoor := 1.5 |}
  | Fall => {| exercise := 0.9; mood := 0.95; outdoor := 1.0 |}
  | Winter => {| exercise := 0.8; mood := 0.9; outdoor := 0.6 |}
  end.

Definition generateMotionBehavior (demoFactors : DemoFactors)
  (seasonalFactors : SeasonalFactors) : Rand R :=
  let fitnessMultiplier :=
    match fitness demoFactors with
    | Low => 0.3 | Medium => 0.6 | High => 1.0
    end in
  let ageEffect := Math_max 0.3 (1 - (age demoFactors - 25) / 100) in
  let incomeEffect := Math_min 1.5 (0.5 + income demoFactors / 100000) in
  let educationEffect :=
    match df_education demoFactors with
    | LessThanHS => 0.7 | HighSchool => 0.8 | SomeCollege => 0.9
    | BachelorPlus => 1.1
    end in
  let baseDays :=
    2 + fitnessMultiplier * ageEffect * incomeEffect * educationEffect * 3 in
  let baseDays := baseDays * exercise seasonalFactors in
  r <- Math_random ;;
  let randomFactor := 0.8 + r * 0.4 in
  let baseDays := baseDays * randomFactor in
  ret (Math_round (Math_max 0 (Math_min 7 baseDays))).

Definition generateSleepBehavior (demoFactors : DemoFactors) (motionDays : R)
  : Rand SleepBehavior :=
  let '(baseHours, baseQuality) :=
    if gtb (age demoFactors) 65 then (7.0, 6.5)
    else if ltb (age demoFactors) 30 then (8.0, 7.5)
    else (7.5, 7) in
  let sleepTypeEffect :=
    match sleepType demoFactors with
    | Regular => {| hours := 1.0; quality := 1.0 |}
    | Short => {| hours := 0.7; quality := 0.6 |}
    | Irregular => {| hours := 0.8; quality := 0.7 |}
    end in
  let exerciseEffect := 1 + (motionDays - 3) * 0.1 in
  let incomeEffect := 0.9 + income demoFactors / 200000 in
  let hours_ := baseHours * hours sleepTypeEffect * exerciseEffect * incomeEffect in
  let quality_ :=
    baseQuality * quality sleepTypeEffect * exerciseEffect * incomeEffect in
  r1 <- Math_random ;;
  let hoursRandom := 0.9 + r1 * 0.2 in
  r2 <- Math_random ;;
  let qualityRandom := 0.8 + r2 * 0.4 in
  ret {| hours := Math_max 4 (Math_min 10 (hours_ * hoursRandom));
         quality := Math_max 1 (Math_min 10 (quality_ * qualityRandom)) |}.

Definition generateHydrationBehavior (demoFactors : DemoFactors)
  (sleepQuality : SleepBehavior) : Rand R :=
  let baseCups := 6 in
  let sleepEffect := 0.8 + quality sleepQuality / 10 * 0.4 in
  let ageEffect := Math_max 0.7 (1 - (age demoFactors - 30) / 200) in
  let educationEffect :=
    match df_education demoFactors with
    | LessThanHS => 0.8 | HighSchool => 0.9 | SomeCollege => 1.0
    | BachelorPlus => 1.1
    end in
  let baseCups := baseCups * (sleepEffect * ageEffect * educationEffect) in
  r <- Math_random ;;
  let randomFactor := 0.8 + r * 0.4 in
  let baseCups := baseCups * randomFactor in
  ret (Math_max 2 (Math_min 12 (Math_round baseCups))).

Definition generateDietBehavior (demoFactors : DemoFactors) (motionDays : R)
  : Rand R :=
  let baseScore := 5 in
  let exerciseEffect := 0.8 + motionDays / 7 * 0.4 in
  let educationEffect :=
    match df_education demoFactors with
    | LessThanHS => 0.6 | HighSchool => 0.8 | SomeCollege => 1.0
    | BachelorPlus => 1.2
    end in
  let incomeEffect := 0.7 + income demoFactors / 150000 in
  let ageEffect := Math_min 1.3 (0.8 + age demoFactors / 200) in
  let baseScore :=
    baseScore * (exerciseEffect * educationEffect * incomeEffect * ageEffect) in
  r <- Math_random ;;
  let randomFactor := 0.7 + r * 0.6 in
  let baseScore := baseScore * randomFactor in
  ret (Math_max 1 (Math_min 10 (Math_round (baseScore * 10) / 10))).

Definition generateMeditationBehavior (demoFactors : DemoFactors)
  (dietScore : R) : Rand R :=
  let baseMinutes := 30 in
  let dietEffect := 0.5 + dietScore / 10 * 0.5 in
  let ageEffect := Math_min 2.0 (0.5 + age demoFactors / 100) in
  let educationEffect :=
    match df_education demoFactors with
    | LessThanHS => 0.3 | HighSchool => 0.6 | SomeCollege => 1.0
    | BachelorPlus => 1.5
    end in
  let incomeEffect := 0.6 + income demoFactors / 200000 in
  let baseMinutes :=
    baseMinutes * (dietEffect * ageEffect * educationEffect * incomeEffect) in
  r <- Math_random ;;
  let randomFactor := 0.2 + r * 1.6 in
  let baseMinutes := baseMinutes * randomFactor in
  ret (Math_max 0 (Math_min 300 (Math_round baseMinutes))).

Definition generateSmokingBehavior (demoFactors : DemoFactors)
  : Rand SmokingStatus :=
  let probabilities := [0.65; 0.25; 0.10] in
  let probabilities :=
    if gtb (income demoFactors) 75000 then [0.80; 0.15; 0.05]
    else if ltb (income demoFactors) 35000 then [0.50; 0.30; 0.20]
    else probabilities in
  let probabilities :=
    if gtb (age demoFactors) 50 then [0.60; 0.30; 0.10]
    else probabilities in
  weightedRandomChoice Current [Never; Former; Current] probabilities.

Definition generateAlcoholBehavior (demoFactors : DemoFactors)
  (smokingStatus : SmokingStatus) : Rand R :=
  let baseDrinks := 2 in
  let smokingEffect :=
    match smokingStatus with
    | Never => 1.0 | Former => 1.2 | Current => 1.5
    end in
  let ageEffect :=
    if ltb (age demoFactors) 30 then 1.5
    else if gtb (age demoFactors) 50 then 0.7
    else 1.0 in
  let incomeEffect := 0.5 + income demoFactors / 100000 in
  let educationEffect :=
    match df_education demoFactors with
    | LessThanHS => 0.7 | HighSchool => 0.9 | SomeCollege => 1.1
    | BachelorPlus => 1.3
    end in
  let baseDrinks :=
    baseDrinks * (smokingEffect * ageEffect * incomeEffect * educationEffect) in
  r <- Math_random ;;
  let randomFactor := 0.3 + r * 1.4 in
  let baseDrinks := baseDrinks * randomFactor in
  ret (Math_max 0 (Math_min 35 (Math_round baseDrinks))).

Definition generateSugarBehavior (demoFactors : DemoFactors) (dietScore : R)
  : Rand R :=
  let baseGrams := 50 in
  let dietEffect := 2 - dietScore / 10 in
  let educationEffect :=
    match df_education demoFactors with
    | LessThanHS => 1.3 | HighSchool => 1.1 | SomeCollege => 1.0
    | BachelorPlus => 0.8
    end in
  let ageEffect := Math_max 0.6 (1.5 - age demoFactors / 100) in
  let baseGrams := baseGrams * (dietEffect * educationEffect * ageEffect) in
  r <- Math_random ;;
  let randomFactor := 0.6 + r * 0.8 in
  let baseGrams := baseGrams * randomFactor in
  ret (Math_max 10 (Math_min 150 (Math_round baseGrams))).

Definition generateSodiumBehavior (demoFactors : DemoFactors) (dietScore : R)
  : Rand R :=
  let baseGrams := 3.5 in
  let dietEffect := 2 - dietScore / 10 in
  let ageEffect := Math_min 1.5 (0.8 + age demoFactors / 200) in
  let incomeEffect := 1.5 - income demoFactors / 200000 in
  let baseGrams := baseGrams * (dietEffect * ageEffect * incomeEffect) in
  r <- Math_random ;;
  let randomFactor := 0.7 + r * 0.6 in
  let baseGrams := baseGrams * randomFactor in
  ret (Math_max 1 (Math_min 8 (Math_round (baseGrams * 10) / 10))).

Definition generateProcessedFoods (demoFactors : DemoFactors) (dietScore : R)
  : Rand R :=
  let baseServings := 5 in
  let dietEffect := 2 - dietScore / 10 in
  let incomeEffect := 1.5 - income demoFactors / 150000 in
  let educationEffect :=
    match df_education demoFactors with
    | LessThanHS => 1.4 | HighSchool => 1.2 | SomeCollege => 1.0
    | BachelorPlus => 0.7
    end in
  let baseServings :=
    baseServings * (dietEffect * incomeEffect * educationEffect) in
  r <- Math_random ;;
  let randomFactor := 0.6 + r * 0.8 in
  let baseServings := baseServings * randomFactor in
  ret (Math_max 0 (Math_min 20 (Math_round baseServings))).

Definition generateSocialConnections (demoFactors : DemoFactors) : Rand R :=
  let baseConnections := 3 in
  let urbanEffect :=
    match urbanRural demoFactors with
    | Urban => 1.3 | Suburban => 1.1 | Rural => 0.8
    end in
  let incomeEffect := 0.7 + income demoFactors / 200000 in
  let ageEffect :=
    Math_max 0.6 (1.2 - Math_abs (age demoFactors - 40) / 50) in
  let educationEffect :=
    match df_education demoFactors with
    | LessThanHS => 0.8 | HighSchool => 0.9 | SomeCollege => 1.0
    | BachelorPlus => 1.2
    end in
  let baseConnections :=
    baseConnections * (urbanEffect * incomeEffect * ageEffect * educationEffect) in
  r <- Math_random ;;
  let randomFactor := 0.6 + r * 0.8 in
  let baseConnections := baseConnections * randomFactor in
  ret (Math_max 0 (Math_min 10 (Math_round baseConnections))).

Definition generateNatureConnection (demoFactors : DemoFactors)
  (seasonalFactors : SeasonalFactors) : Rand R :=
  let baseMinutes := 60 in
  let baseMinutes := baseMinutes * outdoor seasonalFactors in
  let urbanEffect :=
    match urbanRural demoFactors with
    | Urban => 0.5 | Suburban => 0.8 | Rural => 1.5
    end in
  let incomeEffect := 0.6 + income demoFactors / 200000 in
  let ageEffect := Math_min 1.5 (0.7 + age demoFactors / 150) in
  let baseMinutes := baseMinutes * (urbanEffect * incomeEffect * ageEffect) in
  r <- Math_random ;;
  let randomFactor := 0.4 + r * 1.2 in
  let baseMinutes := baseMinutes * randomFactor in
  ret (Math_max 0 (Math_min 300 (Math_round baseMinutes))).

Definition generateCulturalActivities (demoFactors : DemoFactors) : Rand R :=
  let baseHours := 2 in
  let educationEffect :=
    match df_education demoFactors with
    | LessThanHS => 0.5 | HighSchool => 0.8 | SomeCollege => 1.0
    | BachelorPlus => 1.5
    end in
  let incomeEffect := 0.5 + income demoFactors / 150000 in
  let ageEffect :=
    Math_max 0.6 (1.2 - Math_abs (age demoFactors - 45) / 60) in
  let baseHours := baseHours * (educationEffect * incomeEffect * ageEffect) in
  r <- Math_random ;;
  let randomFactor := 0.3 + r * 1.4 in
  let baseHours := baseHours * randomFactor in
  ret (Math_max 0 (Math_min 20 (Math_round baseHours))).

Definition generatePurposeMeaning (demoFactors : DemoFactors)
  (socialConnections meditationMins : R) : Rand R :=
  let baseScore := 5 in
  let socialEffect := 0.5 + socialConnections / 10 * 0.5 in
  let meditationEffect := 0.6 + meditationMins / 300 * 0.4 in
  let ageEffect := Math_min 1.5 (0.7 + age demoFactors / 100) in
  let educationEffect :=
    match df_education demoFactors with
    | LessThanHS => 0.8 | HighSchool => 0.9 | SomeCollege => 1.0
    | BachelorPlus => 1.1
    end in
  let baseScore :=
    baseScore * (socialEffect * meditationEffect * ageEffect * educationEffect) in
  r <- Math_random ;;
  let randomFactor := 0.6 + r * 0.8 in
  let baseScore := baseScore * randomFactor in
  ret (Math_max 1 (Math_min 10 (Math_round (baseScore * 10) / 10))).

Definition generateMonthlyTWABehaviors (personDemographics : Demographics)
  (month : nat) (season : Season) : Rand TWABehaviors :=
  let demoFactors := calculateDemographicFactors personDemographics in
  let seasonalFactors := calculateSeasonalFactors season in
  motionDays <- generateMotionBehavior demoFactors seasonalFactors ;;
  sleepQuality <- generateSleepBehavior demoFactors motionDays ;;
  hydration <- generateHydrationBehavior demoFactors sleepQuality ;;
  dietScore <- generateDietBehavior demoFactors motionDays ;;
  meditationMins <- generateMeditationBehavior demoFactors dietScore ;;
  smokingStatus <- generateSmokingBehavior demoFactors ;;
  alcoholDrinks <- generateAlcoholBehavior demoFactors smokingStatus ;;
  sugarGrams <- generateSugarBehavior demoFactors dietScore ;;
  sodiumGrams <- generateSodiumBehavior demoFactors dietScore ;;
  processedServings <- generateProcessedFoods demoFactors dietScore ;;
  socialConnections <- generateSocialConnections demoFactors ;;
  natureMinutes <- generateNatureConnection demoFactors seasonalFactors ;;
  culturalEngagement <- generateCulturalActivities demoFactors ;;
  purposeScore <-
    generatePurposeMeaning demoFactors socialConnections meditationMins ;;
  ret {| motion_days_week := motionDays;
         sleep_hours := hours sleepQuality;
         sleep_quality_score := quality sleepQuality;
         hydration_cups_day := hydration;
         diet_mediterranean_score := dietScore;
         meditation_minutes_week := meditationMins;
         smoking_status := smokingStatus;
         alcohol_drinks_week := alcoholDrinks;
         added_sugar_grams_day := sugarGrams;
         sodium_grams_day := sodiumGrams;
         processed_food_servings_week := processedServings;
         social_connections_count := socialConnections;
         nature_minutes_week := natureMinutes;
         cultural_hours_week := culturalEngagement;
         purpose_meaning_score := purposeScore |}.

End TWABehaviorGenerator.

(* ===================================================================== *)
(** * WellnessAgingOutcomeGenerator (services/OutcomeGenerator.ts)       *)
(* ===================================================================== *)

Module OutcomeGenerator.

Record BiologicalAgeEffects : Type := mkBiologicalAgeEffects {
  motion_high : R;
  diet_mediterranean : R;
  meditation_regular : R;
  ba_smoking_current : R;
  ba_purpose_high : R;
  social_connected : R;
  sleep_quality : R;
  alcohol_excess : R;
  processed_foods : R
}.

Record MortalityRiskEffects : Type := mkMortalityRiskEffects {
  purpose_high : R;
  social_isolated : R;
  smoking_current : R;
  exercise_regular : R;
  diet_quality_high : R;
  meditation_practice : R
}.

Record BiomarkerEffects : Type := mkBiomarkerEffects {
  crp_reduction_exercise : R;
  il6_reduction_meditation : R;
  telomere_exercise : R;
  cortisol_nature : R;
  igf1_caloric_restriction : R
}.

Record ResearchEffects : Type := mkResearchEffects {
  biologicalAgeEffects : BiologicalAgeEffects;
  mortalityRiskEffects : MortalityRiskEffects;
  biomarkerEffects : BiomarkerEffects
}.

Definition loadResearchEffectSizes : ResearchEffects :=
  {| biologicalAgeEffects :=
       {| motion_high := -1.2;
          diet_mediterranean := -2.3;
          meditation_regular := -1.8;
          ba_smoking_current := 5.3;
          ba_purpose_high := -3.1;
          social_connected := -1.5;
          sleep_quality := -0.5;
          alcohol_excess := 2.1;
          processed_foods := 1.7 |};
     mortalityRiskEffects :=
       {| purpose_high := 0.57;
          social_isolated := 1.91;
          smoking_current := 2.24;
          exercise_regular := 0.72;
          diet_quality_high := 0.70;
          meditation_practice := 0.82 |};
     biomarkerEffects :=
       {| crp_reduction_exercise := -0.25;
          il6_reduction_meditation := -0.30;
          telomere_exercise := 0.15;
          cortisol_nature := -0.30;
          igf1_caloric_restriction := -0.18 |} |}.

(** [this.researchEffects], set once by the constructor. *)
Definition researchEffects : ResearchEffects := loadResearchEffectSizes.

Record Biomarkers : Type := mkBiomarkers {
  crp : R;
  il6 : R;
  igf1 : R;
  gdf15 : R;
  cortisol : R
}.

Record FunctionalMeasures : Type := mkFunctionalMeasures {
  grip_strength : R;
  gait_speed : R;
  balance : R;
  frailty : R;
  cognitive : R;
  processing_speed : R
}.

Record PsychosocialOutcomes : Type := mkPsychosocialOutcomes {
  life_satisfaction : R;
  stress : R;
  depression_risk : R;
  social_support : R
}.

Definition is_female (g : Gender) : bool :=
  match g with Female => true | _ => false end.

Definition is_male (g : Gender) : bool :=
  match g with Male => true | _ => false end.

Definition getBaseCRP (age : R) (gender : Gender) : R :=
  let baseValue := if is_female gender then 2.5 else 2.0 in
  baseValue + (age - 30) * 0.05.

Definition getBaseIL6 (age : R) (gender : Gender) : R :=
  let baseValue := if is_female gender then 1.8 else 1.5 in
  baseValue + (age - 30) * 0.03.

Definition getBaseIGF1 (age : R) (gender : Gender) : R :=
  let baseValue := if is_male gender then 200 else 180 in
  Math_max 100 (baseValue - (age - 30) * 2).

Definition getBaseGDF15 (age : R) (gender : Gender) : R :=
  let baseValue := if is_female gender then 800 else 700 in
  baseValue + (age - 30) * 15.

Definition getBaseCortisol (age : R) (gender : Gender) : R :=
  let baseValue := if is_female gender then 12 else 10 in
  baseValue + (age - 30) * 0.1.

Definition getBaseGripStrength (age : R) (gender : Gender) : R :=
  let baseValue := if is_male gender then 45 else 28 in
  Math_max 10 (baseValue - (age - 30) * 0.3).

Definition getBaseGaitSpeed (age : R) (gender : Gender) : R :=
  let baseValue := 1.4 in
  Math_max 0.5 (baseValue - (age - 30) * 0.005).

Definition getBaseBalance (age : R) (gender : Gender) : R :=
  let baseValue := 8 in
  Math_max 1 (baseValue - (age - 30) * 0.02).

Definition getBaseFrailty (age : R) : R :=
  Math_min 1 (Math_max 0 ((age - 30) * 0.01)).

Definition calculateBiologicalAge (chronologicalAge : R)
  (behaviors : TWABehaviors) (monthsElapsed : R) : R :=
  let effects := biologicalAgeEffects researchEffects in
  let ageModification := 0 in
  let ageModification :=
    if geb (motion_days_week behaviors) 4
    then ageModification + motion_high effects else ageModification in
  let ageModification :=
    if geb (diet_mediterranean_score behaviors) 7
    then ageModification + diet_mediterranean effects else ageModification in
  let ageModification :=
    if geb (meditation_minutes_week behaviors) 150
    then ageModification + meditation_regular effects else ageModification in
  let ageModification :=
    if geb (sleep_quality_score behaviors) 7
    then ageModification + sleep_quality effects * sleep_hours behaviors
    else ageModification in
  let ageModification :=
    if geb (purpose_meaning_score behaviors) 8
    then ageModification + ba_purpose_high effects else ageModification in
  let ageModification :=
    if geb (social_connections_count behaviors) 4
    then ageModification + social_connected effects else ageModification in
  let ageModification :=
    if SmokingStatus_eqb (smoking_status behaviors) Current
    then ageModification - ba_smoking_current effects else ageModification in
  let ageModification :=
    if gtb (alcohol_drinks_week behaviors) 14
    then ageModification - alcohol_excess effects else ageModification in
  let ageModification :=
    if gtb (processed_food_servings_week behaviors) 10
    then ageModification - processed_foods effects else ageModification in
  let monthlyEffect := ageModification / 12 in
  let cumulativeEffect := monthlyEffect * monthsElapsed in
  let biologicalAge := chronologicalAge + monthsElapsed / 12 + cumulativeEffect in
  Math_max 18 biologicalAge.

Definition calculateMortalityRisk (demographics : Demographics)
  (behaviors : TWABehaviors) (biologicalAge : R) : R :=
  let effects := mortalityRiskEffects researchEffects in
  let riskScore := 1.0 in
  let riskScore :=
    if geb (purpose_meaning_score behaviors) 8
    then riskScore * purpose_high effects else riskScore in
  let riskScore :=
    if geb (motion_days_week behaviors) 3
    then riskScore * exercise_regular effects else riskScore in
  let riskScore :=
    if geb (diet_mediterranean_score behaviors) 7
    then riskScore * diet_quality_high effects else riskScore in
  let riskScore :=
    if geb (meditation_minutes_week behaviors) 150
    then riskScore * meditation_practice effects else riskScore in
  let riskScore :=
    if SmokingStatus_eqb (smoking_status behaviors) Current
    then riskScore * smoking_current effects else riskScore in
  let riskScore :=
    if ltb (social_connections_count behaviors) 2
    then riskScore * social_isolated effects else riskScore in
  let ageEffect := Math_pow 1.1 ((biologicalAge - 30) / 10) in
  let riskScore := riskScore * ageEffect in
  Math_max 0.1 (Math_min 10.0 riskScore).

Definition generateBiomarkers (demographics : Demographics)
  (behaviors : TWABehaviors) (biologicalAge : R) : Rand Biomarkers :=
  let effects := biomarkerEffects researchEffects in
  let baseCRP := getBaseCRP (age_numeric demographics) (gender demographics) in
  let baseIL6 := getBaseIL6 (age_numeric demographics) (gender demographics) in
  let baseIGF1 := getBaseIGF1 (age_numeric demographics) (gender demographics) in
  let baseGDF15 := getBaseGDF15 (age_numeric demographics) (gender demographics) in
  let baseCortisol :=
    getBaseCortisol (age_numeric demographics) (gender demographics) in
  let crp := baseCRP in
  let il6 := baseIL6 in
  let igf1 := baseIGF1 in
  let gdf15 := baseGDF15 in
  let cortisol := baseCortisol in
  let '(crp, igf1) :=
    if geb (motion_days_week behaviors) 4
    then (crp * (1 + crp_reduction_exercise effects),
          igf1 * (1 + telomere_exercise effects))
    else (crp, igf1) in
  let '(il6, cortisol) :=
    if geb (meditation_minutes_week behaviors) 150
    then (il6 * (1 + il6_reduction_meditation effects),
          cortisol * (1 + cortisol_nature effects))
    else (il6, cortisol) in
  let cortisol :=
    if geb (nature_minutes_week behaviors) 120
    then cortisol * (1 + cortisol_nature effects) else cortisol in
  let '(crp, il6) :=
    if geb (diet_mediterranean_score behaviors) 7
    then (crp * 0.8, il6 * 0.85) else (crp, il6) in
  let stressLevel :=
    Math_max 0 (10 - meditation_minutes_week behaviors / 30
                   - nature_minutes_week behaviors / 60) in
  let cortisol := cortisol * (1 + stressLevel * 0.1) in
  r <- Math_random ;;
  let variation := 0.8 + r * 0.4 in
  ret {| crp := Math_max 0.1 (crp * variation);
         il6 := Math_max 0.1 (il6 * variation);
         igf1 := Math_max 50 (igf1 * variation);
         gdf15 := Math_max 100 (gdf15 * variation);
         cortisol := Math_max 5 (cortisol * variation) |}.

Definition calculateCognitiveScore (demographics : Demographics)
  (behaviors : TWABehaviors) (biologicalAge : R) : R :=
  let cognitive := 100 in
  let cognitive := cognitive - (biologicalAge - 30) * 0.5 in
  let educationEffect :=
    match education demographics with
    | LessThanHS => 0.8 | HighSchool => 0.9 | SomeCollege => 1.0
    | BachelorPlus => 1.1
    end in
  let cognitive := cognitive * educationEffect in
  let cognitive :=
    if geb (motion_days_week behaviors) 4 then cognitive * 1.1 else cognitive in
  let cognitive := cognitive + meditation_minutes_week behaviors * 0.1 in
  let cognitive := cognitive + social_connections_count behaviors * 2 in
  Math_max 50 (Math_min 150 cognitive).

Definition calculateProcessingSpeed (demographics : Demographics)
  (behaviors : TWABehaviors) (biologicalAge : R) : R :=
  let processingSpeed := 100 in
  let processingSpeed := processingSpeed - (biologicalAge - 25) * 0.3 in
  let processingSpeed :=
    if geb (motion_days_week behaviors) 4
    then processingSpeed * 1.05 else processingSpeed in
  let processingSpeed :=
    processingSpeed + (hydration_cups_day behaviors - 6) * 1 in
  let processingSpeed :=
    if geb (sleep_quality_score behaviors) 7
    then processingSpeed * 1.05 else processingSpeed in
  Math_max 50 (Math_min 150 processingSpeed).

Definition generateFunctionalMeasures (demographics : Demographics)
  (behaviors : TWABehaviors) (biologicalAge : R) : FunctionalMeasures :=
  let baseGripStrength :=
    getBaseGripStrength (age_numeric demographics) (gender demographics) in
  let baseGaitSpeed :=
    getBaseGaitSpeed (age_numeric demographics) (gender demographics) in
  let baseBalance :=
    getBaseBalance (age_numeric demographics) (gender demographics) in
  let baseFrailty := getBaseFrailty (age_numeric demographics) in
  let gripStrength := baseGripStrength in
  let gaitSpeed := baseGaitSpeed in
  let balance := baseBalance in
  let frailty := baseFrailty in
  let '(gripStrength, gaitSpeed, balance, frailty) :=
    if geb (motion_days_week behaviors) 4
    then (gripStrength * 1.15, gaitSpeed * 1.1, balance * 1.1, frailty * 0.8)
    else (gripStrength, gaitSpeed, balance, frailty) in
  let '(gripStrength, gaitSpeed, balance, frailty) :=
    if geb (diet_mediterranean_score behaviors) 7
    then (gripStrength * 1.05, gaitSpeed * 1.05, balance * 1.05, frailty * 0.9)
    else (gripStrength, gaitSpeed, balance, frailty) in
  let '(gripStrength, gaitSpeed, balance, frailty) :=
    if geb (sleep_quality_score behaviors) 7
    then (gripStrength * 1.05, gaitSpeed * 1.05, balance * 1.05, frailty * 0.95)
    else (gripStrength, gaitSpeed, balance, frailty) in
  let frailty :=
    if geb (social_connections_count behaviors) 4
    then frailty * 0.9 else frailty in
  let cognitive := calculateCognitiveScore demographics behaviors biologicalAge in
  let processingSpeed :=
    calculateProcessingSpeed demographics behaviors biologicalAge in
  {| grip_strength := Math_max 10 gripStrength;
     gait_speed := Math_max 0.5 gaitSpeed;
     balance := Math_max 1 (Math_min 10 balance);
     frailty := Math_max 0 (Math_min 1 frailty);
     cognitive := cognitive;
     processing_speed := processingSpeed |}.

Definition generatePsychosocialOutcomes (behaviors : TWABehaviors)
  (biomarkers : Biomarkers) : PsychosocialOutcomes :=
  let lifeSatisfaction := 5 in
  let lifeSatisfaction :=
    lifeSatisfaction + (purpose_meaning_score behaviors - 5) * 0.3 in
  let lifeSatisfaction :=
    lifeSatisfaction + (social_connections_count behaviors - 3) * 0.2 in
  let lifeSatisfaction :=
    lifeSatisfaction + (motion_days_week behaviors - 3) * 0.1 in
  let lifeSatisfaction :=
    lifeSatisfaction + meditation_minutes_week behaviors / 100 * 0.2 in
  let stress :=
    Math_max 1 (10 - lifeSatisfaction - meditation_minutes_week behaviors / 50) in
  let depressionRisk :=
    Math_max 1 (stress * 0.8 - social_connections_count behaviors * 0.5) in
  let socialSupport :=
    Math_min 10 (social_connections_count behaviors * 1.5
                 + purpose_meaning_score behaviors * 0.3) in
  {| life_satisfaction := Math_max 1 (Math_min 10 lifeSatisfaction);
     stress := Math_max 1 (Math_min 10 stress);
     depression_risk := Math_max 1 (Math_min 10 depressionRisk);
     social_support := Math_max 1 (Math_min 10 socialSupport) |}.

Definition calculateEstimatedLifespan (demographics : Demographics)
  (mortalityRisk : R) : Rand R :=
  let baseLifespan := if is_female (gender demographics) then 81 else 76 in
  let adjustedLifespan := baseLifespan / mortalityRisk in
  r <- Math_random ;;
  let variation := 0.9 + r * 0.2 in
  ret (Math_max 50 (Math_min 100 (adjustedLifespan * variation))).

Definition generateAgingWellnessOutcomes (demographics : Demographics)
  (twaBehaviors : TWABehaviors) (baselineAge : R) (monthsElapsed : R)
  : Rand WellnessOutcomes :=
  let biologicalAge :=
    calculateBiologicalAge baselineAge twaBehaviors monthsElapsed in
  let mortalityRisk :=
    calculateMortalityRisk demographics twaBehaviors biologicalAge in
  biomarkers <- generateBiomarkers demographics twaBehaviors biologicalAge ;;
  let functionalMeasures :=
    generateFunctionalMeasures demographics twaBehaviors biologicalAge in
  let psychosocialOutcomes :=
    generatePsychosocialOutcomes twaBehaviors biomarkers in
  lifespan <- calculateEstimatedLifespan demographics mortalityRisk ;;
  ret {| biological_age_years := biologicalAge;
         biological_age_acceleration := biologicalAge - baselineAge;
         mortality_risk_score := mortalityRisk;
         estimated_lifespan_years := lifespan;
         crp_mg_l := crp biomarkers;
         il6_pg_ml := il6 biomarkers;
         igf1_ng_ml := igf1 biomarkers;
         gdf15_pg_ml := gdf15 biomarkers;
         cortisol_ug_dl := cortisol biomarkers;
         grip_strength_kg := grip_strength functionalMeasures;
         gait_speed_ms := gait_speed functionalMeasures;
         balance_score := balance functionalMeasures;
         frailty_index := frailty functionalMeasures;
         cognitive_composite_score := cognitive functionalMeasures;
         processing_speed_score := processing_speed functionalMeasures;
         life_satisfaction_score := life_satisfaction psychosocialOutcomes;
         stress_level_score := stress psychosocialOutcomes;
         depression_risk_score := depression_risk psychosocialOutcomes;
         social_support_score := social_support psychosocialOutcomes |}.

End OutcomeGenerator.

(* ===================================================================== *)
(** * LongitudinalTWADataGenerator (services/LongitudinalDataGenerator.ts) *)
(* ===================================================================== *)

Module LongitudinalDataGenerator.

Import DemographicGenerator TWABehaviorGenerator OutcomeGenerator.

(** ** Generation *)

Definition seasons : list Season :=
  [Winter; Winter; Spring; Spring; Spring; Summer; Summer; Summer;
   Fall; Fall; Fall; Winter].

(** [seasons[month % 12]].  The default of [nth] stands for the
    [undefined] of an index out of range, which [month % 12] never is. *)
Definition monthToSeason (month : nat) : Season :=
  nth (month mod 12) seasons Winter.

Definition generateObservationDate (month : nat) : string :=
  let year := 2024%nat in
  let monthNum := (month mod 12 + 1)%nat in
  (toString year ++ "-" ++ padStart0 2 (toString monthNum) ++ "-15")%string.

Definition calculateHealthyAgingProfile (behaviors : TWABehaviors)
  (outcomes : WellnessOutcomes) : R :=
  let behavioralScore :=
    motion_days_week behaviors / 7 * 0.15
    + diet_mediterranean_score behaviors / 10 * 0.15
    + Math_min (meditation_minutes_week behaviors) 300 / 300 * 0.10 in
  let biologicalScore :=
    Math_max 0 ((85 - biological_age_years outcomes) / 85) * 0.20
    + (1 - Math_min (mortality_risk_score outcomes) 1) * 0.20 in
  let psychosocialScore :=
    life_satisfaction_score outcomes / 10 * 0.10
    + purpose_meaning_score behaviors / 10 * 0.10 in
  let totalScore :=
    (behavioralScore + biologicalScore + psychosocialScore) * 100 in
  Math_min 100 (Math_max 0 totalScore).

(** The values of the [similarityFactors] object, in key order. *)
Definition similarityFactors (behaviors : TWABehaviors) : list R :=
  [ Math_min (diet_mediterranean_score behaviors / 8) 1;
    Math_min (motion_days_week behaviors / 5) 1;
    Math_min (meditation_minutes_week behaviors / 150) 1;
    Math_min (social_connections_count behaviors / 4) 1;
    Math_min (purpose_meaning_score behaviors / 8) 1;
    if leb (alcohol_drinks_week behaviors) 7 then 1 else 0;
    if SmokingStatus_eqb (smoking_status behaviors) Never then 1 else 0 ].

Definition calculateBlueZoneSimilarity (behaviors : TWABehaviors)
  (demographics : Demographics) : R :=
  let factors := similarityFactors behaviors in
  sum factors / INR (List.length factors) * 100.

(** The body of the inner loop: the record of one subject-month. *)
Definition generateMonthlyRecord (person : Demographics) (baselineAge : R)
  (month : nat) : Rand MonthlyRecord :=
  let season := monthToSeason month in
  twaBehaviors <- generateMonthlyTWABehaviors person month season ;;
  outcomes <-
    generateAgingWellnessOutcomes person twaBehaviors baselineAge (INR month) ;;
  ret {| subject_id := id person;
         month := month;
         season := season;
         observation_date := generateObservationDate month;
         demographics := person;
         behaviors := twaBehaviors;
         outcomes := outcomes;
         meets_exercise_guidelines := geb (motion_days_week twaBehaviors) 3;
         meets_sleep_guidelines :=
           geb (sleep_hours twaBehaviors) 7
           && geb (sleep_quality_score twaBehaviors) 6;
         high_diet_quality := geb (diet_mediterranean_score twaBehaviors) 7;
         regular_meditation := geb (meditation_minutes_week twaBehaviors) 150;
         strong_social_support := geb (social_connections_count twaBehaviors) 4;
         high_purpose := geb (purpose_meaning_score twaBehaviors) 8;
         healthy_aging_profile :=
           calculateHealthyAgingProfile twaBehaviors outcomes;
         blue_zone_similarity_score :=
           calculateBlueZoneSimilarity twaBehaviors person |}.

(** [for (let month = 0; month < config.months; month++) { ... }] *)
Definition generateSubjectRecords (months : Z) (person : Demographics)
  : Rand (list MonthlyRecord) :=
  let baselineAge := age_numeric person in
  for_each (seq 0 (Z.to_nat months)) (generateMonthlyRecord person baselineAge).

(** [generateCompleteDataset(config)].  The records every subject pushes
    are appended to [completeDataset] in subject order.  The body has no
    [throw]: the completion is always a normal return. *)
Definition generateCompleteDataset (config : DatasetConfig)
  : Rand (completion GeneratorError (list MonthlyRecord)) :=
  demographics <- generateCorrelatedDemographics (n_subjects config) ;;
  perSubject <- for_each demographics (generateSubjectRecords (months config)) ;;
  let completeDataset := List.concat perSubject in
  ret (Return completeDataset).

(** ** Validation helpers *)

(** A JavaScript object or [Map] with string keys, in insertion order. *)
Definition dict (V : Type) : Type := list (string * V).

Fixpoint dict_get {V} (d : dict V) (k : string) : option V :=
  match d with
  | [] => None
  | (k', v) :: d' => if String.eqb k' k then Some v else dict_get d' k
  end.

Definition dict_has {V} (d : dict V) (k : string) : bool :=
  match dict_get d k with Some _ => true | None => false end.

(** [d[k] = v]: update in place, or append a new key. *)
Fixpoint dict_set {V} (d : dict V) (k : string) (v : V) : dict V :=
  match d with
  | [] => [(k, v)]
  | (k', v') :: d' =>
      if String.eqb k' k then (k', v) :: d' else (k', v') :: dict_set d' k v
  end.

Definition dict_keys {V} (d : dict V) : list string := map fst d.
Definition dict_values {V} (d : dict V) : list V := map snd d.

(** [d[k] || 0] *)
Definition get_or_0 (d : dict R) (k : string) : R :=
  match dict_get d k with Some v => v | None => 0 end.

Definition calculateDistribution (items : list string) : dict R :=
  fold_left (fun distribution item =>
               dict_set distribution item (get_or_0 distribution item + 1))
    items [].

Definition calculateCorrelation (x y : list R) : R :=
  if negb (List.length x =? List.length y)%nat || (List.length x =? 0)%nat
  then 0
  else
    let n := INR (List.length x) in
    let sumX := sum x in
    let sumY := sum y in
    let sumXY := fold_left (fun s p => s + fst p * snd p) (combine x y) 0 in
    let sumXX := fold_left (fun s xi => s + xi * xi) x 0 in
    let sumYY := fold_left (fun s yi => s + yi * yi) y 0 in
    let numerator := n * sumXY - sumX * sumY in
    let denominator :=
      Math_sqrt ((n * sumXX - sumX * sumX) * (n * sumYY - sumY * sumY)) in
    if strict_eq denominator 0 then 0 else numerator / denominator.

Definition calculateMeanDifference (group1 group2 : list R) : R :=
  if (List.length group1 =? 0)%nat || (List.length group2 =? 0)%nat then 0
  else
    let mean1 := sum group1 / INR (List.length group1) in
    let mean2 := sum group2 / INR (List.length group2) in
    mean1 - mean2.

Definition kolmogorovSmirnovTest (observed expected : dict R) : jsnum :=
  let totalObserved := sum (dict_values observed) in
  let totalExpected := sum (dict_values expected) in
  let allKeys := from_Set (dict_keys observed ++ dict_keys expected) in
  fold_left (fun maxDifference key =>
               let observedProp :=
                 jdiv (Num (get_or_0 observed key)) (Num totalObserved) in
               let expectedProp :=
                 jdiv (Num (get_or_0 expected key)) (Num totalExpected) in
               jmax maxDifference (jabs (jsub observedProp expectedProp)))
    allKeys (Num 0).

Definition getExpectedAgeDistribution : dict R :=
  [("18-24", 11); ("25-34", 14); ("35-44", 13); ("45-54", 12);
   ("55-64", 13); ("65-74", 11); ("75+", 7)]%string.

Definition educationToNumeric (education : Education) : R :=
  match education with
  | LessThanHS => 1 | HighSchool => 2 | SomeCollege => 3 | BachelorPlus => 4
  end.

Definition fitnessToNumeric (fitness : FitnessLevel) : R :=
  match fitness with Low => 1 | Medium => 2 | High => 3 end.

Definition recordsOfSeason (s : Season) (dataset : list MonthlyRecord)
  : list MonthlyRecord :=
  filter (fun r => Season_eqb (season r) s) dataset.

Definition seasonMean (records : list MonthlyRecord) : jsnum :=
  jdiv (Num (fold_left (fun s r => s + motion_days_week (behaviors r)) records 0))
      (Num (INR (List.length records))).

Definition calculateSeasonalVariations (dataset : list MonthlyRecord) : jsnum :=
  let seasonalData :=
    [recordsOfSeason Spring dataset; recordsOfSeason Summer dataset;
     recordsOfSeason Fall dataset; recordsOfSeason Winter dataset] in
  let seasonalMeans := map seasonMean seasonalData in
  let overallMean :=
    jdiv (sumj seasonalMeans) (Num (INR (List.length seasonalMeans))) in
  let variance :=
    jdiv (fold_left (fun s mean => jadd s (jpow2 (jsub mean overallMean)))
           seasonalMeans (Num 0))
        (Num (INR (List.length seasonalMeans))) in
  jsqrt variance.

Definition calculateLinearSlope (x y : list R) : jsnum :=
  if negb (List.length x =? List.length y)%nat || (List.length x <? 2)%nat
  then Num 0
  else
    let n := INR (List.length x) in
    let sumX := sum x in
    let sumY := sum y in
    let sumXY := fold_left (fun s p => s + fst p * snd p) (combine x y) 0 in
    let sumXX := fold_left (fun s xi => s + xi * xi) x 0 in
    let slope :=
      jdiv (Num (n * sumXY - sumX * sumY)) (Num (n * sumXX - sumX * sumX)) in
    if isNaN slope then Num 0 else slope.

Definition calculateVariance (values : list R) : R :=
  if (List.length values =? 0)%nat then 0
  else
    let mean := sum values / INR (List.length values) in
    let squaredDiffs := map (fun val => (val - mean) * (val - mean)) values in
    sum squaredDiffs / INR (List.length values).

(** [records.sort((a, b) => a.month - b.month)]: a stable sort on the
    month index. *)
Fixpoint insertByMonth (r : MonthlyRecord) (sorted : list MonthlyRecord)
  : list MonthlyRecord :=
  match sorted with
  | [] => [r]
  | r' :: rest =>
      if (month r <=? month r')%nat then r :: sorted
      else r' :: insertByMonth r rest
  end.

Definition sortByMonth (records : list MonthlyRecord) : list MonthlyRecord :=
  fold_right insertByMonth [] records.

(** [sort] works in place: a group of two or more records is left sorted
    in the array that the two statistics share. *)
Definition sortedInPlace (subjectGroups : list (list MonthlyRecord))
  : list (list MonthlyRecord) :=
  map (fun g => if (List.length g <? 2)%nat then g else sortByMonth g)
    subjectGroups.

Definition calculateAgingTrajectories (subjectGroups : list (list MonthlyRecord))
  : jsnum :=
  let '(totalSlope, validSubjects) :=
    fold_left (fun '(totalSlope, validSubjects) subjectRecords =>
                 if (List.length subjectRecords <? 2)%nat
                 then (totalSlope, validSubjects)
                 else
                   let sortedRecords := sortByMonth subjectRecords in
                   let ages :=
                     map (fun r => biological_age_years (outcomes r))
                       sortedRecords in
                   let months := map (fun r => INR (month r)) sortedRecords in
                   let slope := calculateLinearSlope months ages in
                   if negb (isNaN slope)
                   then (jadd totalSlope slope, S validSubjects)
                   else (totalSlope, validSubjects))
      subjectGroups (Num 0, 0%nat) in
  if (0 <? validSubjects)%nat
  then jdiv totalSlope (Num (INR validSubjects)) else Num 0.

Definition calculateBehaviorStability (subjectGroups : list (list MonthlyRecord))
  : R :=
  let '(totalStability, validSubjects) :=
    fold_left (fun '(totalStability, validSubjects) subjectRecords =>
                 if (List.length subjectRecords <? 2)%nat
                 then (totalStability, validSubjects)
                 else
                   let sortedRecords := sortByMonth subjectRecords in
                   let behaviors_ :=
                     map (fun r => motion_days_week (behaviors r))
                       sortedRecords in
                   let variance := calculateVariance behaviors_ in
                   let mean :=
                     sum behaviors_ / INR (List.length behaviors_) in
                   let stability :=
                     if gtb mean 0 then 1 - variance / (mean * mean) else 0 in
                   (totalStability + stability, S validSubjects))
      subjectGroups (0, 0%nat) in
  if (0 <? validSubjects)%nat
  then totalStability / INR validSubjects else 0.

(** ** The four families of validation statistics *)

(** The profile of the first record of every subject, in order of first
    appearance ([subjects], a [Map]). *)
Definition firstProfiles (dataset : list MonthlyRecord) : dict Demographics :=
  fold_left (fun subjects record =>
               if dict_has subjects (subject_id record) then subjects
               else dict_set subjects (subject_id record) (demographics record))
    dataset [].

Definition validateDemographicAccuracy (dataset : list MonthlyRecord)
  : DemographicAccuracy :=
  let subjects := firstProfiles dataset in
  let demographics := dict_values subjects in
  let ageGroups := map age_group demographics in
  let ageDistribution := calculateDistribution ageGroups in
  let incomeEducationCorr :=
    calculateCorrelation
      (map income_numeric demographics)
      (map (fun d => educationToNumeric (education d)) demographics) in
  let fitnessAgeCorr :=
    calculateCorrelation
      (map age_numeric demographics)
      (map (fun d => fitnessToNumeric (fitness_level d)) demographics) in
  {| age_distribution_ks_test :=
       kolmogorovSmirnovTest ageDistribution getExpectedAgeDistribution;
     income_education_correlation := Num incomeEducationCorr;
     fitness_age_relationship := Num fitnessAgeCorr |}.

Definition validateBehaviorCorrelations (dataset : list MonthlyRecord)
  : BehaviorCorrelations :=
  let exerciseSleepCorr :=
    calculateCorrelation
      (map (fun r => motion_days_week (behaviors r)) dataset)
      (map (fun r => sleep_quality_score (behaviors r)) dataset) in
  let dietMeditationCorr :=
    calculateCorrelation
      (map (fun r => diet_mediterranean_score (behaviors r)) dataset)
      (map (fun r => meditation_minutes_week (behaviors r)) dataset) in
  let socialPurposeCorr :=
    calculateCorrelation
      (map (fun r => social_connections_count (behaviors r)) dataset)
      (map (fun r => purpose_meaning_score (behaviors r)) dataset) in
  {| exercise_sleep_correlation := Num exerciseSleepCorr;
     diet_meditation_correlation := Num dietMeditationCorr;
     social_purpose_correlation := Num socialPurposeCorr |}.

Definition validateOutcomeValidity (dataset : list MonthlyRecord)
  : OutcomeValidity :=
  let highExercise :=
    filter (fun r => geb (motion_days_week (behaviors r)) 4) dataset in
  let lowExercise :=
    filter (fun r => ltb (motion_days_week (behaviors r)) 2) dataset in
  let exerciseEffect :=
    if (0 <? List.length highExercise)%nat && (0 <? List.length lowExercise)%nat
    then calculateMeanDifference
           (map (fun r => biological_age_years (outcomes r)) highExercise)
           (map (fun r => biological_age_years (outcomes r)) lowExercise)
    else 0 in
  let smokers :=
    filter (fun r => SmokingStatus_eqb (smoking_status (behaviors r)) Current)
      dataset in
  let nonSmokers :=
    filter (fun r => SmokingStatus_eqb (smoking_status (behaviors r)) Never)
      dataset in
  let smokingEffect :=
    if (0 <? List.length smokers)%nat && (0 <? List.length nonSmokers)%nat
    then calculateMeanDifference
           (map (fun r => mortality_risk_score (outcomes r)) smokers)
           (map (fun r => mortality_risk_score (outcomes r)) nonSmokers)
    else 0 in
  let highPurpose :=
    filter (fun r => geb (purpose_meaning_score (behaviors r)) 8) dataset in
  let lowPurpose :=
    filter (fun r => leb (purpose_meaning_score (behaviors r)) 4) dataset in
  let purposeEffect :=
    if (0 <? List.length highPurpose)%nat && (0 <? List.length lowPurpose)%nat
    then calculateMeanDifference
           (map (fun r => estimated_lifespan_years (outcomes r)) highPurpose)
           (map (fun r => estimated_lifespan_years (outcomes r)) lowPurpose)
    else 0 in
  {| biological_age_effects := Num exerciseEffect;
     mortality_risk_factors := Num smokingEffect;
     purpose_longevity_relationship := Num purposeEffect |}.

(** The records of every subject, in order of first appearance
    ([subjectGroups], a [Map]). *)
Definition groupBySubject (dataset : list MonthlyRecord)
  : dict (list MonthlyRecord) :=
  fold_left (fun subjectGroups record =>
               let subjectGroups :=
                 if dict_has subjectGroups (subject_id record)
                 then subjectGroups
                 else dict_set subjectGroups (subject_id record) [] in
               match dict_get subjectGroups (subject_id record) with
               | Some group =>
                   dict_set subjectGroups (subject_id record) (group ++ [record])
               | None => subjectGroups
               end)
    dataset [].

Definition validateLongitudinalCoherence (dataset : list MonthlyRecord)
  : LongitudinalCoherence :=
  let subjectGroups := groupBySubject dataset in
  let seasonalVariations := calculateSeasonalVariations dataset in
  let agingTrajectories :=
    calculateAgingTrajectories (dict_values subjectGroups) in
  let behaviorStability :=
    calculateBehaviorStability (sortedInPlace (dict_values subjectGroups)) in
  {| seasonal_variations := seasonalVariations;
     aging_trajectories := agingTrajectories;
     behavior_stability := Num behaviorStability |}.

(** [validateDataset(dataset)].  The body has no guard on the dataset and
    no [throw]: the completion is always a normal return. *)
Definition validateDataset (dataset : list MonthlyRecord)
  : completion GeneratorError ValidationResults :=
  let validationResults :=
    {| demographic_accuracy := validateDemographicAccuracy dataset;
       behavior_correlations := validateBehaviorCorrelations dataset;
       outcome_validity := validateOutcomeValidity dataset;
       longitudinal_coherence := validateLongitudinalCoherence dataset |} in
  Return validationResults.

End LongitudinalDataGenerator.

(* ===================================================================== *)
(** * The correlation and the slope in binary64                          *)
(* ===================================================================== *)

(** [calculateCorrelation] and [calculateLinearSlope] once more, with the
    arithmetic of the source: every [+], [-], [*], [/] and [Math.sqrt]
    rounds to the nearest binary64 number, [===] and [isNaN] are those of
    IEEE 754. *)
Module Binary64.

#[local] Open Scope float_scope.

(** [xs.length] as a number. *)
Definition of_length {A} (xs : list A) : float :=
  PrimFloat.of_uint63 (Uint63.of_Z (Z.of_nat (List.length xs))).

(** [xs.reduce((a, b) => a + b, 0)] *)
Definition sum (xs : list float) : float := fold_left (fun a b => a + b) xs 0.

Definition calculateCorrelation (x y : list float) : float :=
  if negb (List.length x =? List.length y)%nat || (List.length x =? 0)%nat
  then 0
  else
    let n := of_length x in
    let sumX := sum x in
    let sumY := sum y in
    let sumXY := fold_left (fun s p => s + fst p * snd p) (combine x y) 0 in
    let sumXX := fold_left (fun s xi => s + xi * xi) x 0 in
    let sumYY := fold_left (fun s yi => s + yi * yi) y 0 in
    let numerator := n * sumXY - sumX * sumY in
    let denominator :=
      PrimFloat.sqrt ((n * sumXX - sumX * sumX) * (n * sumYY - sumY * sumY)) in
    if PrimFloat.eqb denominator 0 then 0 else numerator / denominator.

Definition calculateLinearSlope (x y : list float) : float :=
  if negb (List.length x =? List.length y)%nat || (List.length x <? 2)%nat
  then 0
  else
    let n := of_length x in
    let sumX := sum x in
    let sumY := sum y in
    let sumXY := fold_left (fun s p => s + fst p * snd p) (combine x y) 0 in
    let sumXX := fold_left (fun s xi => s + xi * xi) x 0 in
    let slope := (n * sumXY - sumX * sumY) / (n * sumXX - sumX * sumX) in
    if PrimFloat.is_nan slope then 0 else slope.

End Binary64.

(* ===================================================================== *)
(** * Documented domains and reference formulas                          *)
(* ===================================================================== *)

Import DemographicGenerator TWABehaviorGenerator OutcomeGenerator.
Import LongitudinalDataGenerator.

(** [always m P]: whatever the random source holds, the value that [m]
    returns satisfies [P]. *)
Definition always {A} (m : Rand A) (P : A -> Prop) : Prop :=
  forall s : RandomSource, P (fst (m s)).

(** The documented domain of every numeric field of a behavior vector. *)
Definition BehaviorInDomain (b : TWABehaviors) : Prop :=
  0 <= motion_days_week b <= 7 /\
  4 <= sleep_hours b <= 10 /\
  1 <= sleep_quality_score b <= 10 /\
  2 <= hydration_cups_day b <= 12 /\
  1 <= diet_mediterranean_score b <= 10 /\
  0 <= meditation_minutes_week b <= 300 /\
  0 <= alcohol_drinks_week b <= 35 /\
  10 <= added_sugar_grams_day b <= 150 /\
  1 <= sodium_grams_day b <= 8 /\
  0 <= processed_food_servings_week b <= 20 /\
  0 <= social_connections_count b <= 10 /\
  0 <= nature_minutes_week b <= 300 /\
  0 <= cultural_hours_week b <= 20 /\
  1 <= purpose_meaning_score b <= 10.

(** The documented domain of every bounded field of an outcome vector. *)
Definition OutcomeInDomain (o : WellnessOutcomes) : Prop :=
  18 <= biological_age_years o /\
  0.1 <= mortality_risk_score o <= 10.0 /\
  0.1 <= crp_mg_l o /\
  0.1 <= il6_pg_ml o /\
  50 <= igf1_ng_ml o /\
  100 <= gdf15_pg_ml o /\
  5 <= cortisol_ug_dl o /\
  10 <= grip_strength_kg o /\
  0.5 <= gait_speed_ms o /\
  1 <= balance_score o <= 10 /\
  0 <= frailty_index o <= 1 /\
  50 <= cognitive_composite_score o <= 150 /\
  50 <= processing_speed_score o <= 150 /\
  1 <= life_satisfaction_score o <= 10 /\
  1 <= stress_level_score o <= 10 /\
  1 <= depression_risk_score o <= 10 /\
  1 <= social_support_score o <= 10 /\
  50 <= estimated_lifespan_years o <= 100.

(** The month-to-season table, residue by residue. *)
Definition seasonOfResidue (r : nat) : Season :=
  match r with
  | 0 | 1 => Winter
  | 2 | 3 | 4 => Spring
  | 5 | 6 | 7 => Summer
  | 8 | 9 | 10 => Fall
  | _ => Winter
  end%nat.

(** A threshold-triggered factor: [f] when the rule fires, 1 otherwise. *)
Definition factor (fires : bool) (f : R) : R := if fires then f else 1.


(** The six guideline flags and the two composite scores of a record,
    recomputed from its stored behavior and outcome vectors. *)
Definition derivedFieldsRecomputed (r : MonthlyRecord) : Prop :=
  meets_exercise_guidelines r = geb (motion_days_week (behaviors r)) 3 /\
  meets_sleep_guidelines r
    = (geb (sleep_hours (behaviors r)) 7
       && geb (sleep_quality_score (behaviors r)) 6)%bool /\
  high_diet_quality r = geb (diet_mediterranean_score (behaviors r)) 7 /\
  regular_meditation r = geb (meditation_minutes_week (behaviors r)) 150 /\
  strong_social_support r = geb (social_connections_count (behaviors r)) 4 /\
  high_purpose r = geb (purpose_meaning_score (behaviors r)) 8 /\
  healthy_aging_profile r
    = calculateHealthyAgingProfile (behaviors r) (outcomes r) /\
  (forall d : Demographics,
     blue_zone_similarity_score r = calculateBlueZoneSimilarity (behaviors r) d).

(** What the orchestrator stores in a record besides the sampled vectors. *)
Definition recordOf (person : Demographics) (m : nat) (r : MonthlyRecord)
  : Prop :=
  subject_id r = id person /\ month r = m /\ season r = monthToSeason m /\
  demographics r = person /\
  biological_age_acceleration (outcomes r)
  = biological_age_years (outcomes r) - age_numeric person /\
  BehaviorInDomain (behaviors r) /\ OutcomeInDomain (outcomes r) /\
  derivedFieldsRecomputed r.

(** A record as the orchestrator assembles it for its own subject and
    month. *)
Definition generatedRecord (r : MonthlyRecord) : Prop :=
  recordOf (demographics r) (month r) r.

Definition recordKey (r : MonthlyRecord) : string * nat :=
  (subject_id r, month r).

(** Subject by subject, the months in ascending order. *)
Definition expectedKeys (subjects months : nat) : list (string * nat) :=
  flat_map (fun i => map (fun m => (subjectId i, m)) (seq 0 months))
    (seq 0 subjects).

Definition recordsOfSubject (sid : string) (dataset : list MonthlyRecord)
  : list MonthlyRecord :=
  filter (fun r => String.eqb (subject_id r) sid) dataset.

(** [count(distinct subject_id)] *)
Definition distinctSubjects (dataset : list MonthlyRecord) : nat :=
  List.length (nodup string_dec (map subject_id dataset)).

(** ** Concrete inputs *)

Definition quickTestConfig : DatasetConfig :=
  {| n_subjects := 100; months := 3;
     include_validation := true; export_format := json |}.

Definition noSubjectsConfig : DatasetConfig :=
  {| n_subjects := 0; months := 12;
     include_validation := true; export_format := json |}.

Definition oneSubjectTwoMonths : DatasetConfig :=
  {| n_subjects := 1; months := 2;
     include_validation := true; export_format := json |}.

Definition constantDraws : RandomSource := fun _ => / 2.

(** The claimed reading of the acceleration field: biological age minus
    the age the subject has reached at the observation. *)
Definition accelerationAgainstCurrentAge (r : MonthlyRecord) : Prop :=
  biological_age_acceleration (outcomes r)
  = biological_age_years (outcomes r)
    - (age_numeric (demographics r) + INR (month r) / 12).

(** What the source stores: biological age minus the baseline age. *)
Definition accelerationAgainstBaseline (r : MonthlyRecord) : Prop :=
  biological_age_acceleration (outcomes r)
  = biological_age_years (outcomes r) - age_numeric (demographics r).

(** The report that the validation engine returns for no records. *)
Definition emptyDatasetReport : ValidationResults :=
  {| demographic_accuracy :=
       {| age_distribution_ks_test := NaN;
          income_education_correlation := Num 0;
          fitness_age_relationship := Num 0 |};
     behavior_correlations :=
       {| exercise_sleep_correlation := Num 0;
          diet_meditation_correlation := Num 0;
          social_purpose_correlation := Num 0 |};
     outcome_validity :=
       {| biological_age_effects := Num 0;
          mortality_risk_factors := Num 0;
          purpose_longevity_relationship := Num 0 |};
     longitudinal_coherence :=
       {| seasonal_variations := NaN;
          aging_trajectories := Num 0;
          behavior_stability := Num 0 |} |}.

(** ** Statistics *)

(** [l.reduce((s, a) => s + f(a), 0)] *)
Definition total {A} (f : A -> R) (l : list A) : R :=
  fold_left (fun s a => s + f a) l 0.

(** The denominator of the Pearson correlation. *)
Definition pearsonDenominator (x y : list R) : R :=
  let n := INR (List.length x) in
  Math_sqrt ((n * total (fun xi => xi * xi) x - sum x * sum x)
             * (n * total (fun yi => yi * yi) y - sum y * sum y)).

(** Counts are never negative. *)
Definition nonnegValues (d : dict R) : Prop := Forall (fun kv => 0 <= snd kv) d.

Definition oneSubjectOneMonth : DatasetConfig :=
  {| n_subjects := 1; months := 1;
     include_validation := true; export_format := json |}.

Definition sampleProfile : Demographics :=
  {| id := "SYNTH_000000"; age_group := "35-44"; age_numeric := 39.5;
     gender := Female; ethnicity := White; education := SomeCollege;
     income_bracket := From35to75k; income_numeric := 55000;
     fitness_level := Medium; sleep_type := Regular; region := South;
     urban_rural := Suburban; occupation := "Administrative" |}.

Definition sampleBehaviors : TWABehaviors :=
  {| motion_days_week := 3; sleep_hours := 7.5; sleep_quality_score := 7;
     hydration_cups_day := 6; diet_mediterranean_score := 5.5;
     meditation_minutes_week := 30; smoking_status := Never;
     alcohol_drinks_week := 2; added_sugar_grams_day := 50;
     sodium_grams_day := 3.5; processed_food_servings_week := 5;
     social_connections_count := 3; nature_minutes_week := 40;
     cultural_hours_week := 2; purpose_meaning_score := 5 |}.

Definition sampleOutcomes : WellnessOutcomes :=
  {| biological_age_years := 39.5; biological_age_acceleration := 0;
     mortality_risk_score := 1.1; estimated_lifespan_years := 74;
     crp_mg_l := 3; il6_pg_ml := 2; igf1_ng_ml := 160; gdf15_pg_ml := 940;
     cortisol_ug_dl := 13; grip_strength_kg := 25; gait_speed_ms := 1.3;
     balance_score := 7.8; frailty_index := 0.1;
     cognitive_composite_score := 104; processing_speed_score := 100;
     life_satisfaction_score := 5; stress_level_score := 4.4;
     depression_risk_score := 2; social_support_score := 6 |}.

(** A single Winter observation, assembled the way the orchestrator does. *)
Definition sampleRecord : MonthlyRecord :=
  {| subject_id := id sampleProfile; month := 0; season := monthToSeason 0;
     observation_date := generateObservationDate 0;
     demographics := sampleProfile;
     behaviors := sampleBehaviors; outcomes := sampleOutcomes;
     meets_exercise_guidelines := geb (motion_days_week sampleBehaviors) 3;
     meets_sleep_guidelines :=
       geb (sleep_hours sampleBehaviors) 7
       && geb (sleep_quality_score sampleBehaviors) 6;
     high_diet_quality := geb (diet_mediterranean_score sampleBehaviors) 7;
     regular_meditation := geb (meditation_minutes_week sampleBehaviors) 150;
     strong_social_support :=
       geb (social_connections_count sampleBehaviors) 4;
     high_purpose := geb (purpose_meaning_score sampleBehaviors) 8;
     healthy_aging_profile :=
       calculateHealthyAgingProfile sampleBehaviors sampleOutcomes;
     blue_zone_similarity_score :=
       calculateBlueZoneSimilarity sampleBehaviors sampleProfile |}.

(** ** Notions of the further properties *)

(** [n * sumXX - sumX * sumX], the denominator of the least-squares slope
    and a factor of the correlation's: zero exactly when the series is
    empty or constant. *)
Definition dispersion (x : list R) : R :=
  INR (List.length x) * total (fun xi => xi * xi) x - sum x * sum x.


(** No rule of [calculateBiologicalAge] applies to [b]. *)
Definition noRuleFires (b : TWABehaviors) : Prop :=
  motion_days_week b < 4 /\
  diet_mediterranean_score b < 7 /\
  meditation_minutes_week b < 150 /\
  sleep_quality_score b < 7 /\
  purpose_meaning_score b < 8 /\
  social_connections_count b < 4 /\
  smoking_status b <> Current /\
  alcohol_drinks_week b <= 14 /\
  processed_food_servings_week b <= 10.

(** A behavior vector to which no rule applies. *)
Definition restingBehaviors : TWABehaviors :=
  {| motion_days_week := 2; sleep_hours := 7; sleep_quality_score := 6;
     hydration_cups_day := 6; diet_mediterranean_score := 5;
     meditation_minutes_week := 20; smoking_status := Never;
     alcohol_drinks_week := 3; added_sugar_grams_day := 60;
     sodium_grams_day := 4; processed_food_servings_week := 6;
     social_connections_count := 3; nature_minutes_week := 30;
     cultural_hours_week := 2; purpose_meaning_score := 5 |}.

(** The member names that every plain object inherits from
    [Object.prototype]: for such a key [obj[key]] is the inherited member,
    not [undefined], on an object without that own property.  The
    association-list reading of a plain object is meant for the other
    keys. *)
Definition objectPrototypeNames : list string :=
  ["constructor"; "__defineGetter__"; "__defineSetter__"; "hasOwnProperty";
   "__lookupGetter__"; "__lookupSetter__"; "isPrototypeOf";
   "propertyIsEnumerable"; "toString"; "valueOf"; "__proto__";
   "toLocaleString"]%string.

(** None of [keys] is an inherited member name. *)
Definition plainKeys (keys : list string) : Prop :=
  Forall (fun key => ~ In key objectPrototypeNames) keys.

(** The running total [weights[0] + ... + weights[k]]. *)
Definition cumulative (weights : list R) (k : nat) : R :=
  sum (firstn (S k) weights).

(** What [generatePerson] guarantees about a profile: the numeric fields
    are the table values of the categorical ones, and the occupation is
    drawn from the lists of the education level or the age group. *)
Definition generatedProfile (d : Demographics) : Prop :=
  In (age_group d) ageGroups /\
  age_numeric d = ageGroupToNumeric (age_group d) /\
  income_numeric d = incomeBracketToNumeric (income_bracket d) /\
  In (occupation d)
    (educationOccupations (education d) ++ ageOccupations (age_group d)).

(** [r] is a record that [generateMonthlyRecord] returns for [person] at
    month [m], for some random source. *)
Definition producedBy (person : Demographics) (m : nat) (r : MonthlyRecord)
  : Prop :=
  exists draws : RandomSource,
    r = fst (generateMonthlyRecord person (age_numeric person) m draws).

(** The behavior vector [b] with another smoking status. *)
Definition withSmoking (b : TWABehaviors) (s : SmokingStatus) : TWABehaviors :=
  {| motion_days_week := motion_days_week b;
     sleep_hours := sleep_hours b;
     sleep_quality_score := sleep_quality_score b;
     hydration_cups_day := hydration_cups_day b;
     diet_mediterranean_score := diet_mediterranean_score b;
     meditation_minutes_week := meditation_minutes_week b;
     smoking_status := s;
     alcohol_drinks_week := alcohol_drinks_week b;
     added_sugar_grams_day := added_sugar_grams_day b;
     sodium_grams_day := sodium_grams_day b;
     processed_food_servings_week := processed_food_servings_week b;
     social_connections_count := social_connections_count b;
     nature_minutes_week := nature_minutes_week b;
     cultural_hours_week := cultural_hours_week b;
     purpose_meaning_score := purpose_meaning_score b |}.

(** The order of the comparator [(a, b) => a.month - b.month]. *)
Definition monthLe (a b : MonthlyRecord) : Prop := (month a <= month b)%nat.

(** The group of a subject after further records [l] of that subject:
    no entry as long as there is no record. *)
Definition joinGroup (g : option (list MonthlyRecord))
  (l : list MonthlyRecord) : option (list MonthlyRecord) :=
  match g, l with
  | Some g, l => Some (g ++ l)
  | None, [] => None
  | None, l => Some l
  end.

(** The absolute gap between the observed and the expected proportion of
    [key]. *)
Definition proportionGap (observed expected : dict R) (key : string) : R :=
  Rabs (get_or_0 observed key / sum (dict_values observed)
        - get_or_0 expected key / sum (dict_values expected)).

(* ===================================================================== *)
(** * Dashboard components                                               *)
(* ===================================================================== *)

(** The views compute what they display from the dataset and the
    validation report; the dashboard mounts them for a non-empty dataset
    only. *)

(** An error thrown by the engine. *)
Inductive JSError : Type := RangeError.

(** Sequencing of computations that may throw. *)
Definition andThen {E A B} (c : completion E A) (k : A -> completion E B)
  : completion E B :=
  match c with
  | Return a => k a
  | Throw e => Throw e
  end.

(** [f(...xs)]: a call with one argument per element of [xs].  An engine
    refuses a call with more arguments than its stack holds and throws a
    [RangeError]; [maxArguments] is that bound, which the engine fixes and
    the source does not. *)
Definition spreadCall {A} (maxArguments : nat) (f : list jsnum -> A)
  (xs : list jsnum) : completion JSError A :=
  if (List.length xs <=? maxArguments)%nat then Return (f xs)
  else Throw RangeError.


(** [Math.max] and [Math.min] of an argument list: [-Infinity] and
    [Infinity] for no argument. *)
Definition Math_max_of (xs : list jsnum) : jsnum := fold_left jmax xs NInf.

(** [x < y] and [x > y] on extended numbers: false as soon as one side is
    NaN. *)
Definition jlt (x y : jsnum) : bool :=
  match x, y with
  | Num a, Num b => ltb a b
  | Num _, PInf => true
  | NInf, Num _ => true
  | NInf, PInf => true
  | _, _ => false
  end.

Definition jgt (x y : jsnum) : bool := jlt y x.

(** ** components/ValidationResults.tsx *)
Module ValidationResultsComponent.

Inductive TestStatus : Type := Pass | Fail.

Definition TestStatus_eqb (a b : TestStatus) : bool :=
  match a, b with
  | Pass, Pass | Fail, Fail => true
  | _, _ => false
  end.

Record DemographicScores : Type := mkDemographicScores {
  ageDistribution : TestStatus;
  incomeEducation : TestStatus;
  fitnessAge : TestStatus
}.

Record BehaviorScores : Type := mkBehaviorScores {
  exerciseSleep : TestStatus;
  dietMeditation : TestStatus;
  socialPurpose : TestStatus
}.

Record OutcomeScores : Type := mkOutcomeScores {
  biologicalAge : TestStatus;
  mortalityRisk : TestStatus;
  purposeLongevity : TestStatus
}.

(** The third field is [behavior] in the source. *)
Record LongitudinalScores : Type := mkLongitudinalScores {
  seasonal : TestStatus;
  aging : TestStatus;
  behaviorStability : TestStatus
}.

Record ValidationScores : Type := mkValidationScores {
  demographic : DemographicScores;
  behavior : BehaviorScores;
  outcome : OutcomeScores;
  longitudinal : LongitudinalScores
}.

Definition validationScores (results : ValidationResults) : ValidationScores :=
  {| demographic :=
       {| ageDistribution :=
            if jlt (age_distribution_ks_test (demographic_accuracy results))
                 (Num 0.1)
            then Pass else Fail;
          incomeEducation :=
            if jgt (jabs (income_education_correlation
                            (demographic_accuracy results))) (Num 0.3)
            then Pass else Fail;
          fitnessAge :=
            if jgt (jabs (fitness_age_relationship
                            (demographic_accuracy results))) (Num 0.2)
            then Pass else Fail |};
     behavior :=
       {| exerciseSleep :=
            if jgt (jabs (exercise_sleep_correlation
                            (behavior_correlations results))) (Num 0.2)
            then Pass else Fail;
          dietMeditation :=
            if jgt (jabs (diet_meditation_correlation
                            (behavior_correlations results))) (Num 0.2)
            then Pass else Fail;
          socialPurpose :=
            if jgt (jabs (social_purpose_correlation
                            (behavior_correlations results))) (Num 0.2)
            then Pass else Fail |};
     outcome :=
       {| biologicalAge :=
            if jgt (jabs (biological_age_effects (outcome_validity results)))
                 (Num 0.5)
            then Pass else Fail;
          mortalityRisk :=
            if jgt (jabs (mortality_risk_factors (outcome_validity results)))
                 (Num 0.5)
            then Pass else Fail;
          purposeLongevity :=
            if jgt (jabs (purpose_longevity_relationship
                            (outcome_validity results))) (Num 1.0)
            then Pass else Fail |};
     longitudinal :=
       {| seasonal :=
            if jgt (seasonal_variations (longitudinal_coherence results))
                 (Num 0.1)
            then Pass else Fail;
          aging :=
            if jgt (jabs (aging_trajectories (longitudinal_coherence results)))
                 (Num 0.01)
            then Pass else Fail;
          behaviorStability :=
            if jgt (behavior_stability (longitudinal_coherence results))
                 (Num 0.5)
            then Pass else Fail |} |}.

Definition allTests (results : ValidationResults) : list TestStatus :=
  let validationScores := validationScores results in
  [ ageDistribution (demographic validationScores);
    incomeEducation (demographic validationScores);
    fitnessAge (demographic validationScores);
    exerciseSleep (behavior validationScores);
    dietMeditation (behavior validationScores);
    socialPurpose (behavior validationScores);
    biologicalAge (outcome validationScores);
    mortalityRisk (outcome validationScores);
    purposeLongevity (outcome validationScores);
    seasonal (longitudinal validationScores);
    aging (longitudinal validationScores);
    behaviorStability (longitudinal validationScores) ].

Definition passedTests (results : ValidationResults) : nat :=
  List.length (filter (fun test => TestStatus_eqb test Pass) (allTests results)).

Definition overallScore (results : ValidationResults) : R :=
  INR (passedTests results) / INR (List.length (allTests results)) * 100.

(** The label under the score circle. *)
Definition scoreStatus (results : ValidationResults) : string :=
  let overallScore := overallScore results in
  if geb overallScore 80 then "Excellent"
  else if geb overallScore 60 then "Good"
  else if geb overallScore 40 then "Fair"
  else "Needs Improvement".

(** A row of one of the four result tables. *)
Record TestRow : Type := mkTestRow {
  test : string;
  value : jsnum;
  threshold : R;
  status : TestStatus
}.

Definition demographicData (results : ValidationResults) : list TestRow :=
  let validationScores := validationScores results in
  [ {| test := "Age Distribution";
       value := age_distribution_ks_test (demographic_accuracy results);
       threshold := 0.1;
       status := ageDistribution (demographic validationScores) |};
    {| test := "Income-Education Corr";
       value := jabs (income_education_correlation
                        (demographic_accuracy results));
       threshold := 0.3;
       status := incomeEducation (demographic validationScores) |};
    {| test := "Fitness-Age Corr";
       value := jabs (fitness_age_relationship (demographic_accuracy results));
       threshold := 0.2;
       status := fitnessAge (demographic validationScores) |} ].

Definition behaviorData (results : ValidationResults) : list TestRow :=
  let validationScores := validationScores results in
  [ {| test := "Exercise-Sleep Corr";
       value := jabs (exercise_sleep_correlation
                        (behavior_correlations results));
       threshold := 0.2;
       status := exerciseSleep (behavior validationScores) |};
    {| test := "Diet-Meditation Corr";
       value := jabs (diet_meditation_correlation
                        (behavior_correlations results));
       threshold := 0.2;
       status := dietMeditation (behavior validationScores) |};
    {| test := "Social-Purpose Corr";
       value := jabs (social_purpose_correlation
                        (behavior_correlations results));
       threshold := 0.2;
       status := socialPurpose (behavior validationScores) |} ].

Definition outcomeData (results : ValidationResults) : list TestRow :=
  let validationScores := validationScores results in
  [ {| test := "Biological Age Effect";
       value := jabs (biological_age_effects (outcome_validity results));
       threshold := 0.5;
       status := biologicalAge (outcome validationScores) |};
    {| test := "Mortality Risk Effect";
       value := jabs (mortality_risk_factors (outcome_validity results));
       threshold := 0.5;
       status := mortalityRisk (outcome validationScores) |};
    {| test := "Purpose-Longevity Effect";
       value := jabs (purpose_longevity_relationship
                        (outcome_validity results));
       threshold := 1.0;
       status := purposeLongevity (outcome validationScores) |} ].

Definition longitudinalData (results : ValidationResults) : list TestRow :=
  let validationScores := validationScores results in
  [ {| test := "Seasonal Variation";
       value := seasonal_variations (longitudinal_coherence results);
       threshold := 0.1;
       status := seasonal (longitudinal validationScores) |};
    {| test := "Aging Trajectory";
       value := jabs (aging_trajectories (longitudinal_coherence results));
       threshold := 0.01;
       status := aging (longitudinal validationScores) |};
    {| test := "Behavior Stability";
       value := behavior_stability (longitudinal_coherence results);
       threshold := 0.5;
       status := behaviorStability (longitudinal validationScores) |} ].

End ValidationResultsComponent.

(** The rule a table row displays: below the threshold for the
    distribution distance, above it for every other metric. *)
Definition rowPasses (row : ValidationResultsComponent.TestRow) : bool :=
  if String.eqb (ValidationResultsComponent.test row) "Age Distribution"
  then jlt (ValidationResultsComponent.value row)
         (Num (ValidationResultsComponent.threshold row))
  else jgt (ValidationResultsComponent.value row)
         (Num (ValidationResultsComponent.threshold row)).

Definition allRows (results : ValidationResults)
  : list ValidationResultsComponent.TestRow :=
  ValidationResultsComponent.demographicData results
  ++ ValidationResultsComponent.behaviorData results
  ++ ValidationResultsComponent.outcomeData results
  ++ ValidationResultsComponent.longitudinalData results.

(** ** components/DatasetOverview.tsx *)
Module DatasetOverview.

Definition totalRecords (dataset : list MonthlyRecord) : nat :=
  List.length dataset.

Definition uniqueSubjects (dataset : list MonthlyRecord) : nat :=
  List.length (from_Set (map subject_id dataset)).

(** [Math.max(...dataset.map(r => r.month)) + 1] *)
Definition months (maxArguments : nat) (dataset : list MonthlyRecord)
  : completion JSError jsnum :=
  andThen
    (spreadCall maxArguments Math_max_of
       (map (fun r => Num (INR (month r))) dataset))
    (fun latest => Return (jadd latest (Num 1))).

(** [dataset.filter(r => r.month === month)] of [monthlyAverages]. *)
Definition monthData (dataset : list MonthlyRecord) (m : nat)
  : list MonthlyRecord :=
  filter (fun r => Nat.eqb (month r) m) dataset.

End DatasetOverview.

(** ** components/OutcomeAnalysis.tsx *)
Module OutcomeAnalysis.








End OutcomeAnalysis.

(* ===================================================================== *)
(** * Properties                                                         *)
(* ===================================================================== *)

(** ** The embedding on concrete inputs *)

Example Math_round_half_up : Math_round 2.5 = 3 /\ Math_round (-2.5) = -2.
Proof.
  unfold Math_round. split; f_equal; symmetry; apply Int_part_spec; lra.
Qed.

Example monthToSeason_14 : monthToSeason 14 = Spring.
Proof. reflexivity. Qed.

Example weight_walk_second :
  weight_walk [Male; Female; NonBinary] [0.49; 0.505; 0.005] 0.5
  = Some Female.
Proof.
  simpl. destruct (Rle_dec (0.5 - 0.49) 0); [lra|].
  destruct (Rle_dec (0.5 - 0.49 - 0.505) 0); [reflexivity|lra].
Qed.

Example calculateCorrelation_line :
  calculateCorrelation [1; 2; 3] [2; 4; 6] = 1.
Proof.
  unfold calculateCorrelation, sum, Math_sqrt. simpl.
  match goal with
  | |- context [sqrt ?e] => replace e with (Rsqr 12) by (unfold Rsqr; lra)
  end.
  rewrite sqrt_Rsqr by lra.
  unfold strict_eq. destruct (Req_dec_T 12 0); [lra|]. lra.
Qed.

Example calculateBlueZoneSimilarity_sample :
  calculateBlueZoneSimilarity sampleBehaviors sampleProfile = 486.25 / 7.
Proof.
  unfold calculateBlueZoneSimilarity, similarityFactors, sum, Math_min, Rmin, leb.
  simpl.
  repeat match goal with
         | |- context [Rle_dec ?a ?b] => destruct (Rle_dec a b); try lra
         end.
Qed.

Example subjectId_7 : subjectId 7 = "SYNTH_000007"%string.
Proof. reflexivity. Qed.

Example generateObservationDate_13 :
  generateObservationDate 13 = "2024-02-15"%string.
Proof. reflexivity. Qed.

(** ** Rounding and clamping *)

Lemma Math_round_lower (a : Z) (x : R) :
  IZR a <= x -> IZR a <= Math_round x.
Proof.
  intros Hx. unfold Math_round.
  destruct (base_Int_part (x + / 2)) as [_ Hgt].
  apply IZR_le.
  assert (Hlt : IZR (a - 1) < IZR (Int_part (x + / 2))).
  { rewrite minus_IZR. lra. }
  apply lt_IZR in Hlt. lia.
Qed.

Lemma Math_round_upper (b : Z) (x : R) :
  x <= IZR b -> Math_round x <= IZR b.
Proof.
  intros Hx. unfold Math_round.
  destruct (base_Int_part (x + / 2)) as [Hle _].
  apply IZR_le.
  assert (Hlt : IZR (Int_part (x + / 2)) < IZR (b + 1)).
  { rewrite plus_IZR. lra. }
  apply lt_IZR in Hlt. lia.
Qed.

Lemma clamp_range (lo hi x : R) :
  lo <= hi -> lo <= Math_max lo (Math_min hi x) <= hi.
Proof.
  intros H. unfold Math_max, Math_min, Rmax, Rmin.
  destruct (Rle_dec hi x); destruct (Rle_dec lo _); lra.
Qed.

Lemma clamp_range' (lo hi x : R) :
  lo <= hi -> lo <= Math_min hi (Math_max lo x) <= hi.
Proof.
  intros H. unfold Math_max, Math_min, Rmax, Rmin.
  destruct (Rle_dec lo x); destruct (Rle_dec hi _); lra.
Qed.

Lemma floor_range (lo x : R) : lo <= Math_max lo x.
Proof. unfold Math_max. apply Rmax_l. Qed.

Lemma round_of_clamp (a b : Z) (x : R) :
  IZR a <= IZR b ->
  IZR a <= Math_round (Math_max (IZR a) (Math_min (IZR b) x)) <= IZR b.
Proof.
  intros H. destruct (clamp_range (IZR a) (IZR b) x H).
  split; [apply Math_round_lower | apply Math_round_upper]; assumption.
Qed.

(** ** The random-source monad *)

Lemma always_ret {A} (a : A) (P : A -> Prop) : P a -> always (ret a) P.
Proof. intros H s. exact H. Qed.

Lemma always_bind {A B} (m : Rand A) (k : A -> Rand B)
  (P : A -> Prop) (Q : B -> Prop) :
  always m P -> (forall a, P a -> always (k a) Q) -> always (bind m k) Q.
Proof.
  intros Hm Hk s. unfold bind. apply Hk. apply Hm.
Qed.

Lemma always_true {A} (m : Rand A) : always m (fun _ => True).
Proof. intros s. exact I. Qed.

Lemma for_each_length {A B} (xs : list A) (body : A -> Rand B) s :
  List.length (fst (for_each xs body s)) = List.length xs.
Proof.
  revert s. induction xs as [|x xs IH]; intros s; simpl.
  - reflexivity.
  - unfold bind. simpl. rewrite IH. reflexivity.
Qed.

(** The values of [for_each] correspond, one by one and in order, to the
    items of the list. *)
Lemma for_each_Forall2 {A B} (xs : list A) (body : A -> Rand B)
  (P : A -> B -> Prop) :
  (forall x, In x xs -> always (body x) (P x)) ->
  always (for_each xs body) (Forall2 P xs).
Proof.
  induction xs as [|x xs IH]; intros Hbody s; simpl.
  - constructor.
  - unfold bind. simpl. constructor.
    + apply Hbody. now left.
    + apply IH. intros y Hy. apply Hbody. now right.
Qed.

(** ** Behavior sampler: every field is clamped to its domain *)

Ltac clamped :=
  lazymatch goal with
  | |- _ <= Math_round (Math_max _ (Math_min _ _)) <= _ =>
      apply round_of_clamp; lra
  | |- _ <= Math_max _ (Math_min _ _) <= _ => apply clamp_range; lra
  | |- _ <= Math_max _ _ => apply floor_range
  end.

Ltac run_sampler f := intros s; unfold f, always, bind, ret; simpl; try clamped.

Lemma generateMotionBehavior_range df sf :
  always (generateMotionBehavior df sf) (fun v => 0 <= v <= 7).
Proof. run_sampler generateMotionBehavior. Qed.

Lemma generateSleepBehavior_range df motionDays :
  always (generateSleepBehavior df motionDays)
    (fun v => 4 <= hours v <= 10 /\ 1 <= quality v <= 10).
Proof.
  intros s. unfold generateSleepBehavior, bind, ret.
  destruct (gtb (age df) 65); [|destruct (ltb (age df) 30)];
    simpl; split; clamped.
Qed.

Lemma generateHydrationBehavior_range df sq :
  always (generateHydrationBehavior df sq) (fun v => 2 <= v <= 12).
Proof. run_sampler generateHydrationBehavior. Qed.

Lemma generateDietBehavior_range df motionDays :
  always (generateDietBehavior df motionDays) (fun v => 1 <= v <= 10).
Proof. run_sampler generateDietBehavior. Qed.

Lemma generateMeditationBehavior_range df dietScore :
  always (generateMeditationBehavior df dietScore) (fun v => 0 <= v <= 300).
Proof. run_sampler generateMeditationBehavior. Qed.

Lemma generateAlcoholBehavior_range df smoking :
  always (generateAlcoholBehavior df smoking) (fun v => 0 <= v <= 35).
Proof. run_sampler generateAlcoholBehavior. Qed.

Lemma generateSugarBehavior_range df dietScore :
  always (generateSugarBehavior df dietScore) (fun v => 10 <= v <= 150).
Proof. run_sampler generateSugarBehavior. Qed.

Lemma generateSodiumBehavior_range df dietScore :
  always (generateSodiumBehavior df dietScore) (fun v => 1 <= v <= 8).
Proof. run_sampler generateSodiumBehavior. Qed.

Lemma generateProcessedFoods_range df dietScore :
  always (generateProcessedFoods df dietScore) (fun v => 0 <= v <= 20).
Proof. run_sampler generateProcessedFoods. Qed.

Lemma generateSocialConnections_range df :
  always (generateSocialConnections df) (fun v => 0 <= v <= 10).
Proof. run_sampler generateSocialConnections. Qed.

Lemma generateNatureConnection_range df sf :
  always (generateNatureConnection df sf) (fun v => 0 <= v <= 300).
Proof. run_sampler generateNatureConnection. Qed.

Lemma generateCulturalActivities_range df :
  always (generateCulturalActivities df) (fun v => 0 <= v <= 20).
Proof. run_sampler generateCulturalActivities. Qed.

Lemma generatePurposeMeaning_range df social meditation :
  always (generatePurposeMeaning df social meditation)
    (fun v => 1 <= v <= 10).
Proof. run_sampler generatePurposeMeaning. Qed.

Lemma generateMonthlyTWABehaviors_in_domain d m season :
  always (generateMonthlyTWABehaviors d m season) BehaviorInDomain.
Proof.
  unfold generateMonthlyTWABehaviors.
  eapply always_bind; [apply generateMotionBehavior_range | intros motion Hmotion].
  eapply always_bind; [apply generateSleepBehavior_range | intros sl [Hh Hq]].
  eapply always_bind; [apply generateHydrationBehavior_range | intros hy Hhy].
  eapply always_bind; [apply generateDietBehavior_range | intros di Hdi].
  eapply always_bind; [apply generateMeditationBehavior_range | intros me Hme].
  eapply always_bind; [apply always_true | intros sm _].
  eapply always_bind; [apply generateAlcoholBehavior_range | intros al Hal].
  eapply always_bind; [apply generateSugarBehavior_range | intros su Hsu].
  eapply always_bind; [apply generateSodiumBehavior_range | intros so Hso].
  eapply always_bind; [apply generateProcessedFoods_range | intros pr Hpr].
  eapply always_bind; [apply generateSocialConnections_range | intros sc Hsc].
  eapply always_bind; [apply generateNatureConnection_range | intros na Hna].
  eapply always_bind; [apply generateCulturalActivities_range | intros cu Hcu].
  eapply always_bind; [apply generatePurposeMeaning_range | intros pu Hpu].
  apply always_ret. unfold BehaviorInDomain. simpl. tauto.
Qed.

(** ** Outcome model: every bounded field is clamped to its domain *)

Lemma calculateBiologicalAge_floor a b m :
  18 <= calculateBiologicalAge a b m.
Proof. unfold calculateBiologicalAge. apply floor_range. Qed.

Lemma calculateMortalityRisk_range d b a :
  0.1 <= calculateMortalityRisk d b a <= 10.0.
Proof. unfold calculateMortalityRisk. apply clamp_range. lra. Qed.

Lemma calculateMortalityRisk_pos d b a : 0 < calculateMortalityRisk d b a.
Proof. pose proof (calculateMortalityRisk_range d b a). lra. Qed.

Lemma generateBiomarkers_floors d b a :
  always (generateBiomarkers d b a)
    (fun v => 0.1 <= crp v /\ 0.1 <= il6 v /\ 50 <= igf1 v /\
              100 <= gdf15 v /\ 5 <= cortisol v).
Proof.
  intros s. unfold generateBiomarkers, bind, ret.
  destruct (geb (motion_days_week b) 4);
    destruct (geb (meditation_minutes_week b) 150);
    destruct (geb (diet_mediterranean_score b) 7);
    simpl; repeat split; apply floor_range.
Qed.

Lemma calculateCognitiveScore_range d b a :
  50 <= calculateCognitiveScore d b a <= 150.
Proof. unfold calculateCognitiveScore. apply clamp_range. lra. Qed.

Lemma calculateProcessingSpeed_range d b a :
  50 <= calculateProcessingSpeed d b a <= 150.
Proof. unfold calculateProcessingSpeed. apply clamp_range. lra. Qed.

Lemma generateFunctionalMeasures_range d b a :
  let v := generateFunctionalMeasures d b a in
  10 <= grip_strength v /\ 0.5 <= gait_speed v /\
  1 <= balance v <= 10 /\ 0 <= frailty v <= 1 /\
  50 <= cognitive v <= 150 /\ 50 <= processing_speed v <= 150.
Proof.
  unfold generateFunctionalMeasures.
  destruct (geb (motion_days_week b) 4);
    destruct (geb (diet_mediterranean_score b) 7);
    destruct (geb (sleep_quality_score b) 7);
    simpl;
    (split; [apply floor_range|]);
    (split; [apply floor_range|]);
    (split; [apply clamp_range; lra|]);
    (split; [apply clamp_range; lra|]);
    (split; [apply calculateCognitiveScore_range
            | apply calculateProcessingSpeed_range]).
Qed.

Lemma generatePsychosocialOutcomes_range b bm :
  let v := generatePsychosocialOutcomes b bm in
  1 <= life_satisfaction v <= 10 /\ 1 <= stress v <= 10 /\
  1 <= depression_risk v <= 10 /\ 1 <= social_support v <= 10.
Proof.
  unfold generatePsychosocialOutcomes. simpl.
  repeat split; apply clamp_range; lra.
Qed.

Lemma calculateEstimatedLifespan_range d risk :
  always (calculateEstimatedLifespan d risk) (fun v => 50 <= v <= 100).
Proof. run_sampler calculateEstimatedLifespan. Qed.

Lemma generateAgingWellnessOutcomes_in_domain d b baselineAge monthsElapsed :
  always (generateAgingWellnessOutcomes d b baselineAge monthsElapsed)
    OutcomeInDomain.
Proof.
  unfold generateAgingWellnessOutcomes.
  eapply always_bind; [apply generateBiomarkers_floors | intros bm Hbm].
  eapply always_bind; [apply calculateEstimatedLifespan_range | intros ls Hls].
  apply always_ret. unfold OutcomeInDomain. cbn [biological_age_years
    mortality_risk_score crp_mg_l il6_pg_ml igf1_ng_ml gdf15_pg_ml
    cortisol_ug_dl grip_strength_kg gait_speed_ms balance_score frailty_index
    cognitive_composite_score processing_speed_score life_satisfaction_score
    stress_level_score depression_risk_score social_support_score
    estimated_lifespan_years].
  pose proof (calculateBiologicalAge_floor baselineAge b monthsElapsed).
  pose proof (calculateMortalityRisk_range d b
                (calculateBiologicalAge baselineAge b monthsElapsed)).
  pose proof (generateFunctionalMeasures_range d b
                (calculateBiologicalAge baselineAge b monthsElapsed)) as Hf.
  pose proof (generatePsychosocialOutcomes_range b bm) as Hp.
  cbv zeta in Hf, Hp. cbv beta in Hbm, Hls. tauto.
Qed.

(** ** Season table *)

(** C7. For every non-negative month index [m] the season of month [m] is
    the entry of the fixed twelve-entry table at [m mod 12]: residues 0
    and 1 are Winter, 2 to 4 Spring, 5 to 7 Summer, 8 to 10 Fall, 11
    Winter; the index is always inside the table. *)
Theorem monthToSeason_table :
  forall m : nat,
    nth_error seasons (m mod 12) = Some (monthToSeason m) /\
    monthToSeason m = seasonOfResidue (m mod 12).
Proof.
  intros m. unfold monthToSeason.
  assert (Hlt : (m mod 12 < 12)%nat) by (apply Nat.mod_upper_bound; lia).
  generalize dependent (m mod 12)%nat. intros r Hlt.
  do 12 (destruct r as [|r]; [split; reflexivity|]).
  lia.
Qed.

(** ** Mortality risk *)


(** ** Subject identifiers *)

Lemma uint_of_string_zeros k s :
  NilEmpty.uint_of_string (zeros k ++ s)
  = option_map (Nat.iter k D0) (NilEmpty.uint_of_string s).
Proof.
  induction k as [|k IH]; simpl.
  - now destruct (NilEmpty.uint_of_string s).
  - rewrite IH. now destruct (NilEmpty.uint_of_string s).
Qed.

Lemma of_uint_leading_zeros k d :
  Nat.of_uint (Nat.iter k D0 d) = Nat.of_uint d.
Proof.
  induction k as [|k IH]; simpl.
  - reflexivity.
  - rewrite <- IH. reflexivity.
Qed.

Lemma padStart0_toString_inj w i j :
  padStart0 w (toString i) = padStart0 w (toString j) -> i = j.
Proof.
  unfold padStart0, toString. intros H.
  apply (f_equal NilEmpty.uint_of_string) in H.
  rewrite !uint_of_string_zeros, !NilEmpty.usu in H. simpl in H.
  injection H as H.
  apply (f_equal Nat.of_uint) in H.
  rewrite !of_uint_leading_zeros, !Unsigned.of_to in H. exact H.
Qed.

Lemma subjectId_inj i j : subjectId i = subjectId j -> i = j.
Proof.
  unfold subjectId. simpl. intros H. injection H as H.
  now apply padStart0_toString_inj in H.
Qed.

(** ** Shape of the generated dataset *)

Lemma Forall2_map_eq {A B C} (f : B -> C) (g : A -> C) xs ys :
  Forall2 (fun a b => f b = g a) xs ys -> map f ys = map g xs.
Proof.
  induction 1 as [|a b xs ys Hab _ IH]; simpl.
  - reflexivity.
  - now rewrite Hab, IH.
Qed.

Lemma generatePerson_id i :
  always (generatePerson i) (fun d => id d = subjectId i).
Proof. intros s. reflexivity. Qed.

Lemma generateCorrelatedDemographics_ids n :
  always (generateCorrelatedDemographics n)
    (fun ds => map id ds = map subjectId (seq 0 (Z.to_nat n))).
Proof.
  intros s. apply Forall2_map_eq.
  apply (for_each_Forall2 _ _ (fun i d => id d = subjectId i)).
  intros i _. apply generatePerson_id.
Qed.

Lemma generateMonthlyRecord_recordOf person m :
  always (generateMonthlyRecord person (age_numeric person) m)
    (recordOf person m).
Proof.
  unfold generateMonthlyRecord.
  eapply always_bind;
    [apply generateMonthlyTWABehaviors_in_domain | intros b Hb].
  apply always_bind with
    (P := fun o => OutcomeInDomain o /\
                   biological_age_acceleration o
                   = biological_age_years o - age_numeric person).
  { intros s. split.
    - apply generateAgingWellnessOutcomes_in_domain.
    - reflexivity. }
  intros o [Ho Hacc]. apply always_ret.
  unfold recordOf. simpl.
  do 4 (split; [reflexivity|]).
  split; [exact Hacc|]. split; [exact Hb|]. split; [exact Ho|].
  unfold derivedFieldsRecomputed. simpl.
  do 7 (split; [reflexivity|]).
  intros d. reflexivity.
Qed.

Lemma generateSubjectRecords_shape months person :
  always (generateSubjectRecords months person)
    (Forall2 (recordOf person) (seq 0 (Z.to_nat months))).
Proof.
  unfold generateSubjectRecords. apply for_each_Forall2.
  intros m _. apply generateMonthlyRecord_recordOf.
Qed.

(** The dataset is the concatenation, in subject order, of one block of
    records per subject; block [i] belongs to the subject of identifier
    [subjectId i] and holds the months [0 .. months-1] in order. *)
Lemma generateCompleteDataset_shape config draws :
  exists (people : list Demographics) (blocks : list (list MonthlyRecord)),
    fst (generateCompleteDataset config draws) = Return (List.concat blocks) /\
    map id people = map subjectId (seq 0 (Z.to_nat (n_subjects config))) /\
    Forall2 (fun person block =>
               Forall2 (recordOf person)
                 (seq 0 (Z.to_nat (months config))) block)
      people blocks.
Proof.
  unfold generateCompleteDataset, bind, ret. simpl.
  eexists _, _. split; [reflexivity|]. split.
  - apply generateCorrelatedDemographics_ids.
  - apply for_each_Forall2. intros person _.
    apply generateSubjectRecords_shape.
Qed.

Lemma recordOf_generated person m r : recordOf person m r -> generatedRecord r.
Proof.
  intros H. unfold generatedRecord.
  pose proof H as (_ & H2 & _ & H4 & _).
  rewrite H4, H2. exact H.
Qed.

Lemma block_generated person ms block :
  Forall2 (recordOf person) ms block -> Forall generatedRecord block.
Proof.
  induction 1 as [|m r ms block Hr _ IH]; constructor.
  - eapply recordOf_generated; eassumption.
  - assumption.
Qed.

Lemma block_keys person ms block :
  Forall2 (recordOf person) ms block ->
  map recordKey block = map (fun m => (id person, m)) ms.
Proof.
  intros H. apply Forall2_map_eq.
  eapply Forall2_impl; [|exact H].
  intros m r (H1 & H2 & _). unfold recordKey. now rewrite H1, H2.
Qed.

(** Every run of the generator returns normally; its records are the ones
    the orchestrator assembles, in the order subject by subject and month
    by month. *)
Lemma generateCompleteDataset_records config draws :
  exists dataset : list MonthlyRecord,
    fst (generateCompleteDataset config draws) = Return dataset /\
    Forall generatedRecord dataset /\
    map recordKey dataset
    = expectedKeys (Z.to_nat (n_subjects config)) (Z.to_nat (months config)).
Proof.
  destruct (generateCompleteDataset_shape config draws)
    as (people & blocks & Hret & Hids & Hblocks).
  exists (List.concat blocks). split; [exact Hret|]. split.
  - apply Forall_concat.
    clear Hret Hids. induction Hblocks as [|p b ps bs Hb _ IH]; constructor.
    + eapply block_generated; eassumption.
    + assumption.
  - unfold expectedKeys. rewrite concat_map, flat_map_concat_map. f_equal.
    transitivity
      (map (fun p => map (fun m => (id p, m))
                       (seq 0 (Z.to_nat (months config)))) people).
    + apply Forall2_map_eq. eapply Forall2_impl; [|exact Hblocks].
      intros p b Hb. now apply block_keys.
    + rewrite <- (map_map id (fun sid => map (fun m => (sid, m)) _)).
      rewrite Hids, map_map. reflexivity.
Qed.

Lemma expectedKeys_length N M : List.length (expectedKeys N M) = (N * M)%nat.
Proof.
  unfold expectedKeys.
  rewrite flat_map_constant_length with (c := M).
  - now rewrite length_seq.
  - intros i _. now rewrite length_map, length_seq.
Qed.

Lemma expectedKeys_subjects N M x :
  (1 <= M)%nat ->
  In x (map fst (expectedKeys N M)) <-> In x (map subjectId (seq 0 N)).
Proof.
  intros HM. unfold expectedKeys. rewrite !in_map_iff. split.
  - intros ([sid m] & Hx & Hin). simpl in Hx. subst sid.
    apply in_flat_map in Hin as (i & Hi & Hin).
    apply in_map_iff in Hin as (m' & Heq & _).
    injection Heq as Heq _. exists i. now split.
  - intros (i & Hx & Hi). exists (x, 0%nat). split; [reflexivity|].
    apply in_flat_map. exists i. split; [exact Hi|].
    apply in_map_iff. exists 0%nat. split; [now rewrite Hx|].
    apply in_seq. lia.
Qed.

Lemma subjectIds_NoDup N : NoDup (map subjectId (seq 0 N)).
Proof.
  apply Injective_map_NoDup.
  - intros i j. apply subjectId_inj.
  - apply seq_NoDup.
Qed.

Lemma distinct_count (l ids : list string) :
  NoDup ids -> (forall x, In x l <-> In x ids) ->
  List.length (nodup string_dec l) = List.length ids.
Proof.
  intros Hnd Hiff. apply Nat.le_antisymm.
  - apply NoDup_incl_length; [apply NoDup_nodup|].
    intros x Hx. apply Hiff. now apply nodup_In in Hx.
  - apply NoDup_incl_length; [exact Hnd|].
    intros x Hx. apply nodup_In. now apply Hiff.
Qed.

Lemma filter_block sid sid' (ms : list nat) :
  filter (fun k : string * nat => String.eqb (fst k) sid)
    (map (fun m => (sid', m)) ms)
  = if String.eqb sid' sid then map (fun m => (sid', m)) ms else [].
Proof.
  induction ms as [|m ms IH]; simpl.
  - now destruct (String.eqb sid' sid).
  - rewrite IH. now destruct (String.eqb sid' sid).
Qed.

Lemma filter_keys_absent i (js : list nat) (ms : list nat) :
  ~ In i js ->
  filter (fun k : string * nat => String.eqb (fst k) (subjectId i))
    (flat_map (fun j => map (fun m => (subjectId j, m)) ms) js) = [].
Proof.
  induction js as [|j js IH]; intros Hnot; simpl.
  - reflexivity.
  - rewrite filter_app, filter_block, IH by (intros H; apply Hnot; now right).
    destruct (String.eqb_spec (subjectId j) (subjectId i)) as [Heq|_].
    + apply subjectId_inj in Heq. exfalso. apply Hnot. now left.
    + reflexivity.
Qed.

Lemma filter_keys_present i (js : list nat) (ms : list nat) :
  NoDup js -> In i js ->
  map snd
    (filter (fun k : string * nat => String.eqb (fst k) (subjectId i))
       (flat_map (fun j => map (fun m => (subjectId j, m)) ms) js)) = ms.
Proof.
  induction 1 as [|j js Hj Hnd IH]; intros Hin; simpl.
  - destruct Hin.
  - rewrite filter_app, filter_block, map_app.
    destruct (String.eqb_spec (subjectId j) (subjectId i)) as [Heq|Hneq].
    + apply subjectId_inj in Heq. subst j.
      rewrite filter_keys_absent by exact Hj.
      rewrite map_map. simpl. rewrite map_id. apply app_nil_r.
    + destruct Hin as [->|Hin]; [congruence|].
      simpl. now apply IH.
Qed.

Lemma recordsOfSubject_months sid dataset :
  map month (recordsOfSubject sid dataset)
  = map snd (filter (fun k : string * nat => String.eqb (fst k) sid)
               (map recordKey dataset)).
Proof.
  unfold recordsOfSubject. rewrite filter_map_swap, map_map. reflexivity.
Qed.

Lemma generatedRecord_season r :
  generatedRecord r -> season r = monthToSeason (month r).
Proof. intros (_ & _ & H & _). exact H. Qed.

(** The shape of the dataset for arbitrary counts (a count below one
    gives no iteration of its loop). *)
Lemma generateCompleteDataset_grouped config draws :
  let N := Z.to_nat (n_subjects config) in
  let M := Z.to_nat (months config) in
  exists dataset : list MonthlyRecord,
    fst (generateCompleteDataset config draws) = Return dataset /\
    List.length dataset = (N * M)%nat /\
    ((1 <= M)%nat -> distinctSubjects dataset = N) /\
    map recordKey dataset = expectedKeys N M /\
    (forall i, (i < N)%nat ->
       map month (recordsOfSubject (subjectId i) dataset) = seq 0 M) /\
    (forall r, In r dataset -> month r = 0%nat -> season r = Winter).
Proof.
  intros N M.
  destruct (generateCompleteDataset_records config draws)
    as (dataset & Hret & Hgen & Hkeys).
  fold N M in Hkeys.
  exists dataset. split; [exact Hret|]. split; [|split; [|split; [|split]]].
  - rewrite <- (length_map recordKey), Hkeys. apply expectedKeys_length.
  - intros HM. unfold distinctSubjects.
    rewrite distinct_count with (ids := map subjectId (seq 0 N)).
    + now rewrite length_map, length_seq.
    + apply subjectIds_NoDup.
    + intros x.
      replace (map subject_id dataset) with (map fst (map recordKey dataset))
        by (rewrite map_map; reflexivity).
      rewrite Hkeys. now apply expectedKeys_subjects.
  - exact Hkeys.
  - intros i Hi. rewrite recordsOfSubject_months, Hkeys.
    apply filter_keys_present; [apply seq_NoDup|apply in_seq; lia].
  - intros r Hr Hm. rewrite Forall_forall in Hgen.
    rewrite (generatedRecord_season r (Hgen r Hr)), Hm. reflexivity.
Qed.

(** C1. For every subject profile, month index and season, and for every
    value of the random draws, every numeric field of the behavior vector
    that [generateMonthlyTWABehaviors] returns lies in its documented
    domain; for every profile, behavior vector, baseline age and elapsed
    months, every bounded field of the outcome vector that
    [generateAgingWellnessOutcomes] returns lies in its documented domain;
    hence both vectors of every record of a generated dataset do. *)
Theorem generated_vectors_in_domain :
  (forall (profile : Demographics) (m : nat) (season : Season)
          (draws : RandomSource),
     BehaviorInDomain
       (fst (generateMonthlyTWABehaviors profile m season draws))) /\
  (forall (profile : Demographics) (b : TWABehaviors)
          (baselineAge monthsElapsed : R) (draws : RandomSource),
     OutcomeInDomain
       (fst (generateAgingWellnessOutcomes profile b baselineAge
               monthsElapsed draws))) /\
  (forall (config : DatasetConfig) (draws : RandomSource),
     exists dataset : list MonthlyRecord,
       fst (generateCompleteDataset config draws) = Return dataset /\
       Forall (fun r => BehaviorInDomain (behaviors r) /\
                        OutcomeInDomain (outcomes r)) dataset).
Proof.
  split; [|split].
  - intros profile m season draws.
    apply generateMonthlyTWABehaviors_in_domain.
  - intros profile b baselineAge monthsElapsed draws.
    apply generateAgingWellnessOutcomes_in_domain.
  - intros config draws.
    destruct (generateCompleteDataset_records config draws)
      as (dataset & Hret & Hgen & _).
    exists dataset. split; [exact Hret|].
    eapply Forall_impl; [|exact Hgen].
    intros r (_ & _ & _ & _ & _ & Hb & Ho & _). split; assumption.
Qed.

(** C4. For every configuration with [subjectCount >= 1] and
    [months >= 1] and every random source, [generateCompleteDataset]
    returns a dataset of exactly [subjectCount * months] records with
    [subjectCount] distinct subject identifiers; the records are grouped by
    subject in generation order with the month indices ascending, every
    subject carries exactly the months [0 .. months-1], and every record of
    month 0 has season Winter. *)
Theorem generateCompleteDataset_counts :
  forall (config : DatasetConfig) (draws : RandomSource),
    (1 <= n_subjects config)%Z -> (1 <= months config)%Z ->
    exists dataset : list MonthlyRecord,
      fst (generateCompleteDataset config draws) = Return dataset /\
      List.length dataset = Z.to_nat (n_subjects config * months config) /\
      distinctSubjects dataset = Z.to_nat (n_subjects config) /\
      map recordKey dataset
      = expectedKeys (Z.to_nat (n_subjects config))
          (Z.to_nat (months config)) /\
      (forall i, (i < Z.to_nat (n_subjects config))%nat ->
         map month (recordsOfSubject (subjectId i) dataset)
         = seq 0 (Z.to_nat (months config))) /\
      (forall r, In r dataset -> month r = 0%nat -> season r = Winter).
Proof.
  intros config draws Hn Hm.
  destruct (generateCompleteDataset_grouped config draws)
    as (dataset & Hret & Hlen & Hdistinct & Hkeys & Hmonths & Hwinter).
  exists dataset. repeat split; try assumption.
  - rewrite Hlen, Z2Nat.inj_mul by lia. reflexivity.
  - apply Hdistinct. lia.
Qed.

Lemma generateCompleteDataset_counts_witness :
  exists dataset : list MonthlyRecord,
    fst (generateCompleteDataset quickTestConfig constantDraws)
    = Return dataset /\
    List.length dataset = 300%nat /\
    distinctSubjects dataset = 100%nat /\
    map recordKey dataset = expectedKeys 100 3 /\
    (forall i, (i < 100)%nat ->
       map month (recordsOfSubject (subjectId i) dataset) = [0; 1; 2]%nat) /\
    (forall r, In r dataset -> month r = 0%nat -> season r = Winter).
Proof.
  apply (generateCompleteDataset_counts quickTestConfig constantDraws);
    simpl; lia.
Defined.

(** The instance of the specification: 100 subjects over 3 months, for
    every random source. *)
Corollary generate_100_subjects_3_months (draws : RandomSource) :
  exists dataset : list MonthlyRecord,
    fst (generateCompleteDataset quickTestConfig draws) = Return dataset /\
    List.length dataset = 300%nat /\
    distinctSubjects dataset = 100%nat /\
    (forall i, (i < 100)%nat ->
       map month (recordsOfSubject (subjectId i) dataset) = [0; 1; 2]%nat) /\
    (forall r, In r dataset -> month r = 0%nat -> season r = Winter).
Proof.
  destruct (generateCompleteDataset_grouped quickTestConfig draws)
    as (dataset & Hret & Hlen & Hdistinct & _ & Hmonths & Hwinter).
  exists dataset. repeat split; try assumption.
  apply Hdistinct. simpl. lia.
Qed.

(** ** Biological-age acceleration *)

Lemma generatedRecord_acceleration r :
  generatedRecord r -> accelerationAgainstBaseline r.
Proof. intros (_ & _ & _ & _ & H & _). exact H. Qed.

Lemma return_inj {E A} (a b : A) : @Return E A a = Return b -> a = b.
Proof. intros H. now injection H. Qed.

(** The claim as stated fails: in the dataset of one subject over two
    months the record of month 1 stores an acceleration that is not the
    biological age minus the age reached at that month. *)
Lemma acceleration_against_current_age_fails :
  ~ (exists dataset : list MonthlyRecord,
       fst (generateCompleteDataset oneSubjectTwoMonths constantDraws)
       = Return dataset /\
       Forall accelerationAgainstCurrentAge dataset).
Proof.
  intros (dataset & Hret & Hall).
  destruct (generateCompleteDataset_records oneSubjectTwoMonths constantDraws)
    as (dataset' & Hret' & Hgen & Hkeys).
  rewrite Hret in Hret'. apply return_inj in Hret'. subst dataset'.
  assert (Hin : In (subjectId 0, 1%nat) (map recordKey dataset)).
  { rewrite Hkeys. simpl. right. left. reflexivity. }
  apply in_map_iff in Hin as (r & Hkey & Hr).
  rewrite Forall_forall in Hall, Hgen.
  pose proof (Hall r Hr) as Hclaim.
  pose proof (generatedRecord_acceleration r (Hgen r Hr)) as Hcode.
  unfold accelerationAgainstCurrentAge in Hclaim.
  unfold accelerationAgainstBaseline in Hcode.
  injection Hkey as _ Hmonth. rewrite Hmonth in Hclaim. simpl in Hclaim.
  lra.
Qed.

(** C5 (amended). For every generated monthly record the acceleration
    field equals the biological age minus the subject's baseline age (the
    numeric age of the profile); it therefore exceeds the biological age
    minus the age reached at the observation by [month / 12].  At the level
    of the outcome model, the field is the returned biological age minus
    the [baselineAge] argument. *)
Theorem acceleration_is_against_baseline :
  (forall (d : Demographics) (b : TWABehaviors) (baselineAge monthsElapsed : R)
          (draws : RandomSource),
     let o := fst (generateAgingWellnessOutcomes d b baselineAge
                     monthsElapsed draws) in
     biological_age_acceleration o = biological_age_years o - baselineAge) /\
  (forall (config : DatasetConfig) (draws : RandomSource),
     exists dataset : list MonthlyRecord,
       fst (generateCompleteDataset config draws) = Return dataset /\
       Forall (fun r =>
                 accelerationAgainstBaseline r /\
                 biological_age_acceleration (outcomes r)
                 = biological_age_years (outcomes r)
                   - (age_numeric (demographics r) + INR (month r) / 12)
                   + INR (month r) / 12)
         dataset).
Proof.
  split.
  - intros d b baselineAge monthsElapsed draws. reflexivity.
  - intros config draws.
    destruct (generateCompleteDataset_records config draws)
      as (dataset & Hret & Hgen & _).
    exists dataset. split; [exact Hret|].
    eapply Forall_impl; [|exact Hgen].
    intros r Hr. pose proof (generatedRecord_acceleration r Hr) as H.
    split; [exact H|]. unfold accelerationAgainstBaseline in H. lra.
Qed.

(** ** Derived fields of a record *)

(** C8. For every generated monthly record, the six guideline flags and the
    two composite scores are reproduced exactly by recomputing the flag
    predicates, [calculateHealthyAgingProfile] and
    [calculateBlueZoneSimilarity] from the stored behavior and outcome
    vectors; the recomputation consumes no random draw, and the Blue-Zone
    score does not depend on the profile argument. *)
Theorem derived_fields_are_recomputable :
  forall (config : DatasetConfig) (draws : RandomSource),
    exists dataset : list MonthlyRecord,
      fst (generateCompleteDataset config draws) = Return dataset /\
      Forall derivedFieldsRecomputed dataset.
Proof.
  intros config draws.
  destruct (generateCompleteDataset_records config draws)
    as (dataset & Hret & Hgen & _).
  exists dataset. split; [exact Hret|].
  eapply Forall_impl; [|exact Hgen].
  intros r (_ & _ & _ & _ & _ & _ & _ & H). exact H.
Qed.

(** ** Configurations without subjects or months *)

Lemma to_nat_below_one (z : Z) : (z < 1)%Z -> Z.to_nat z = 0%nat.
Proof. intros H. destruct z; simpl; lia. Qed.

(** The claim as stated fails: for zero subjects over twelve months the
    generator raises no error and returns the empty dataset. *)
Lemma no_subjects_is_not_an_error :
  fst (generateCompleteDataset noSubjectsConfig constantDraws) = Return [] /\
  fst (generateCompleteDataset noSubjectsConfig constantDraws)
  <> Throw InvalidConfiguration.
Proof. split; [reflexivity | discriminate]. Qed.

(** C2 (amended). For every configuration with [subjectCount < 1] or
    [months < 1], [generateCompleteDataset] raises no error: it returns
    normally with the empty record collection; with [subjectCount < 1] it
    consumes no random draw. *)
Theorem nonpositive_counts_give_empty_dataset :
  forall (config : DatasetConfig) (draws : RandomSource),
    (n_subjects config < 1)%Z \/ (months config < 1)%Z ->
    fst (generateCompleteDataset config draws) = Return [] /\
    ((n_subjects config < 1)%Z ->
     snd (generateCompleteDataset config draws) = draws).
Proof.
  intros config draws H. split.
  - destruct (generateCompleteDataset_grouped config draws)
      as (dataset & Hret & Hlen & _).
    rewrite Hret. f_equal. apply length_zero_iff_nil. rewrite Hlen.
    destruct H as [H|H]; rewrite (to_nat_below_one _ H); lia.
  - intros Hn. unfold generateCompleteDataset, generateCorrelatedDemographics.
    rewrite (to_nat_below_one _ Hn). reflexivity.
Qed.

Lemma nonpositive_counts_give_empty_dataset_witness :
  fst (generateCompleteDataset noSubjectsConfig constantDraws) = Return [] /\
  snd (generateCompleteDataset noSubjectsConfig constantDraws) = constantDraws.
Proof.
  assert (H : (n_subjects noSubjectsConfig < 1)%Z) by (simpl; lia).
  destruct (nonpositive_counts_give_empty_dataset noSubjectsConfig
              constantDraws (or_introl H)) as [Hret Hdraws].
  split; [exact Hret | exact (Hdraws H)].
Defined.

(** ** Extended numbers *)

Lemma div_zero_zero : jdiv (Num 0) (Num 0) = NaN.
Proof.
  unfold jdiv. destruct (Req_dec_T 0 0) as [_|H]; [|now elim H].
  unfold signed_inf. destruct (Rlt_dec 0 0); [lra|reflexivity].
Qed.

Lemma div_num (a b : R) : b <> 0 -> jdiv (Num a) (Num b) = Num (a / b).
Proof.
  intros H. unfold jdiv. destruct (Req_dec_T b 0); [contradiction|reflexivity].
Qed.

Lemma add_NaN_r x : jadd x NaN = NaN.
Proof. now destruct x. Qed.

Lemma max_NaN_r x : jmax x NaN = NaN.
Proof. now destruct x. Qed.

Lemma fold_max_NaN {A} (f : A -> jsnum) (l : list A) :
  fold_left (fun m a => jmax m (f a)) l NaN = NaN.
Proof. induction l as [|a l IH]; simpl; [reflexivity | exact IH]. Qed.

Lemma fold_add_NaN {A} (f : A -> jsnum) (l : list A) :
  fold_left (fun s a => jadd s (f a)) l NaN = NaN.
Proof. induction l as [|a l IH]; simpl; [reflexivity | exact IH]. Qed.

Lemma sumj_NaN (l : list jsnum) : fold_left jadd l NaN = NaN.
Proof. induction l as [|a l IH]; simpl; [reflexivity | exact IH]. Qed.


(** ** Validation of the empty dataset *)

Lemma ks_step_NaN m e : jmax m (jabs (jsub (jdiv (Num 0) (Num 0)) e)) = NaN.
Proof. rewrite div_zero_zero. simpl. apply max_NaN_r. Qed.

Lemma kolmogorovSmirnovTest_no_observation :
  kolmogorovSmirnovTest [] getExpectedAgeDistribution = NaN.
Proof.
  unfold kolmogorovSmirnovTest.
  replace (from_Set (dict_keys [] ++ dict_keys getExpectedAgeDistribution))
    with (dict_keys getExpectedAgeDistribution) by reflexivity.
  cbn [dict_keys getExpectedAgeDistribution map fst fold_left].
  change (get_or_0 [] "18-24") with 0.
  change (sum (dict_values [])) with 0.
  rewrite ks_step_NaN. reflexivity.
Qed.

Lemma seasonMean_nil : seasonMean [] = NaN.
Proof. unfold seasonMean. simpl. apply div_zero_zero. Qed.

Lemma calculateSeasonalVariations_nil : calculateSeasonalVariations [] = NaN.
Proof.
  unfold calculateSeasonalVariations. cbn [recordsOfSeason filter map].
  rewrite seasonMean_nil. reflexivity.
Qed.

Lemma validateDataset_nil : validateDataset [] = Return emptyDatasetReport.
Proof.
  unfold validateDataset, emptyDatasetReport.
  assert (Hd : validateDemographicAccuracy []
               = {| age_distribution_ks_test := NaN;
                    income_education_correlation := Num 0;
                    fitness_age_relationship := Num 0 |}).
  { unfold validateDemographicAccuracy.
    change (firstProfiles []) with (@nil (string * Demographics)).
    cbn [dict_values map].
    change (calculateDistribution []) with (@nil (string * R)).
    rewrite kolmogorovSmirnovTest_no_observation. reflexivity. }
  assert (Hl : validateLongitudinalCoherence []
               = {| seasonal_variations := NaN;
                    aging_trajectories := Num 0;
                    behavior_stability := Num 0 |}).
  { unfold validateLongitudinalCoherence.
    rewrite calculateSeasonalVariations_nil. reflexivity. }
  rewrite Hd, Hl. reflexivity.
Qed.

(** The claim as stated fails: on the empty record collection the
    validation engine raises no error and returns a report, whose
    distribution distance and seasonal variation are NaN. *)
Lemma empty_dataset_is_not_an_error :
  validateDataset [] = Return emptyDatasetReport /\
  validateDataset [] <> Throw InsufficientData.
Proof.
  split; [apply validateDataset_nil|].
  rewrite validateDataset_nil. discriminate.
Qed.

(** C3 (amended). [validateDataset] raises no error on any record
    collection: for the empty collection it returns the report
    [emptyDatasetReport], and for every non-empty collection it returns a
    validation report. *)
Theorem validateDataset_always_returns :
  validateDataset [] = Return emptyDatasetReport /\
  (forall dataset : list MonthlyRecord,
     exists report : ValidationResults,
       validateDataset dataset = Return report).
Proof.
  split; [apply validateDataset_nil|].
  intros dataset. eexists. reflexivity.
Qed.

(** * Validation statistics *)

(** ** Sums *)

Lemma fold_left_add_from {A} (f : A -> R) (l : list A) (acc : R) :
  fold_left (fun s a => s + f a) l acc = acc + total f l.
Proof.
  unfold total. revert acc. induction l as [|a l IH]; intros acc; simpl.
  - lra.
  - rewrite IH, (IH (0 + f a)). lra.
Qed.

Lemma total_nil {A} (f : A -> R) : total f [] = 0.
Proof. reflexivity. Qed.

Lemma total_cons {A} (f : A -> R) (a : A) (l : list A) :
  total f (a :: l) = f a + total f l.
Proof. unfold total at 1. simpl. rewrite fold_left_add_from. lra. Qed.



(** ** The Cauchy-Schwarz inequality *)



(** ** Pearson correlation *)

Section Pearson.

Variable l : list (R * R).




End Pearson.


Lemma calculateCorrelation_guards (x y : list R) :
  List.length x <> List.length y \/ x = [] \/ pearsonDenominator x y = 0 ->
  calculateCorrelation x y = 0.
Proof.
  unfold calculateCorrelation, pearsonDenominator.
  intros [H|[H|H]].
  - destruct (Nat.eqb_spec (List.length x) (List.length y)); [contradiction|].
    reflexivity.
  - subst x. simpl. now rewrite orb_true_r.
  - destruct (_ || _); [reflexivity|].
    unfold strict_eq, total in *. cbv zeta.
    destruct (Req_dec_T _ 0) as [_|Hden]; [reflexivity|]. contradiction.
Qed.

(** C9. The zero-denominator guard of [calculateCorrelation] is missed in
    binary64.  For the constant series 5.4, 5.4, 5.4 against 30, 60, 90 the
    exact denominator is zero and the guard returns 0; with the rounding of
    the source [n * sumXX - sumX * sumX] is negative, [Math.sqrt] gives NaN,
    [NaN === 0] is false and the reported correlation is NaN.  On the
    collinear series 1.1, 2.2, 3.3 and 11, 22, 33 the reported correlation
    is above 1. *)
Theorem calculateCorrelation_guard_misses_in_binary64 :
  calculateCorrelation [5.4; 5.4; 5.4] [30; 60; 90] = 0 /\
  PrimFloat.is_nan
    (Binary64.calculateCorrelation [5.4; 5.4; 5.4]%float [30; 60; 90]%float)
  = true /\
  PrimFloat.ltb 1
    (Binary64.calculateCorrelation [1.1; 2.2; 3.3]%float [11; 22; 33]%float)
  = true.
Proof.
  split; [|split].
  - apply calculateCorrelation_guards. right. right.
    unfold pearsonDenominator, Math_sqrt, total, sum. simpl.
    replace ((1 + 1 + 1) * (0 + 5.4 * 5.4 + 5.4 * 5.4 + 5.4 * 5.4)
             - (0 + 5.4 + 5.4 + 5.4) * (0 + 5.4 + 5.4 + 5.4)) with 0 by lra.
    rewrite Rmult_0_l. apply sqrt_0.
  - vm_compute. reflexivity.
  - vm_compute. reflexivity.
Qed.

(** ** Distribution distance *)

Lemma sum_map {A} (f : A -> R) (l : list A) : sum (map f l) = total f l.
Proof.
  unfold sum. change (fold_left (fun a b => a + b) (map f l) 0)
    with (total (fun v => v) (map f l)).
  induction l as [|a l IH]; [reflexivity|].
  simpl map. rewrite !total_cons, IH. reflexivity.
Qed.

Lemma get_or_0_bounds (d : dict R) (k : string) :
  nonnegValues d -> 0 <= get_or_0 d k <= sum (dict_values d).
Proof.
  unfold dict_values. rewrite sum_map. unfold get_or_0.
  induction 1 as [|[k' v] d Hv Hd IH]; simpl.
  - rewrite total_nil. lra.
  - rewrite total_cons. simpl in Hv |- *.
    destruct (String.eqb k' k); lra.
Qed.

Lemma dict_set_nonneg (d : dict R) (k : string) (v : R) :
  nonnegValues d -> 0 <= v -> nonnegValues (dict_set d k v).
Proof.
  intros Hd Hv. induction Hd as [|[k' v'] d Hv' Hd IH]; simpl.
  - constructor; [exact Hv | constructor].
  - destruct (String.eqb k' k).
    + constructor; [exact Hv | exact Hd].
    + constructor; [exact Hv' | exact IH].
Qed.

Lemma dict_set_increment (d : dict R) (k : string) :
  total snd (dict_set d k (get_or_0 d k + 1)) = total snd d + 1.
Proof.
  unfold get_or_0. induction d as [|[k' v] d IH]; simpl.
  - rewrite total_cons, total_nil. simpl. lra.
  - destruct (String.eqb k' k) eqn:E.
    + rewrite !total_cons. simpl. lra.
    + rewrite !total_cons, IH. simpl. lra.
Qed.

Lemma calculateDistribution_from (items : list string) (acc : dict R) :
  nonnegValues acc ->
  let d := fold_left (fun distribution item =>
                        dict_set distribution item
                          (get_or_0 distribution item + 1)) items acc in
  nonnegValues d /\ total snd d = total snd acc + INR (List.length items).
Proof.
  revert acc. induction items as [|item items IH]; intros acc Hacc.
  - simpl. split; [exact Hacc | lra].
  - cbv zeta. cbn [fold_left].
    assert (Hacc' : nonnegValues (dict_set acc item (get_or_0 acc item + 1))).
    { apply dict_set_nonneg; [exact Hacc|].
      pose proof (get_or_0_bounds acc item Hacc). lra. }
    destruct (IH _ Hacc') as [H1 H2]. split; [exact H1|].
    rewrite H2, dict_set_increment. cbn [List.length]. rewrite S_INR. lra.
Qed.

Lemma calculateDistribution_total (items : list string) :
  nonnegValues (calculateDistribution items) /\
  sum (dict_values (calculateDistribution items)) = INR (List.length items).
Proof.
  destruct (calculateDistribution_from items [] (Forall_nil _)) as [H1 H2].
  split; [exact H1|].
  unfold dict_values. rewrite sum_map.
  unfold calculateDistribution. rewrite H2, total_nil. lra.
Qed.

(** ** Seasonal variation *)

Lemma seasonMean_num (records : list MonthlyRecord) :
  records <> [] -> exists m : R, seasonMean records = Num m.
Proof.
  intros Hne. unfold seasonMean. rewrite div_num; [eexists; reflexivity|].
  apply not_0_INR. destruct records; [contradiction | simpl; lia].
Qed.

Lemma sub_NaN_r x : jsub x NaN = NaN.
Proof. unfold jsub. simpl. apply add_NaN_r. Qed.

Lemma seasonal_tail_NaN (means : list jsnum) (n : jsnum) :
  means <> [] ->
  jsqrt (jdiv (fold_left (fun s mean => jadd s (jpow2 (jsub mean NaN))) means
                  (Num 0)) n) = NaN.
Proof.
  destruct means as [|m means]; [contradiction|]. intros _.
  cbn [fold_left]. rewrite sub_NaN_r. unfold jpow2. cbn [jmul].
  rewrite add_NaN_r, fold_add_NaN. reflexivity.
Qed.

Lemma sumj_with_NaN (l : list jsnum) (acc : jsnum) :
  In NaN l -> fold_left jadd l acc = NaN.
Proof.
  revert acc. induction l as [|a l IH]; intros acc Hin; [destruct Hin|].
  destruct Hin as [->|Hin]; simpl.
  - rewrite add_NaN_r. apply sumj_NaN.
  - now apply IH.
Qed.

Lemma calculateSeasonalVariations_missing (dataset : list MonthlyRecord) :
  (exists s : Season, recordsOfSeason s dataset = []) ->
  calculateSeasonalVariations dataset = NaN.
Proof.
  intros [s Hs]. unfold calculateSeasonalVariations.
  set (means := map seasonMean _).
  assert (Hin : In NaN means).
  { subst means. apply in_map_iff. exists []. split; [apply seasonMean_nil|].
    rewrite <- Hs. destruct s; simpl; tauto. }
  unfold sumj. rewrite (sumj_with_NaN means (Num 0) Hin).
  change (jdiv NaN (Num (INR (List.length means)))) with NaN.
  apply seasonal_tail_NaN. intros H. rewrite H in Hin. destruct Hin.
Qed.

Lemma calculateSeasonalVariations_defined (dataset : list MonthlyRecord) :
  (forall s : Season, recordsOfSeason s dataset <> []) ->
  exists v : R, calculateSeasonalVariations dataset = Num v /\ 0 <= v.
Proof.
  intros Hall. unfold calculateSeasonalVariations. cbn [map].
  destruct (seasonMean_num _ (Hall Spring)) as [m1 ->].
  destruct (seasonMean_num _ (Hall Summer)) as [m2 ->].
  destruct (seasonMean_num _ (Hall Fall)) as [m3 ->].
  destruct (seasonMean_num _ (Hall Winter)) as [m4 ->].
  cbn [map List.length sumj fold_left jadd].
  assert (H4 : INR 4 <> 0) by (simpl; lra).
  rewrite div_num by exact H4.
  cbn [fold_left jsub jneg jadd jpow2 jmul].
  rewrite div_num by exact H4.
  set (mu := (0 + m1 + m2 + m3 + m4) / INR 4).
  set (v := (0 + (m1 + - mu) * (m1 + - mu) + (m2 + - mu) * (m2 + - mu)
             + (m3 + - mu) * (m3 + - mu) + (m4 + - mu) * (m4 + - mu)) / INR 4).
  assert (Hv : 0 <= v).
  { subst v. apply Rmult_le_pos.
    - pose proof (Rle_0_sqr (m1 + - mu)). pose proof (Rle_0_sqr (m2 + - mu)).
      pose proof (Rle_0_sqr (m3 + - mu)). pose proof (Rle_0_sqr (m4 + - mu)).
      unfold Rsqr in *. lra.
    - left. apply Rinv_0_lt_compat. simpl. lra. }
  unfold jsqrt. destruct (Rlt_dec v 0) as [Hneg|_]; [lra|].
  exists (R_sqrt.sqrt v). split; [reflexivity | apply sqrt_pos].
Qed.

Lemma recordsOfSeason_none (s : Season) (dataset : list MonthlyRecord) :
  (forall r, In r dataset -> season r <> s) -> recordsOfSeason s dataset = [].
Proof.
  unfold recordsOfSeason. induction dataset as [|r dataset IH]; intros H.
  - reflexivity.
  - simpl. destruct (Season_eqb (season r) s) eqn:E.
    + exfalso. apply (H r); [now left|].
      destruct (season r), s; simpl in E; congruence.
    + apply IH. intros r' Hr'. apply H. now right.
Qed.

Lemma single_month_is_winter config draws :
  (1 <= n_subjects config)%Z -> months config = 1%Z ->
  exists dataset : list MonthlyRecord,
    fst (generateCompleteDataset config draws) = Return dataset /\
    dataset <> [] /\
    (forall r, In r dataset -> season r = Winter).
Proof.
  intros Hn Hm.
  destruct (generateCompleteDataset_grouped config draws)
    as (dataset & Hret & Hlen & _ & Hkeys & _ & Hwinter).
  rewrite Hm in Hlen, Hkeys. change (Z.to_nat 1) with 1%nat in Hlen, Hkeys.
  exists dataset. split; [exact Hret|]. split.
  - intros ->. simpl in Hlen. lia.
  - intros r Hr. apply Hwinter; [exact Hr|].
    assert (Hin : In (recordKey r) (map recordKey dataset))
      by (apply in_map; exact Hr).
    rewrite Hkeys in Hin. unfold expectedKeys in Hin.
    apply in_flat_map in Hin as (i & _ & Hin).
    apply in_map_iff in Hin as (m & Heq & Hm0).
    unfold recordKey in Heq. injection Heq as _ Heq.
    simpl in Hm0. destruct Hm0 as [<-|[]]. now symmetry.
Qed.

(** C10. A dataset generated with [months = 1] is non-empty, is accepted
    by [validateDataset], holds Winter records only, and its reported
    seasonal variation is NaN: the mean of an empty seasonal group is
    [0 / 0].  In general the seasonal-variation statistic is NaN as soon as
    one of the four seasons has no record, and it is a finite non-negative
    number when every season occurs. *)
Theorem seasonal_variation_needs_every_season :
  (forall (config : DatasetConfig) (draws : RandomSource),
     (1 <= n_subjects config)%Z -> months config = 1%Z ->
     exists (dataset : list MonthlyRecord) (report : ValidationResults),
       fst (generateCompleteDataset config draws) = Return dataset /\
       dataset <> [] /\
       recordsOfSeason Spring dataset = [] /\
       seasonMean (recordsOfSeason Spring dataset) = NaN /\
       validateDataset dataset = Return report /\
       seasonal_variations (longitudinal_coherence report) = NaN) /\
  (forall dataset : list MonthlyRecord,
     (exists s : Season, recordsOfSeason s dataset = []) ->
     calculateSeasonalVariations dataset = NaN) /\
  (forall dataset : list MonthlyRecord,
     (forall s : Season, recordsOfSeason s dataset <> []) ->
     exists v : R, calculateSeasonalVariations dataset = Num v /\ 0 <= v).
Proof.
  split; [|split].
  - intros config draws Hn Hm.
    destruct (single_month_is_winter config draws Hn Hm)
      as (dataset & Hret & Hne & Hwinter).
    assert (Hspring : recordsOfSeason Spring dataset = []).
    { apply recordsOfSeason_none. intros r Hr.
      rewrite (Hwinter r Hr). discriminate. }
    exists dataset. eexists. split; [exact Hret|]. split; [exact Hne|].
    split; [exact Hspring|]. split; [rewrite Hspring; apply seasonMean_nil|].
    split; [reflexivity|].
    cbn [longitudinal_coherence]. unfold validateLongitudinalCoherence.
    cbn [seasonal_variations].
    apply calculateSeasonalVariations_missing. now exists Spring.
  - exact calculateSeasonalVariations_missing.
  - exact calculateSeasonalVariations_defined.
Qed.

Lemma seasonal_variation_needs_every_season_witness :
  (exists (dataset : list MonthlyRecord) (report : ValidationResults),
     fst (generateCompleteDataset oneSubjectOneMonth constantDraws)
     = Return dataset /\
     dataset <> [] /\
     validateDataset dataset = Return report /\
     seasonal_variations (longitudinal_coherence report) = NaN) /\
  calculateSeasonalVariations [sampleRecord] = NaN.
Proof.
  destruct seasonal_variation_needs_every_season as (Hgen & Hmissing & _).
  split.
  - assert (Hn : (1 <= n_subjects oneSubjectOneMonth)%Z) by (simpl; lia).
    assert (Hm : months oneSubjectOneMonth = 1%Z) by reflexivity.
    destruct (Hgen oneSubjectOneMonth constantDraws Hn Hm)
      as (dataset & report & Hret & Hne & _ & _ & Hval & Hnan).
    exists dataset, report. repeat split; assumption.
  - apply Hmissing. exists Spring. reflexivity.
Defined.

(* ===================================================================== *)
(** * Further properties                                                 *)
(* ===================================================================== *)

Lemma sum_cons (w : R) (ws : list R) : sum (w :: ws) = w + sum ws.
Proof. apply (total_cons (fun v => v)). Qed.

Lemma sum_app (l1 l2 : list R) : sum (l1 ++ l2) = sum l1 + sum l2.
Proof.
  induction l1 as [|a l1 IH].
  - rewrite app_nil_l. unfold sum at 2. simpl. lra.
  - rewrite <- app_comm_cons, !sum_cons, IH. lra.
Qed.

Lemma cumulative_cons w ws k :
  cumulative (w :: ws) (S k) = w + cumulative ws k.
Proof. unfold cumulative. simpl firstn. apply sum_cons. Qed.

Lemma weight_walk_In {T} (items : list T) weights random x :
  weight_walk items weights random = Some x -> In x items.
Proof.
  revert weights random. induction items as [|it items IH];
    intros [|w ws] random H; simpl in H; try discriminate.
  destruct (Rle_dec (random - w) 0).
  - injection H as <-. now left.
  - right. eapply IH. exact H.
Qed.

Lemma last_In {T} (items : list T) (d : T) : items <> [] -> In (last items d) items.
Proof.
  induction items as [|a [|b items] IH]; intros H.
  - contradiction.
  - now left.
  - right. apply IH. discriminate.
Qed.

(** X1. [weightedRandomChoice] over a non-empty list of items always returns
    one of the items, whatever the weights and the draw (when no running
    total reaches the draw it falls back to the last item, never to
    [undefined]). *)
Theorem weightedRandomChoice_picks_an_item :
  forall (T : Type) (undef : T) (items : list T) (weights : list R)
         (draws : RandomSource),
    items <> [] ->
    In (fst (weightedRandomChoice undef items weights draws)) items.
Proof.
  intros T undef items weights draws Hne.
  unfold weightedRandomChoice, bind, ret, Math_random. simpl.
  destruct (weight_walk items weights _) eqn:E.
  - eapply weight_walk_In. exact E.
  - now apply last_In.
Qed.

Lemma weight_walk_rule {T} (items : list T) weights random :
  List.length items = List.length weights -> items <> [] ->
  random <= sum weights ->
  exists k x,
    weight_walk items weights random = Some x /\
    nth_error items k = Some x /\
    random <= cumulative weights k /\
    (forall j, (j < k)%nat -> cumulative weights j < random).
Proof.
  revert weights random. induction items as [|it items IH];
    intros [|w ws] random Hlen Hne Hle; simpl in Hlen; try discriminate;
    [contradiction|].
  simpl weight_walk. destruct (Rle_dec (random - w) 0) as [H0|H0].
  - exists 0%nat, it. repeat split.
    + unfold cumulative. simpl firstn. rewrite sum_cons.
      unfold sum. simpl. lra.
    + intros j Hj. lia.
  - destruct items as [|it' items].
    + destruct ws; [|discriminate]. rewrite sum_cons in Hle.
      unfold sum in Hle. simpl in Hle. lra.
    + destruct (IH ws (random - w)) as (k & x & Hw & Hn & Hc & Hb).
      * lia.
      * discriminate.
      * rewrite sum_cons in Hle. lra.
      * exists (S k), x. split; [exact Hw|]. split; [exact Hn|]. split.
        -- rewrite cumulative_cons. lra.
        -- intros [|j] Hj.
           ++ unfold cumulative. simpl firstn. rewrite sum_cons.
              unfold sum. simpl. lra.
           ++ rewrite cumulative_cons.
              assert (cumulative ws j < random - w) by (apply Hb; lia). lra.
Qed.

(** X2. With as many weights as items, a non-negative weight total and a draw
    of at most 1, [weightedRandomChoice] returns the item at the first
    index whose running weight total reaches [draw * total]: every earlier
    running total is strictly below it. *)
Theorem weightedRandomChoice_cumulative_rule :
  forall (T : Type) (undef : T) (items : list T) (weights : list R)
         (draws : RandomSource),
    List.length items = List.length weights -> items <> [] ->
    0 <= sum weights -> draws 0%nat <= 1 ->
    exists k : nat,
      nth_error items k
      = Some (fst (weightedRandomChoice undef items weights draws)) /\
      draws 0%nat * sum weights <= cumulative weights k /\
      (forall j, (j < k)%nat -> cumulative weights j < draws 0%nat * sum weights).
Proof.
  intros T undef items weights draws Hlen Hne Hsum Hr.
  assert (Hle : draws 0%nat * sum weights <= sum weights) by nra.
  destruct (weight_walk_rule items weights _ Hlen Hne Hle)
    as (k & x & Hw & Hn & Hc & Hb).
  exists k. unfold weightedRandomChoice, bind, ret, Math_random. simpl.
  rewrite Hw. repeat split; assumption.
Qed.

(** ** Probability redistribution *)

Lemma mapi_from_length {A B} (f : nat -> A -> B) (l : list A) i :
  List.length (mapi_from i f l) = List.length l.
Proof.
  revert i. induction l as [|a l IH]; intros i; simpl; [reflexivity|].
  now rewrite IH.
Qed.

Lemma mapi_from_snoc {A B} (f : nat -> A -> B) (l : list A) (a : A) i :
  mapi_from i f (l ++ [a]) = mapi_from i f l ++ [f (i + List.length l)%nat a].
Proof.
  revert i. induction l as [|b l IH]; intros i; simpl.
  - now rewrite Nat.add_0_r.
  - rewrite IH.
    replace (S i + List.length l)%nat with (i + S (List.length l))%nat by lia.
    reflexivity.
Qed.

Lemma mapi_from_Forall {A B} (f : nat -> A -> B) (P : A -> Prop)
  (Q : B -> Prop) (l : list A) i :
  (forall j a, P a -> Q (f j a)) -> Forall P l -> Forall Q (mapi_from i f l).
Proof.
  intros Hf Hl. revert i. induction Hl as [|a l Ha _ IH]; intros i; simpl.
  - constructor.
  - constructor; [now apply Hf | apply IH].
Qed.

Lemma sum_nonneg (l : list R) : Forall (fun p => 0 <= p) l -> 0 <= sum l.
Proof.
  induction 1 as [|a l Ha _ IH].
  - unfold sum. simpl. lra.
  - rewrite sum_cons. cbv beta in Ha. lra.
Qed.

Lemma sum_scaled (l : list R) (t : R) :
  sum (map (fun prob => prob / t) l) = sum l / t.
Proof.
  induction l as [|a l IH]; simpl map.
  - unfold sum. simpl. unfold Rdiv. lra.
  - rewrite !sum_cons, IH. unfold Rdiv. lra.
Qed.

Lemma normalized (shifted : list R) :
  Forall (fun p => 0 <= p) shifted -> 0 < sum shifted ->
  let out := map (fun prob => prob / sum shifted) shifted in
  List.length out = List.length shifted /\ sum out = 1 /\
  Forall (fun p => 0 <= p) out.
Proof.
  intros Hnn Hpos. cbv zeta. split; [apply length_map|]. split.
  - rewrite sum_scaled. unfold Rdiv. apply Rinv_r. lra.
  - apply Forall_map. eapply Forall_impl; [|exact Hnn].
    intros a Ha. simpl. apply Rmult_le_pos; [exact Ha|].
    left. now apply Rinv_0_lt_compat.
Qed.

(** X3. For non-negative probabilities and a factor above 1,
    [shiftProbabilitiesTowardHigher] (at least two entries) and
    [shiftProbabilitiesTowardLower] (at least one entry) return a list of
    the same length, of non-negative entries, that sums to 1. *)
Theorem shiftProbabilities_normalized :
  (forall (probabilities : list R) (factor : R),
     (2 <= List.length probabilities)%nat ->
     Forall (fun p => 0 <= p) probabilities -> 1 < factor ->
     let out := shiftProbabilitiesTowardHigher probabilities factor in
     List.length out = List.length probabilities /\ sum out = 1 /\
     Forall (fun p => 0 <= p) out) /\
  (forall (probabilities : list R) (factor : R),
     (1 <= List.length probabilities)%nat ->
     Forall (fun p => 0 <= p) probabilities -> 1 < factor ->
     let out := shiftProbabilitiesTowardLower probabilities factor in
     List.length out = List.length probabilities /\ sum out = 1 /\
     Forall (fun p => 0 <= p) out).
Proof.
  split.
  - intros probabilities factor Hlen Hnn Hf. unfold shiftProbabilitiesTowardHigher.
    set (len := INR (List.length probabilities)).
    set (g := fun (i : nat) (p : R) =>
                if Rlt_dec (INR i) (len / 2)
                then Math_max 0 (p - (factor - 1) * 0.1)
                else Math_min 1 (p + (factor - 1) * 0.1)).
    assert (Hall : Forall (fun p => 0 <= p) (mapi_from 0 g probabilities)).
    { apply mapi_from_Forall with (P := fun p => 0 <= p); [|exact Hnn].
      intros j a Ha. unfold g, Math_max, Math_min.
      destruct (Rlt_dec _ _); [apply Rmax_l|].
      apply Rmin_glb; lra. }
    assert (Hpos : 0 < sum (mapi_from 0 g probabilities)).
    { destruct (exists_last (l := probabilities)) as (l' & a & Hl).
      { intros ->. simpl in Hlen. lia. }
      assert (Ha : 0 <= a).
      { rewrite Hl in Hnn. apply Forall_app in Hnn as [_ Hnn].
        now inversion Hnn. }
      assert (Hl' : (1 <= List.length l')%nat).
      { rewrite Hl, length_app in Hlen. simpl in Hlen. lia. }
      revert Hall. rewrite Hl, mapi_from_snoc. intros Hall.
      apply Forall_app in Hall as [Hall _].
      rewrite sum_app, sum_cons. unfold sum at 2. simpl fold_left.
      pose proof (sum_nonneg _ Hall).
      assert (0 < g (List.length l') a); [|simpl Nat.add; lra].
      unfold g, len. rewrite Hl, length_app. simpl List.length.
      rewrite plus_INR. simpl INR.
      assert (1 <= INR (List.length l')).
      { change 1 with (INR 1). apply le_INR. exact Hl'. }
      destruct (Rlt_dec _ _) as [Hlt|_]; [lra|].
      unfold Math_min. apply Rmin_glb_lt; lra. }
    pose proof (normalized _ Hall Hpos) as H. cbv zeta in H |- *.
    rewrite mapi_from_length in H. exact H.
  - intros probabilities factor Hlen Hnn Hf. unfold shiftProbabilitiesTowardLower.
    set (len := INR (List.length probabilities)).
    set (g := fun (i : nat) (p : R) =>
                if Rlt_dec (INR i) (len / 2)
                then Math_min 1 (p + (factor - 1) * 0.1)
                else Math_max 0 (p - (factor - 1) * 0.1)).
    assert (Hall : Forall (fun p => 0 <= p) (mapi_from 0 g probabilities)).
    { apply mapi_from_Forall with (P := fun p => 0 <= p); [|exact Hnn].
      intros j a Ha. unfold g, Math_max, Math_min.
      destruct (Rlt_dec _ _); [|apply Rmax_l].
      apply Rmin_glb; lra. }
    assert (Hpos : 0 < sum (mapi_from 0 g probabilities)).
    { destruct probabilities as [|a l]; [simpl in Hlen; lia|].
      assert (Ha : 0 <= a) by now inversion Hnn.
      revert Hall. simpl mapi_from. intros Hall.
      inversion Hall as [|? ? _ Hrest]; subst.
      rewrite sum_cons. pose proof (sum_nonneg _ Hrest).
      assert (0 < g 0%nat a); [|lra].
      unfold g, len. simpl List.length. rewrite S_INR. simpl INR.
      pose proof (pos_INR (List.length l)).
      destruct (Rlt_dec _ _) as [_|Hge]; [|lra].
      unfold Math_min. apply Rmin_glb_lt; lra. }
    pose proof (normalized _ Hall Hpos) as H. cbv zeta in H |- *.
    rewrite mapi_from_length in H. exact H.
Qed.

(** ** Generated profiles *)

Lemma includes_In (xs : list string) (x : string) :
  includes xs x = true <-> In x xs.
Proof.
  unfold includes. rewrite existsb_exists. split.
  - intros (y & Hy & Heq). apply String.eqb_eq in Heq. now subst.
  - intros H. exists x. split; [exact H | apply String.eqb_refl].
Qed.

Lemma from_Set_from (xs acc : list string) (x : string) :
  In x (fold_left (fun acc x => if includes acc x then acc else acc ++ [x])
          xs acc)
  <-> In x acc \/ In x xs.
Proof.
  revert acc. induction xs as [|y xs IH]; intros acc; simpl.
  - tauto.
  - rewrite IH. destruct (includes acc y) eqn:E.
    + apply includes_In in E. split; [tauto|].
      intros [H|[<-|H]]; tauto.
    + rewrite in_app_iff. simpl. tauto.
Qed.

Lemma from_Set_In (xs : list string) (x : string) :
  In x (from_Set xs) <-> In x xs.
Proof. unfold from_Set. rewrite from_Set_from. simpl. tauto. Qed.

Lemma weightedRandomChoice_always {T} (undef : T) items weights :
  items <> [] ->
  always (weightedRandomChoice undef items weights) (fun x => In x items).
Proof.
  intros Hne s. unfold weightedRandomChoice, bind, ret, Math_random. simpl.
  destruct (weight_walk items weights _) eqn:E.
  - eapply weight_walk_In. exact E.
  - now apply last_In.
Qed.

Lemma sampleAgeGroup_range :
  always sampleAgeGroup (fun g => In g ageGroups).
Proof. apply weightedRandomChoice_always. discriminate. Qed.

Lemma sampleOccupation_range education ageGroup :
  always (sampleOccupationByDemographics education ageGroup)
    (fun o => In o (educationOccupations education ++ ageOccupations ageGroup)).
Proof.
  intros s. apply from_Set_In.
  unfold sampleOccupationByDemographics.
  apply weightedRandomChoice_always.
  intros H.
  assert (Hin : In (hd EmptyString (educationOccupations education))
                  (from_Set (educationOccupations education
                             ++ ageOccupations ageGroup))).
  { apply from_Set_In. apply in_or_app. left. destruct education; now left. }
  rewrite H in Hin. destruct Hin.
Qed.

Lemma generatePerson_profile i :
  always (generatePerson i) (fun d => id d = subjectId i /\ generatedProfile d).
Proof.
  unfold generatePerson.
  eapply always_bind; [apply sampleAgeGroup_range | intros ageGroup Hg].
  eapply always_bind; [apply always_true | intros education _].
  eapply always_bind; [apply always_true | intros income _].
  eapply always_bind; [apply always_true | intros fitness _].
  eapply always_bind; [apply always_true | intros sleepType _].
  eapply always_bind; [apply always_true | intros region _].
  eapply always_bind; [apply always_true | intros urbanRural _].
  eapply always_bind; [apply always_true | intros gender _].
  eapply always_bind; [apply always_true | intros ethnicity _].
  eapply always_bind; [apply sampleOccupation_range | intros occ Hocc].
  apply always_ret. unfold generatedProfile. simpl. tauto.
Qed.

Lemma ageGroupToNumeric_range g :
  In g ageGroups -> 21 <= ageGroupToNumeric g <= 80.
Proof.
  unfold ageGroups. simpl.
  intros [<-|[<-|[<-|[<-|[<-|[<-|[<-|[]]]]]]]]; unfold ageGroupToNumeric; simpl; lra.
Qed.

Lemma incomeBracketToNumeric_range b :
  25000 <= incomeBracketToNumeric b <= 125000.
Proof. destruct b; simpl; lra. Qed.

Lemma generatedProfile_ranges d :
  generatedProfile d ->
  21 <= age_numeric d <= 80 /\ 25000 <= income_numeric d <= 125000.
Proof.
  intros (Hg & Ha & Hi & _). rewrite Ha, Hi. split.
  - now apply ageGroupToNumeric_range.
  - apply incomeBracketToNumeric_range.
Qed.

Lemma generateMonthlyRecord_produced person m :
  always (generateMonthlyRecord person (age_numeric person) m)
    (producedBy person m).
Proof. intros s. exists s. reflexivity. Qed.

Lemma Forall2_and_split {A B} (P Q : A -> B -> Prop) xs ys :
  Forall2 (fun a b => P a b /\ Q a b) xs ys ->
  Forall2 P xs ys /\ Forall2 Q xs ys.
Proof.
  induction 1 as [|a b xs ys [Hp Hq] _ [IH1 IH2]]; split; constructor; assumption.
Qed.

Lemma Forall2_Forall_right {A B} (Q : B -> Prop) (xs : list A) ys :
  Forall2 (fun _ b => Q b) xs ys -> Forall Q ys.
Proof. induction 1; constructor; assumption. Qed.

(** Where the records of a generated dataset come from. *)
Lemma generateCompleteDataset_provenance config draws :
  exists (people : list Demographics) (blocks : list (list MonthlyRecord)),
    fst (generateCompleteDataset config draws) = Return (List.concat blocks) /\
    map id people = map subjectId (seq 0 (Z.to_nat (n_subjects config))) /\
    Forall generatedProfile people /\
    Forall2 (fun person block =>
               Forall2 (producedBy person)
                 (seq 0 (Z.to_nat (months config))) block)
      people blocks.
Proof.
  unfold generateCompleteDataset, bind, ret. simpl.
  eexists _, _. split; [reflexivity|].
  assert (Hp : Forall2 (fun i d => id d = subjectId i /\ generatedProfile d)
                 (seq 0 (Z.to_nat (n_subjects config)))
                 (fst (generateCorrelatedDemographics (n_subjects config) draws))).
  { apply for_each_Forall2. intros i _. apply generatePerson_profile. }
  apply Forall2_and_split in Hp as [Hids Hprof].
  split; [apply (Forall2_map_eq id subjectId); exact Hids|]. split.
  - eapply Forall2_Forall_right. exact Hprof.
  - apply for_each_Forall2. intros person _.
    unfold generateSubjectRecords. apply for_each_Forall2.
    intros m _. apply generateMonthlyRecord_produced.
Qed.

Lemma producedBy_recordOf person m r : producedBy person m r -> recordOf person m r.
Proof.
  intros [s ->]. apply generateMonthlyRecord_recordOf.
Qed.

Lemma Forall2_In_right {A B} (R : A -> B -> Prop) xs ys y :
  Forall2 R xs ys -> In y ys ->
  exists k x, nth_error xs k = Some x /\ nth_error ys k = Some y /\ R x y.
Proof.
  induction 1 as [|a b xs ys Hab _ IH]; intros Hin; [destruct Hin|].
  destruct Hin as [<-|Hin].
  - exists 0%nat, a. now repeat split.
  - destruct (IH Hin) as (k & x & H1 & H2 & H3).
    exists (S k), x. now repeat split.
Qed.

(** Every record of a generated dataset is produced for a generated
    profile, the one at the position of its subject. *)
Lemma generated_records config draws :
  exists (people : list Demographics) (dataset : list MonthlyRecord),
    fst (generateCompleteDataset config draws) = Return dataset /\
    forall r, In r dataset ->
      exists (k m : nat) (person : Demographics),
        nth_error people k = Some person /\ id person = subjectId k /\
        generatedProfile person /\ (m < Z.to_nat (months config))%nat /\
        producedBy person m r.
Proof.
  destruct (generateCompleteDataset_provenance config draws)
    as (people & blocks & Hret & Hids & Hprof & Hblocks).
  exists people, (List.concat blocks). split; [exact Hret|].
  intros r Hr. apply in_concat in Hr as (block & Hblock & Hr).
  destruct (Forall2_In_right _ _ _ _ Hblocks Hblock)
    as (k & person & Hk & _ & Hb).
  destruct (Forall2_In_right _ _ _ _ Hb Hr) as (j & m & Hj & _ & Hprod).
  exists k, m, person. split; [exact Hk|]. split.
  - assert (H : nth_error (map id people) k = Some (id person))
      by (now apply map_nth_error).
    rewrite Hids, nth_error_map in H.
    destruct (nth_error (seq 0 (Z.to_nat (n_subjects config))) k) eqn:E;
      simpl in H; [|discriminate].
    injection H as H.
    assert (Hlt : (k < List.length (seq 0 (Z.to_nat (n_subjects config))))%nat)
      by (apply nth_error_Some; congruence).
    rewrite length_seq in Hlt.
    rewrite nth_error_seq in E.
    destruct (Nat.ltb_spec k (Z.to_nat (n_subjects config))); [|lia].
    injection E as <-. now symmetry.
  - split.
    + rewrite Forall_forall in Hprof. apply Hprof.
      eapply nth_error_In. exact Hk.
    + split; [|exact Hprod].
      assert (Hin : In m (seq 0 (Z.to_nat (months config))))
        by (eapply nth_error_In; exact Hj).
      apply in_seq in Hin. lia.
Qed.

(** X4. [generateCorrelatedDemographics(n)] returns [n] profiles, and every
    profile (also the one carried by every record of a generated dataset)
    is consistent: its age group is one of the seven groups, its numeric
    age and income are the table values of its age group and income
    bracket (hence 21..80 and 25000..125000), and its occupation comes from
    the lists of its education level or age group. *)
Theorem generated_profiles_consistent :
  (forall (n : Z) (draws : RandomSource),
     let people := fst (generateCorrelatedDemographics n draws) in
     List.length people = Z.to_nat n /\
     Forall (fun d =>
               generatedProfile d /\
               21 <= age_numeric d <= 80 /\
               25000 <= income_numeric d <= 125000) people) /\
  (forall (config : DatasetConfig) (draws : RandomSource),
     exists dataset : list MonthlyRecord,
       fst (generateCompleteDataset config draws) = Return dataset /\
       Forall (fun r =>
                 generatedProfile (demographics r) /\
                 21 <= age_numeric (demographics r) <= 80 /\
                 25000 <= income_numeric (demographics r) <= 125000) dataset).
Proof.
  split.
  - intros n draws. cbv zeta. split.
    + unfold generateCorrelatedDemographics.
      rewrite for_each_length. apply length_seq.
    + assert (H : Forall2 (fun i d => id d = subjectId i /\ generatedProfile d)
                    (seq 0 (Z.to_nat n))
                    (fst (generateCorrelatedDemographics n draws))).
      { apply for_each_Forall2. intros i _. apply generatePerson_profile. }
      apply Forall2_and_split in H as [_ H].
      apply Forall2_Forall_right in H.
      eapply Forall_impl; [|exact H].
      intros d Hd. split; [exact Hd|]. now apply generatedProfile_ranges.
  - intros config draws.
    destruct (generated_records config draws) as (people & dataset & Hret & Hall).
    exists dataset. split; [exact Hret|]. apply Forall_forall. intros r Hr.
    destruct (Hall r Hr) as (k & m & person & _ & _ & Hprof & _ & Hprod).
    apply producedBy_recordOf in Hprod.
    destruct Hprod as (_ & _ & _ & -> & _).
    split; [exact Hprof|]. now apply generatedProfile_ranges.
Qed.

(** X5. In a generated dataset two records with the same subject identifier
    carry the same demographic profile: demographics are time-invariant. *)
Theorem demographics_constant_per_subject :
  forall (config : DatasetConfig) (draws : RandomSource),
    exists dataset : list MonthlyRecord,
      fst (generateCompleteDataset config draws) = Return dataset /\
      forall r1 r2, In r1 dataset -> In r2 dataset ->
        subject_id r1 = subject_id r2 -> demographics r1 = demographics r2.
Proof.
  intros config draws.
  destruct (generated_records config draws) as (people & dataset & Hret & Hall).
  exists dataset. split; [exact Hret|]. intros r1 r2 H1 H2 Hid.
  destruct (Hall r1 H1) as (k1 & m1 & p1 & Hk1 & Hid1 & _ & _ & Hp1).
  destruct (Hall r2 H2) as (k2 & m2 & p2 & Hk2 & Hid2 & _ & _ & Hp2).
  apply producedBy_recordOf in Hp1, Hp2.
  destruct Hp1 as (Hs1 & _ & _ & Hd1 & _).
  destruct Hp2 as (Hs2 & _ & _ & Hd2 & _).
  assert (k1 = k2).
  { apply subjectId_inj. congruence. }
  subst k2. congruence.
Qed.

(** ** Biological age *)

Lemma Rmax_mono_r (c x y : R) : x <= y -> Rmax c x <= Rmax c y.
Proof. intros H. apply Rmax_lub; [apply Rmax_l|]. eapply Rle_trans; [exact H|apply Rmax_r]. Qed.

Lemma calculateBiologicalAge_shape (a : R) (b : TWABehaviors) (m : R) :
  0 <= sleep_hours b <= 10 ->
  exists X : R,
    -24 <= X <= 0 /\
    calculateBiologicalAge a b m = Rmax 18 (a + m / 12 + X / 12 * m).
Proof.
  intros Hs. unfold calculateBiologicalAge, Math_max.
  destruct (geb (motion_days_week b) 4);
    destruct (geb (diet_mediterranean_score b) 7);
    destruct (geb (meditation_minutes_week b) 150);
    destruct (geb (sleep_quality_score b) 7);
    destruct (geb (purpose_meaning_score b) 8);
    destruct (geb (social_connections_count b) 4);
    destruct (SmokingStatus_eqb (smoking_status b) Current);
    destruct (gtb (alcohol_drinks_week b) 14);
    destruct (gtb (processed_food_servings_week b) 10);
    cbv zeta; (eexists; split; [|reflexivity]); simpl; lra.
Qed.

Lemma producedBy_biological_age person m r :
  producedBy person m r ->
  biological_age_years (outcomes r)
  = calculateBiologicalAge (age_numeric person) (behaviors r) (INR m).
Proof. intros [s ->]. reflexivity. Qed.

Lemma calculateBiologicalAge_no_rule (a : R) (b0 : TWABehaviors) (m : R) :
  noRuleFires b0 -> calculateBiologicalAge a b0 m = Rmax 18 (a + m / 12).
Proof.
  intros (H1 & H2 & H3 & H4 & H5 & H6 & H7 & H8 & H9).
  unfold calculateBiologicalAge, Math_max, geb, gtb.
  destruct (Rle_dec 4 (motion_days_week b0)); [lra|].
  destruct (Rle_dec 7 (diet_mediterranean_score b0)); [lra|].
  destruct (Rle_dec 150 (meditation_minutes_week b0)); [lra|].
  destruct (Rle_dec 7 (sleep_quality_score b0)); [lra|].
  destruct (Rle_dec 8 (purpose_meaning_score b0)); [lra|].
  destruct (Rle_dec 4 (social_connections_count b0)); [lra|].
  destruct (Rlt_dec 14 (alcohol_drinks_week b0)); [lra|].
  destruct (Rlt_dec 10 (processed_food_servings_week b0)); [lra|].
  destruct (smoking_status b0); try contradiction; cbv zeta; simpl;
    f_equal; lra.
Qed.

(** X6. No behavior raises the biological age: for sleep hours in 0..10 and
    a non-negative month count, [calculateBiologicalAge] of any behavior
    vector is at most its value for a vector to which no rule applies (which
    is [max(18, baseline + months/12)]) and at least
    [max(18, baseline + months/12 - 2 * months)]; at month 0 it is
    [max(18, baseline)].  Hence in every generated record the biological age
    and the acceleration are at most those of a subject of the same age and
    month to whom no rule applies, the acceleration is at least
    [-(23/12) * month], and at month 0 the biological age is the profile's
    age and the acceleration is 0. *)
Theorem biological_age_never_above_chronological :
  (forall (a : R) (b b0 : TWABehaviors) (m : R),
     0 <= sleep_hours b <= 10 -> 0 <= m -> noRuleFires b0 ->
     calculateBiologicalAge a b 0 = Rmax 18 a /\
     calculateBiologicalAge a b0 m = Rmax 18 (a + m / 12) /\
     calculateBiologicalAge a b m <= calculateBiologicalAge a b0 m /\
     Rmax 18 (a + m / 12 - 2 * m) <= calculateBiologicalAge a b m) /\
  (forall (config : DatasetConfig) (draws : RandomSource) (b0 : TWABehaviors),
     noRuleFires b0 ->
     exists dataset : list MonthlyRecord,
       fst (generateCompleteDataset config draws) = Return dataset /\
       Forall (fun r =>
                 let unaffected :=
                   calculateBiologicalAge (age_numeric (demographics r)) b0
                     (INR (month r)) in
                 biological_age_years (outcomes r) <= unaffected /\
                 biological_age_acceleration (outcomes r)
                 <= unaffected - age_numeric (demographics r) /\
                 - (23 / 12) * INR (month r)
                 <= biological_age_acceleration (outcomes r) /\
                 (month r = 0%nat ->
                  biological_age_years (outcomes r)
                  = age_numeric (demographics r) /\
                  biological_age_acceleration (outcomes r) = 0)) dataset).
Proof.
  assert (Hfun : forall (a : R) (b b0 : TWABehaviors) (m : R),
             0 <= sleep_hours b <= 10 -> 0 <= m -> noRuleFires b0 ->
             calculateBiologicalAge a b 0 = Rmax 18 a /\
             calculateBiologicalAge a b0 m = Rmax 18 (a + m / 12) /\
             calculateBiologicalAge a b m <= calculateBiologicalAge a b0 m /\
             Rmax 18 (a + m / 12 - 2 * m) <= calculateBiologicalAge a b m).
  { intros a b b0 m Hs Hm H0.
    destruct (calculateBiologicalAge_shape a b 0 Hs) as (X0 & HX0 & E0).
    destruct (calculateBiologicalAge_shape a b m Hs) as (X & HX & E).
    rewrite (calculateBiologicalAge_no_rule a b0 m H0), E0, E.
    split; [|split; [|split]].
    - f_equal. lra.
    - reflexivity.
    - apply Rmax_mono_r. nra.
    - apply Rmax_mono_r. nra. }
  split; [exact Hfun|].
  intros config draws b0 H0.
  destruct (generated_records config draws) as (people & dataset & Hret & Hall).
  exists dataset. split; [exact Hret|]. apply Forall_forall. intros r Hr.
  destruct (Hall r Hr) as (k & m & person & _ & _ & Hprof & _ & Hprod).
  pose proof (producedBy_biological_age _ _ _ Hprod) as Hbio.
  apply producedBy_recordOf in Hprod.
  destruct Hprod as (_ & Hm & _ & Hd & Hacc & Hb & _).
  cbv zeta. rewrite Hd, Hm, Hacc, Hbio.
  destruct (generatedProfile_ranges _ Hprof) as [Hage _].
  assert (Hs : 0 <= sleep_hours (behaviors r) <= 10).
  { destruct Hb as (_ & H & _). lra. }
  pose proof (pos_INR m) as Hm0.
  destruct (Hfun (age_numeric person) (behaviors r) b0 (INR m) Hs Hm0 H0)
    as (_ & Hun & Hhi & Hlo).
  assert (E : Rmax 18 (age_numeric person + INR m / 12)
              = age_numeric person + INR m / 12)
    by (apply Rmax_right; lra).
  rewrite Hun, E in *.
  pose proof (Rmax_r 18 (age_numeric person + INR m / 12 - 2 * INR m)).
  split; [lra|]. split; [lra|]. split; [lra|].
  intros ->. simpl INR in *. split; lra.
Qed.

Lemma clamp_mono (lo hi x y : R) :
  x <= y -> Math_max lo (Math_min hi x) <= Math_max lo (Math_min hi y).
Proof.
  intros H. unfold Math_max, Math_min.
  apply Rle_max_compat_l. apply Rle_min_compat_l. exact H.
Qed.

Lemma Rpower_pos (b e : R) : 0 < Rpower b e.
Proof. unfold Rpower. apply exp_pos. Qed.

(** X7. All else equal, a current smoker has a mortality risk at least that of
    a never-smoker, but a biological age at most that of a never-smoker:
    [calculateBiologicalAge] subtracts the smoking effect. *)
Theorem smoking_raises_risk_lowers_biological_age :
  forall (d : Demographics) (b : TWABehaviors) (a m bioAge : R),
    0 <= m ->
    calculateBiologicalAge a (withSmoking b Current) m
    <= calculateBiologicalAge a (withSmoking b Never) m /\
    calculateMortalityRisk d (withSmoking b Never) bioAge
    <= calculateMortalityRisk d (withSmoking b Current) bioAge.
Proof.
  intros d b a m bioAge Hm. split.
  - unfold calculateBiologicalAge, withSmoking, Math_max. simpl.
    destruct (geb (motion_days_week b) 4);
      destruct (geb (diet_mediterranean_score b) 7);
      destruct (geb (meditation_minutes_week b) 150);
      destruct (geb (sleep_quality_score b) 7);
      destruct (geb (purpose_meaning_score b) 8);
      destruct (geb (social_connections_count b) 4);
      destruct (gtb (alcohol_drinks_week b) 14);
      destruct (gtb (processed_food_servings_week b) 10);
      apply Rmax_mono_r; nra.
  - unfold calculateMortalityRisk, withSmoking, Math_pow. simpl.
    pose proof (Rpower_pos 1.1 ((bioAge - 30) / 10)) as Hp.
    set (P := Rpower 1.1 ((bioAge - 30) / 10)) in *.
    destruct (geb (purpose_meaning_score b) 8);
      destruct (geb (motion_days_week b) 3);
      destruct (geb (diet_mediterranean_score b) 7);
      destruct (geb (meditation_minutes_week b) 150);
      destruct (ltb (social_connections_count b) 2);
      apply clamp_mono; nra.
Qed.

(** X8. [calculateMortalityRisk] is monotone in the biological age. *)
Theorem mortality_risk_increases_with_age :
  forall (d : Demographics) (b : TWABehaviors) (a1 a2 : R),
    a1 <= a2 ->
    calculateMortalityRisk d b a1 <= calculateMortalityRisk d b a2.
Proof.
  intros d b a1 a2 Ha. unfold calculateMortalityRisk, Math_pow.
  assert (Hp : Rpower 1.1 ((a1 - 30) / 10) <= Rpower 1.1 ((a2 - 30) / 10))
    by (apply Rle_Rpower; lra).
  pose proof (Rpower_pos 1.1 ((a1 - 30) / 10)) as Hp1.
  set (P1 := Rpower 1.1 ((a1 - 30) / 10)) in *.
  set (P2 := Rpower 1.1 ((a2 - 30) / 10)) in *.
  destruct (geb (purpose_meaning_score b) 8);
    destruct (geb (motion_days_week b) 3);
    destruct (geb (diet_mediterranean_score b) 7);
    destruct (geb (meditation_minutes_week b) 150);
    destruct (SmokingStatus_eqb (smoking_status b) Current);
    destruct (ltb (social_connections_count b) 2);
    simpl; apply clamp_mono; lra.
Qed.

(** X9. For a non-negative age, [generateFunctionalMeasures] never returns a
    grip strength, gait speed or balance score below the age/gender
    baseline, nor a frailty index above the age baseline. *)
Theorem functional_measures_never_below_baseline :
  forall (d : Demographics) (b : TWABehaviors) (bioAge : R),
    0 <= age_numeric d ->
    let f := generateFunctionalMeasures d b bioAge in
    getBaseGripStrength (age_numeric d) (gender d) <= grip_strength f /\
    getBaseGaitSpeed (age_numeric d) (gender d) <= gait_speed f /\
    getBaseBalance (age_numeric d) (gender d) <= balance f /\
    frailty f <= getBaseFrailty (age_numeric d).
Proof.
  intros d b bioAge Hage. cbv zeta.
  assert (Hg : 10 <= getBaseGripStrength (age_numeric d) (gender d))
    by (unfold getBaseGripStrength; apply floor_range).
  assert (Hs : 0.5 <= getBaseGaitSpeed (age_numeric d) (gender d))
    by (unfold getBaseGaitSpeed; apply floor_range).
  assert (Hb : 1 <= getBaseBalance (age_numeric d) (gender d) <= 10).
  { unfold getBaseBalance, Math_max, Rmax. destruct (Rle_dec _ _); lra. }
  assert (Hf : 0 <= getBaseFrailty (age_numeric d) <= 1)
    by (unfold getBaseFrailty; apply clamp_range'; lra).
  unfold generateFunctionalMeasures.
  set (G := getBaseGripStrength _ _) in *.
  set (V := getBaseGaitSpeed _ _) in *.
  set (B := getBaseBalance _ _) in *.
  set (F := getBaseFrailty _) in *.
  destruct (geb (motion_days_week b) 4);
    destruct (geb (diet_mediterranean_score b) 7);
    destruct (geb (sleep_quality_score b) 7);
    destruct (geb (social_connections_count b) 4);
    cbn [grip_strength gait_speed balance frailty];
    unfold Math_max, Math_min, Rmax, Rmin;
    repeat split;
    repeat match goal with
           | |- context [Rle_dec ?x ?y] => destruct (Rle_dec x y)
           | H : context [Rle_dec ?x ?y] |- _ => destruct (Rle_dec x y)
           end; lra.
Qed.

(** ** Composite scores *)

Lemma calculateBlueZoneSimilarity_range b d :
  BehaviorInDomain b -> 0 <= calculateBlueZoneSimilarity b d <= 100.
Proof.
  intros (Hmo & _ & _ & _ & Hdi & Hme & _ & _ & _ & _ & Hso & _ & _ & Hpu).
  unfold calculateBlueZoneSimilarity, similarityFactors, sum. simpl.
  set (f1 := Math_min (diet_mediterranean_score b / 8) 1).
  set (f2 := Math_min (motion_days_week b / 5) 1).
  set (f3 := Math_min (meditation_minutes_week b / 150) 1).
  set (f4 := Math_min (social_connections_count b / 4) 1).
  set (f5 := Math_min (purpose_meaning_score b / 8) 1).
  assert (H1 : 0 <= f1 <= 1)
    by (unfold f1, Math_min, Rmin; destruct (Rle_dec _ _); lra).
  assert (H2 : 0 <= f2 <= 1)
    by (unfold f2, Math_min, Rmin; destruct (Rle_dec _ _); lra).
  assert (H3 : 0 <= f3 <= 1)
    by (unfold f3, Math_min, Rmin; destruct (Rle_dec _ _); lra).
  assert (H4 : 0 <= f4 <= 1)
    by (unfold f4, Math_min, Rmin; destruct (Rle_dec _ _); lra).
  assert (H5 : 0 <= f5 <= 1)
    by (unfold f5, Math_min, Rmin; destruct (Rle_dec _ _); lra).
  destruct (leb (alcohol_drinks_week b) 7);
    destruct (SmokingStatus_eqb (smoking_status b) Never); lra.
Qed.

(** X10. [calculateHealthyAgingProfile] is always within 0..100, and
    [calculateBlueZoneSimilarity] is within 0..100 on behaviors of the
    documented domain; both fields of every generated record are within
    0..100. *)
Theorem composite_scores_in_range :
  (forall (b : TWABehaviors) (o : WellnessOutcomes),
     0 <= calculateHealthyAgingProfile b o <= 100) /\
  (forall (b : TWABehaviors) (d : Demographics),
     BehaviorInDomain b -> 0 <= calculateBlueZoneSimilarity b d <= 100) /\
  (forall (config : DatasetConfig) (draws : RandomSource),
     exists dataset : list MonthlyRecord,
       fst (generateCompleteDataset config draws) = Return dataset /\
       Forall (fun r => 0 <= healthy_aging_profile r <= 100 /\
                        0 <= blue_zone_similarity_score r <= 100) dataset).
Proof.
  assert (Hh : forall b o, 0 <= calculateHealthyAgingProfile b o <= 100).
  { intros b o. unfold calculateHealthyAgingProfile. apply clamp_range'. lra. }
  split; [exact Hh|]. split; [exact calculateBlueZoneSimilarity_range|].
  intros config draws.
  destruct (generateCompleteDataset_records config draws)
    as (dataset & Hret & Hgen & _).
  exists dataset. split; [exact Hret|].
  eapply Forall_impl; [|exact Hgen].
  intros r (_ & _ & _ & _ & _ & Hb & _ & Hd).
  destruct Hd as (_ & _ & _ & _ & _ & _ & Hha & Hbz).
  rewrite Hha, (Hbz (demographics r)). split; [apply Hh|].
  now apply calculateBlueZoneSimilarity_range.
Qed.

(** ** Observation dates and seasons *)

(** X11. [generateObservationDate] and [monthToSeason] have period 12: the
    observation date is always the 15th of a month of 2024, a string of
    ten characters, so month 12 carries the date of month 0. *)
Theorem observation_date_repeats_every_year :
  forall m : nat,
    generateObservationDate (m + 12) = generateObservationDate m /\
    monthToSeason (m + 12) = monthToSeason m /\
    String.length (generateObservationDate m) = 10%nat /\
    substring 0 5 (generateObservationDate m) = "2024-"%string /\
    substring 7 3 (generateObservationDate m) = "-15"%string.
Proof.
  intros m.
  assert (E : ((m + 12) mod 12 = m mod 12)%nat).
  { replace (m + 12)%nat with (m + 1 * 12)%nat by lia.
    apply Nat.Div0.mod_add. }
  unfold generateObservationDate, monthToSeason. rewrite E.
  split; [reflexivity|]. split; [reflexivity|].
  assert (Hlt : (m mod 12 < 12)%nat) by (apply Nat.mod_upper_bound; lia).
  generalize dependent (m mod 12)%nat. intros r _ Hlt.
  do 12 (destruct r as [|r]; [repeat split; reflexivity|]).
  lia.
Qed.

(** ** Seasons present in a generated dataset *)

Lemma expectedKeys_In N M sid m :
  In (sid, m) (expectedKeys N M) <->
  (exists i, (i < N)%nat /\ sid = subjectId i) /\ (m < M)%nat.
Proof.
  unfold expectedKeys. rewrite in_flat_map. split.
  - intros (i & Hi & Hin). apply in_map_iff in Hin as (m' & Heq & Hm).
    injection Heq as <- <-. apply in_seq in Hi, Hm.
    split; [exists i; split; [lia|reflexivity] | lia].
  - intros [(i & Hi & ->) Hm]. exists i. split; [apply in_seq; lia|].
    apply in_map_iff. exists m. split; [reflexivity | apply in_seq; lia].
Qed.

Lemma seasonal_variation_by_months config draws :
  (1 <= n_subjects config)%Z ->
  exists dataset : list MonthlyRecord,
    fst (generateCompleteDataset config draws) = Return dataset /\
    ((months config <= 8)%Z -> calculateSeasonalVariations dataset = NaN) /\
    ((9 <= months config)%Z ->
     exists v : R, calculateSeasonalVariations dataset = Num v /\ 0 <= v).
Proof.
  intros Hn.
  destruct (generateCompleteDataset_records config draws)
    as (dataset & Hret & Hgen & Hkeys).
  rewrite Forall_forall in Hgen.
  exists dataset. split; [exact Hret|]. split.
  - intros HM. apply calculateSeasonalVariations_missing. exists Fall.
    apply recordsOfSeason_none. intros r Hr.
    rewrite (generatedRecord_season r (Hgen r Hr)).
    assert (Hin : In (recordKey r) (map recordKey dataset))
      by (apply in_map; exact Hr).
    rewrite Hkeys in Hin. apply expectedKeys_In in Hin as [_ Hm].
    assert (Hlt : (month r < 8)%nat) by lia.
    unfold monthToSeason.
    destruct (month r) as [|[|[|[|[|[|[|[|k]]]]]]]]; simpl;
      try discriminate; lia.
  - intros HM. apply calculateSeasonalVariations_defined. intros s.
    pose (m := match s with
               | Winter => 0 | Spring => 2 | Summer => 5 | Fall => 8
               end%nat).
    assert (Hin : In (subjectId 0, m) (map recordKey dataset)).
    { rewrite Hkeys. apply expectedKeys_In. split.
      - exists 0%nat. split; [lia | reflexivity].
      - destruct s; simpl; lia. }
    apply in_map_iff in Hin as (r & Hkey & Hr).
    injection Hkey as _ Hmonth.
    pose proof (generatedRecord_season r (Hgen r Hr)) as Hseason.
    rewrite Hmonth in Hseason.
    assert (Hs : season r = s) by (rewrite Hseason; destruct s; reflexivity).
    intros Hnil.
    assert (Hf : In r (recordsOfSeason s dataset)).
    { unfold recordsOfSeason. apply filter_In. split; [exact Hr|].
      rewrite Hs. destruct s; reflexivity. }
    rewrite Hnil in Hf. destruct Hf.
Qed.

(** X12. For at least one subject, the seasonal-variation statistic of the
    validation report of a generated dataset is NaN when the configuration
    has at most 8 months, and a finite non-negative number when it has 9
    or more (month 8 is the first Fall month). *)
Theorem seasonal_variation_defined_from_nine_months :
  forall (config : DatasetConfig) (draws : RandomSource),
    (1 <= n_subjects config)%Z ->
    exists (dataset : list MonthlyRecord) (report : ValidationResults),
      fst (generateCompleteDataset config draws) = Return dataset /\
      validateDataset dataset = Return report /\
      ((months config <= 8)%Z ->
       seasonal_variations (longitudinal_coherence report) = NaN) /\
      ((9 <= months config)%Z ->
       exists v : R,
         seasonal_variations (longitudinal_coherence report) = Num v /\
         0 <= v).
Proof.
  intros config draws Hn.
  destruct (seasonal_variation_by_months config draws Hn)
    as (dataset & Hret & Hlow & Hhigh).
  exists dataset. eexists. split; [exact Hret|]. split; [reflexivity|].
  cbn [longitudinal_coherence]. unfold validateLongitudinalCoherence.
  cbn [seasonal_variations]. split; assumption.
Qed.

(** ** How the sampled behaviors depend on season and on each other *)

Lemma Math_round_mono (x y : R) : x <= y -> Math_round x <= Math_round y.
Proof.
  intros H. unfold Math_round.
  destruct (base_Int_part (x + / 2)) as [Hx _].
  destruct (base_Int_part (y + / 2)) as [_ Hy].
  apply IZR_le.
  assert (Hlt : IZR (Int_part (x + / 2)) < IZR (Int_part (y + / 2) + 1)).
  { rewrite plus_IZR. lra. }
  apply lt_IZR in Hlt. lia.
Qed.

Lemma round_clamp_mono (lo hi x y : R) :
  x <= y ->
  Math_max lo (Math_min hi (Math_round x))
  <= Math_max lo (Math_min hi (Math_round y)).
Proof. intros H. apply clamp_mono. now apply Math_round_mono. Qed.

Lemma round10_clamp_mono (lo hi x y : R) :
  x <= y ->
  Math_max lo (Math_min hi (Math_round (x * 10) / 10))
  <= Math_max lo (Math_min hi (Math_round (y * 10) / 10)).
Proof.
  intros H. apply clamp_mono.
  assert (Math_round (x * 10) <= Math_round (y * 10))
    by (apply Math_round_mono; lra).
  lra.
Qed.

Lemma education_factor_pos (e : Education) (a b c d : R) :
  0 < a -> 0 < b -> 0 < c -> 0 < d ->
  0 < match e with
      | LessThanHS => a | HighSchool => b | SomeCollege => c
      | BachelorPlus => d
      end.
Proof. intros; destruct e; assumption. Qed.

Lemma motion_base_nonneg (df : DemoFactors) :
  0 <= income df ->
  0 <= match fitness df with Low => 0.3 | Medium => 0.6 | High => 1.0 end
       * Math_max 0.3 (1 - (age df - 25) / 100)
       * Math_min 1.5 (0.5 + income df / 100000)
       * match df_education df with
         | LessThanHS => 0.7 | HighSchool => 0.8 | SomeCollege => 0.9
         | BachelorPlus => 1.1
         end * 3.
Proof.
  intros Hi.
  assert (0 < match fitness df with Low => 0.3 | Medium => 0.6 | High => 1.0 end)
    by (destruct (fitness df); lra).
  assert (0.3 <= Math_max 0.3 (1 - (age df - 25) / 100)) by apply floor_range.
  assert (0 <= Math_min 1.5 (0.5 + income df / 100000))
    by (unfold Math_min; apply Rmin_glb; lra).
  assert (0 < match df_education df with
              | LessThanHS => 0.7 | HighSchool => 0.8 | SomeCollege => 0.9
              | BachelorPlus => 1.1
              end) by (apply education_factor_pos; lra).
  repeat apply Rmult_le_pos; lra.
Qed.

Lemma generateMotionBehavior_seasonal df sf1 sf2 draws :
  0 <= income df -> 0 <= draws 0%nat ->
  exercise sf1 <= exercise sf2 ->
  fst (generateMotionBehavior df sf1 draws)
  <= fst (generateMotionBehavior df sf2 draws).
Proof.
  intros Hi Hr He. unfold generateMotionBehavior, bind, ret, Math_random. simpl.
  pose proof (motion_base_nonneg df Hi) as HB.
  set (B := _ * 3) in HB |- *. clearbody B.
  apply Math_round_mono. apply clamp_mono.
  assert (Hk : 0 <= (2 + B) * (0.8 + draws 0%nat * 0.4))
    by (apply Rmult_le_pos; lra).
  nra.
Qed.

Lemma nature_base_nonneg (df : DemoFactors) :
  0 <= income df -> 0 <= age df ->
  0 <= match urbanRural df with Urban => 0.5 | Suburban => 0.8 | Rural => 1.5 end
       * (0.6 + income df / 200000)
       * Math_min 1.5 (0.7 + age df / 150).
Proof.
  intros Hi Ha.
  assert (0 < match urbanRural df with
              | Urban => 0.5 | Suburban => 0.8 | Rural => 1.5 end)
    by (destruct (urbanRural df); lra).
  assert (0 <= Math_min 1.5 (0.7 + age df / 150))
    by (unfold Math_min; apply Rmin_glb; lra).
  repeat apply Rmult_le_pos; lra.
Qed.

Lemma generateNatureConnection_seasonal df sf1 sf2 draws :
  0 <= income df -> 0 <= age df -> 0 <= draws 0%nat ->
  outdoor sf1 <= outdoor sf2 ->
  fst (generateNatureConnection df sf1 draws)
  <= fst (generateNatureConnection df sf2 draws).
Proof.
  intros Hi Ha Hr Ho.
  unfold generateNatureConnection, bind, ret, Math_random. simpl.
  pose proof (nature_base_nonneg df Hi Ha) as HB.
  set (B := _ * Math_min 1.5 _) in HB |- *. clearbody B.
  apply round_clamp_mono.
  assert (Hk : 0 <= B * (0.4 + draws 0%nat * 1.2))
    by (apply Rmult_le_pos; lra).
  nra.
Qed.

(** X13. With the same profile and the same draw, exercise days and nature
    minutes are ordered by season: Winter <= Fall <= Spring <= Summer. *)
Theorem seasons_order_outdoor_behaviors :
  forall (df : DemoFactors) (draws : RandomSource),
    0 <= income df -> 0 <= age df -> 0 <= draws 0%nat ->
    let motion s :=
      fst (generateMotionBehavior df (calculateSeasonalFactors s) draws) in
    let nature s :=
      fst (generateNatureConnection df (calculateSeasonalFactors s) draws) in
    motion Winter <= motion Fall /\ motion Fall <= motion Spring /\
    motion Spring <= motion Summer /\
    nature Winter <= nature Fall /\ nature Fall <= nature Spring /\
    nature Spring <= nature Summer.
Proof.
  intros df draws Hi Ha Hr. cbv zeta.
  repeat split;
    first [ apply generateMotionBehavior_seasonal; try assumption; simpl; lra
          | apply generateNatureConnection_seasonal; try assumption; simpl; lra ].
Qed.

Ltac nonneg :=
  lazymatch goal with
  | |- 0 <= _ * _ => apply Rmult_le_pos; nonneg
  | |- 0 <= Math_min _ _ => unfold Math_min; apply Rmin_glb; lra
  | |- 0 <= Math_max ?a _ =>
      unfold Math_max; apply Rle_trans with a; [lra | apply Rmax_l]
  | |- _ => lra
  end.

Ltac mono_product :=
  repeat first [ apply Rmult_le_compat_r; [nonneg|]
               | apply Rmult_le_compat_l; [nonneg|] ];
  lra.

(** X14. With the same profile and draws, more exercise days never lower the
    sleep hours, the sleep quality or the diet score. *)
Theorem motion_raises_sleep_and_diet :
  forall (df : DemoFactors) (m1 m2 : R) (draws : RandomSource),
    0 <= income df -> 0 <= age df ->
    0 <= draws 0%nat -> 0 <= draws 1%nat -> m1 <= m2 ->
    hours (fst (generateSleepBehavior df m1 draws))
    <= hours (fst (generateSleepBehavior df m2 draws)) /\
    quality (fst (generateSleepBehavior df m1 draws))
    <= quality (fst (generateSleepBehavior df m2 draws)) /\
    fst (generateDietBehavior df m1 draws)
    <= fst (generateDietBehavior df m2 draws).
Proof.
  intros [a i e f st rg ur] m1 m2 draws Hi Ha Hr0 Hr1 Hm. simpl in Hi, Ha.
  split; [|split].
  - unfold generateSleepBehavior, bind, ret, Math_random. cbn [age income sleepType].
    destruct (gtb a 65); [|destruct (ltb a 30)]; destruct st;
      simpl; apply clamp_mono; mono_product.
  - unfold generateSleepBehavior, bind, ret, Math_random. cbn [age income sleepType].
    destruct (gtb a 65); [|destruct (ltb a 30)]; destruct st;
      simpl; apply clamp_mono; mono_product.
  - unfold generateDietBehavior, bind, ret, Math_random.
    destruct e; simpl; apply round10_clamp_mono; mono_product.
Qed.

(** X15. With the same profile and draws, a higher diet score never lowers the
    meditation minutes and never raises added sugar, sodium or processed
    food servings. *)
Theorem diet_score_effects :
  forall (df : DemoFactors) (d1 d2 : R) (draws : RandomSource),
    0 <= age df -> 0 <= income df <= 225000 ->
    0 <= draws 0%nat -> d1 <= d2 ->
    fst (generateMeditationBehavior df d1 draws)
    <= fst (generateMeditationBehavior df d2 draws) /\
    fst (generateSugarBehavior df d2 draws)
    <= fst (generateSugarBehavior df d1 draws) /\
    fst (generateSodiumBehavior df d2 draws)
    <= fst (generateSodiumBehavior df d1 draws) /\
    fst (generateProcessedFoods df d2 draws)
    <= fst (generateProcessedFoods df d1 draws).
Proof.
  intros [a i e f st rg ur] d1 d2 draws Ha Hi Hr Hd. simpl in Hi, Ha.
  split; [|split; [|split]].
  - unfold generateMeditationBehavior, bind, ret, Math_random.
    destruct e; simpl; apply round_clamp_mono; mono_product.
  - unfold generateSugarBehavior, bind, ret, Math_random.
    destruct e; simpl; apply round_clamp_mono; mono_product.
  - unfold generateSodiumBehavior, bind, ret, Math_random.
    simpl; apply round10_clamp_mono; mono_product.
  - unfold generateProcessedFoods, bind, ret, Math_random.
    destruct e; simpl; apply round_clamp_mono; mono_product.
Qed.

(** ** Pearson correlation: symmetry and self-correlation *)





(** ** Means, variance and stability *)

Lemma mean_between (lo hi : R) (l : list R) :
  l <> [] -> Forall (fun v => lo <= v <= hi) l ->
  lo <= sum l / INR (List.length l) <= hi.
Proof.
  intros Hne Hall.
  assert (Hn : 0 < INR (List.length l)).
  { apply lt_0_INR. destruct l; [contradiction | simpl; lia]. }
  assert (Hs : INR (List.length l) * lo <= sum l <= INR (List.length l) * hi).
  { clear Hne Hn. induction Hall as [|a l Ha _ IH].
    - unfold sum. simpl. lra.
    - rewrite sum_cons. simpl List.length. rewrite S_INR.
      cbv beta in Ha. lra. }
  split.
  - apply Rmult_le_reg_r with (INR (List.length l)); [exact Hn|].
    unfold Rdiv. rewrite Rmult_assoc, Rinv_l by lra. lra.
  - apply Rmult_le_reg_r with (INR (List.length l)); [exact Hn|].
    unfold Rdiv. rewrite Rmult_assoc, Rinv_l by lra. lra.
Qed.

(** X17. [calculateMeanDifference] is antisymmetric, 0 on equal groups, and
    for values within [lo, hi] it lies within [lo - hi, hi - lo]. *)
Theorem calculateMeanDifference_antisymmetric_and_bounded :
  (forall g1 g2 : list R,
     calculateMeanDifference g1 g2 = - calculateMeanDifference g2 g1) /\
  (forall g : list R, calculateMeanDifference g g = 0) /\
  (forall (lo hi : R) (g1 g2 : list R),
     lo <= hi ->
     Forall (fun v => lo <= v <= hi) g1 ->
     Forall (fun v => lo <= v <= hi) g2 ->
     lo - hi <= calculateMeanDifference g1 g2 <= hi - lo).
Proof.
  split; [|split].
  - intros g1 g2. unfold calculateMeanDifference.
    rewrite (orb_comm (List.length g2 =? 0)%nat).
    destruct (_ || _); lra.
  - intros g. unfold calculateMeanDifference. destruct (_ || _); lra.
  - intros lo hi g1 g2 Hle H1 H2. unfold calculateMeanDifference.
    destruct (Nat.eqb_spec (List.length g1) 0) as [|N1]; simpl orb; [lra|].
    destruct (Nat.eqb_spec (List.length g2) 0) as [|N2]; [lra|].
    assert (g1 <> []) by (intros ->; now apply N1).
    assert (g2 <> []) by (intros ->; now apply N2).
    pose proof (mean_between lo hi g1 ltac:(assumption) H1).
    pose proof (mean_between lo hi g2 ltac:(assumption) H2).
    lra.
Qed.

Lemma calculateVariance_nonneg (values : list R) : 0 <= calculateVariance values.
Proof.
  unfold calculateVariance.
  destruct (Nat.eqb_spec (List.length values) 0) as [|Hn]; [lra|].
  apply Rmult_le_pos.
  - apply sum_nonneg. apply Forall_map. apply Forall_forall.
    intros v _. apply Rle_0_sqr.
  - left. apply Rinv_0_lt_compat. apply lt_0_INR. lia.
Qed.

Lemma stability_fold groups acc k :
  acc <= INR k ->
  let '(t, v) :=
    fold_left (fun '(totalStability, validSubjects) subjectRecords =>
                 if (List.length subjectRecords <? 2)%nat
                 then (totalStability, validSubjects)
                 else
                   let sortedRecords := sortByMonth subjectRecords in
                   let behaviors_ :=
                     map (fun r => motion_days_week (behaviors r))
                       sortedRecords in
                   let variance := calculateVariance behaviors_ in
                   let mean :=
                     sum behaviors_ / INR (List.length behaviors_) in
                   let stability :=
                     if gtb mean 0 then 1 - variance / (mean * mean) else 0 in
                   (totalStability + stability, S validSubjects))
      groups (acc, k) in
  t <= INR v.
Proof.
  revert acc k. induction groups as [|g groups IH]; intros acc k Hacc.
  - simpl. exact Hacc.
  - cbn [fold_left]. destruct (List.length g <? 2)%nat.
    + apply IH. exact Hacc.
    + apply IH. rewrite S_INR.
      set (bs := map _ (sortByMonth g)).
      pose proof (calculateVariance_nonneg bs) as Hv.
      set (mean := sum bs / INR (List.length bs)).
      unfold gtb. destruct (Rlt_dec 0 mean) as [Hpos|_]; [|lra].
      assert (0 <= calculateVariance bs / (mean * mean)).
      { apply Rmult_le_pos; [exact Hv|]. left. apply Rinv_0_lt_compat. nra. }
      lra.
Qed.

Lemma stability_fold_short groups (acc : R) (k : nat) :
  Forall (fun g : list MonthlyRecord => (List.length g < 2)%nat) groups ->
  let '(t, v) :=
    fold_left (fun '(totalStability, validSubjects) subjectRecords =>
                 if (List.length subjectRecords <? 2)%nat
                 then (totalStability, validSubjects)
                 else
                   let sortedRecords := sortByMonth subjectRecords in
                   let behaviors_ :=
                     map (fun r => motion_days_week (behaviors r))
                       sortedRecords in
                   let variance := calculateVariance behaviors_ in
                   let mean :=
                     sum behaviors_ / INR (List.length behaviors_) in
                   let stability :=
                     if gtb mean 0 then 1 - variance / (mean * mean) else 0 in
                   (totalStability + stability, S validSubjects))
      groups (acc, k) in
  t = acc /\ v = k.
Proof.
  induction 1 as [|g groups Hg _ IH].
  - simpl. now split.
  - cbn [fold_left]. apply Nat.ltb_lt in Hg. rewrite Hg. exact IH.
Qed.

(** X18. [calculateVariance] is never negative, so [calculateBehaviorStability]
    is at most 1; it is 0 when no subject has two records. *)
Theorem calculateBehaviorStability_at_most_one :
  (forall values : list R, 0 <= calculateVariance values) /\
  (forall subjectGroups : list (list MonthlyRecord),
     calculateBehaviorStability subjectGroups <= 1) /\
  (forall subjectGroups : list (list MonthlyRecord),
     Forall (fun g => (List.length g < 2)%nat) subjectGroups ->
     calculateBehaviorStability subjectGroups = 0).
Proof.
  split; [exact calculateVariance_nonneg|]. split.
  - intros groups. unfold calculateBehaviorStability.
    pose proof (stability_fold groups 0 0%nat) as H.
    destruct (fold_left _ groups (0, 0%nat)) as [t v].
    assert (Ht : t <= INR v) by (apply H; simpl; lra).
    destruct (Nat.ltb_spec 0 v) as [Hv|Hv]; [|lra].
    assert (0 < INR v) by (apply lt_0_INR; exact Hv).
    apply Rmult_le_reg_r with (INR v); [assumption|].
    unfold Rdiv. rewrite Rmult_assoc, Rinv_l by lra. lra.
  - intros groups Hall. unfold calculateBehaviorStability.
    pose proof (stability_fold_short groups 0 0%nat Hall) as H.
    destruct (fold_left _ groups (0, 0%nat)) as [t v].
    destruct H as [-> ->]. reflexivity.
Qed.

(** ** Least-squares slope and aging trajectories *)

Lemma line_sums (a b : R) (x : list R) :
  sum (map (fun xi => a * xi + b) x) = a * sum x + INR (List.length x) * b /\
  fold_left (fun s p => s + fst p * snd p)
    (combine x (map (fun xi => a * xi + b) x)) 0
  = a * fold_left (fun s xi => s + xi * xi) x 0 + b * sum x.
Proof.
  change (fold_left (fun s p => s + fst p * snd p)
            (combine x (map (fun xi => a * xi + b) x)) 0)
    with (total (fun p => fst p * snd p)
            (combine x (map (fun xi => a * xi + b) x))).
  change (fold_left (fun s xi => s + xi * xi) x 0)
    with (total (fun xi => xi * xi) x).
  induction x as [|v x [IH1 IH2]].
  - simpl. rewrite !total_nil. unfold sum. simpl. lra.
  - simpl map. simpl combine. rewrite !sum_cons, !total_cons, IH1, IH2.
    simpl List.length. rewrite S_INR. simpl. split; ring.
Qed.

Lemma calculateLinearSlope_dispersed (x y : list R) :
  dispersion x <> 0 -> exists v : R, calculateLinearSlope x y = Num v.
Proof.
  intros HD. unfold dispersion, total in HD. unfold calculateLinearSlope.
  destruct (negb (List.length x =? List.length y)%nat
            || (List.length x <? 2)%nat); [now exists 0|].
  cbv zeta. rewrite div_num by exact HD. simpl. eexists. reflexivity.
Qed.

(** X19. For a series [x] that is not constant, [calculateLinearSlope]
    returns a finite number, and on points of a line [y = a * x + b] it
    returns [a].  For a constant [x] the [isNaN] guard can be missed in
    binary64: the slope of 38.125, 35.475 over the months 3, 3 is
    [Infinity], a rounding residue divided by zero. *)
Theorem calculateLinearSlope_recovers_the_line :
  (forall x y : list R,
     dispersion x <> 0 -> exists v : R, calculateLinearSlope x y = Num v) /\
  (forall (a b : R) (x : list R),
     dispersion x <> 0 ->
     calculateLinearSlope x (map (fun xi => a * xi + b) x) = Num a) /\
  Binary64.calculateLinearSlope [3; 3]%float [38.125; 35.475]%float
  = PrimFloat.infinity.
Proof.
  split; [exact calculateLinearSlope_dispersed|]. split.
  - intros a b x HD. unfold dispersion in HD. unfold calculateLinearSlope.
    rewrite length_map, Nat.eqb_refl. simpl negb. simpl orb.
    destruct (Nat.ltb_spec (List.length x) 2) as [Hlt|_].
    + exfalso. apply HD.
      destruct x as [|v [|w x]]; simpl in Hlt; try lia.
      * simpl. rewrite total_nil. unfold sum. simpl. lra.
      * simpl. rewrite total_cons, total_nil, sum_cons. unfold sum. simpl. lra.
    + destruct (line_sums a b x) as [E1 E2]. rewrite E1, E2.
      unfold total in HD. rewrite div_num by exact HD. simpl. f_equal.
      set (D := INR (List.length x) * fold_left (fun s xi => s + xi * xi) x 0
                - sum x * sum x) in *.
      replace (INR (List.length x)
               * (a * fold_left (fun s xi => s + xi * xi) x 0 + b * sum x)
               - sum x * (a * sum x + INR (List.length x) * b))
        with (a * D) by (unfold D; ring).
      unfold Rdiv. rewrite Rmult_assoc, Rinv_r by exact HD. lra.
  - vm_compute. reflexivity.
Qed.



(** ** Sorting the records of a subject *)

Lemma insertByMonth_perm r l : Permutation (r :: l) (insertByMonth r l).
Proof.
  induction l as [|a l IH]; simpl.
  - apply Permutation_refl.
  - destruct (month r <=? month a)%nat.
    + apply Permutation_refl.
    + eapply Permutation_trans; [apply perm_swap|].
      apply perm_skip. exact IH.
Qed.

Lemma insertByMonth_hd r a l :
  monthLe a r -> HdRel monthLe a l -> HdRel monthLe a (insertByMonth r l).
Proof.
  intros Har Hl. destruct l as [|b l]; simpl.
  - constructor. exact Har.
  - destruct (month r <=? month b)%nat; constructor;
      [exact Har | now inversion Hl].
Qed.

Lemma insertByMonth_sorted r l :
  Sorted monthLe l -> Sorted monthLe (insertByMonth r l).
Proof.
  induction 1 as [|a l Hs IH Hhd]; simpl.
  - repeat constructor.
  - destruct (Nat.leb_spec (month r) (month a)) as [Hle|Hgt].
    + constructor; [constructor; assumption|]. constructor. exact Hle.
    + constructor; [exact IH|]. apply insertByMonth_hd; [|exact Hhd].
      unfold monthLe. lia.
Qed.

Lemma insertByMonth_front r l :
  HdRel monthLe r l -> insertByMonth r l = r :: l.
Proof.
  intros H. destruct l as [|a l]; [reflexivity|]. simpl.
  inversion H as [|? ? Hle]; subst. unfold monthLe in Hle.
  apply Nat.leb_le in Hle. now rewrite Hle.
Qed.

(** X21. Sorting the records of a subject by month returns a permutation in
    ascending month order, leaves a sorted list unchanged and keeps the
    order of two records of the same month. *)
Theorem sortByMonth_sorts :
  (forall records : list MonthlyRecord,
     Permutation records (sortByMonth records) /\
     Sorted monthLe (sortByMonth records)) /\
  (forall records : list MonthlyRecord,
     Sorted monthLe records -> sortByMonth records = records) /\
  (forall r1 r2 : MonthlyRecord,
     month r1 = month r2 -> sortByMonth [r1; r2] = [r1; r2]).
Proof.
  split; [|split].
  - intros records. induction records as [|r l [IHp IHs]]; simpl.
    + split; constructor.
    + split.
      * eapply Permutation_trans; [apply perm_skip; exact IHp|].
        apply insertByMonth_perm.
      * now apply insertByMonth_sorted.
  - intros records. induction 1 as [|r l Hs IH Hhd]; simpl.
    + reflexivity.
    + rewrite IH. now apply insertByMonth_front.
  - intros r1 r2 H. simpl. rewrite H, Nat.leb_refl. reflexivity.
Qed.

(** ** Dictionaries built by the validation engine *)

Lemma dict_get_set_same {V} (d : dict V) k v :
  dict_get (dict_set d k v) k = Some v.
Proof.
  induction d as [|[k' v'] d IH]; simpl.
  - now rewrite String.eqb_refl.
  - destruct (String.eqb k' k) eqn:E; simpl; rewrite E; [reflexivity|exact IH].
Qed.

Lemma dict_get_set_other {V} (d : dict V) k k' v :
  k <> k' -> dict_get (dict_set d k v) k' = dict_get d k'.
Proof.
  intros Hne. induction d as [|[k0 v0] d IH]; simpl.
  - destruct (String.eqb_spec k k'); [contradiction|reflexivity].
  - destruct (String.eqb_spec k0 k) as [->|Hk]; simpl.
    + destruct (String.eqb_spec k k'); [contradiction|reflexivity].
    + destruct (String.eqb k0 k'); [reflexivity|exact IH].
Qed.

Lemma get_or_0_set (d : dict R) k k' v :
  get_or_0 (dict_set d k v) k' = if String.eqb k k' then v else get_or_0 d k'.
Proof.
  unfold get_or_0. destruct (String.eqb_spec k k') as [->|Hne].
  - now rewrite dict_get_set_same.
  - now rewrite dict_get_set_other.
Qed.

Lemma calculateDistribution_counts_from (items : list string) (acc : dict R) k :
  get_or_0 (fold_left (fun distribution item =>
                         dict_set distribution item
                           (get_or_0 distribution item + 1)) items acc) k
  = get_or_0 acc k + INR (count_occ string_dec items k).
Proof.
  revert acc. induction items as [|item items IH]; intros acc.
  - simpl. lra.
  - cbn [fold_left]. rewrite IH, get_or_0_set. simpl count_occ.
    destruct (string_dec item k) as [->|Hne].
    + rewrite String.eqb_refl, S_INR. lra.
    + destruct (String.eqb_spec item k); [contradiction|reflexivity].
Qed.

(** X22. For items and a key that are not inherited member names of a plain
    object, [calculateDistribution] maps the key to its number of
    occurrences: the counts sum to the number of items and an absent key
    reads as 0. *)
Theorem calculateDistribution_counts_occurrences :
  forall (items : list string) (k : string),
    plainKeys (k :: items) ->
    get_or_0 (calculateDistribution items) k
    = INR (count_occ string_dec items k) /\
    sum (dict_values (calculateDistribution items)) = INR (List.length items) /\
    (~ In k items -> get_or_0 (calculateDistribution items) k = 0).
Proof.
  intros items k _.
  assert (H : get_or_0 (calculateDistribution items) k
              = INR (count_occ string_dec items k)).
  { unfold calculateDistribution. rewrite calculateDistribution_counts_from.
    unfold get_or_0. simpl. lra. }
  split; [exact H|]. split.
  - apply calculateDistribution_total.
  - intros Hnot. rewrite H.
    apply (count_occ_not_In string_dec) in Hnot. rewrite Hnot. reflexivity.
Qed.

Lemma dict_has_get {V} (d : dict V) k :
  dict_has d k = match dict_get d k with Some _ => true | None => false end.
Proof. reflexivity. Qed.

Lemma firstProfiles_from_get (dataset : list MonthlyRecord)
  (acc : dict Demographics) (sid : string) :
  dict_get
    (fold_left (fun subjects record =>
                  if dict_has subjects (subject_id record) then subjects
                  else dict_set subjects (subject_id record)
                         (demographics record))
       dataset acc) sid
  = match dict_get acc sid with
    | Some d => Some d
    | None =>
        option_map demographics
          (find (fun r => String.eqb (subject_id r) sid) dataset)
    end.
Proof.
  revert acc. induction dataset as [|r dataset IH]; intros acc.
  - simpl. now destruct (dict_get acc sid).
  - cbn [fold_left find]. rewrite IH. unfold dict_has.
    destruct (String.eqb_spec (subject_id r) sid) as [E|Hne].
    + subst sid. destruct (dict_get acc (subject_id r)) eqn:G.
      * rewrite G. reflexivity.
      * rewrite dict_get_set_same. reflexivity.
    + destruct (dict_get acc (subject_id r)) eqn:G.
      * reflexivity.
      * rewrite dict_get_set_other by exact Hne. reflexivity.
Qed.

(** X23. The subject table of [validateDemographicAccuracy] maps a subject
    identifier to the demographics of its first record in the dataset, and
    has no entry for an identifier that does not occur. *)
Theorem firstProfiles_keeps_first_profile :
  forall (dataset : list MonthlyRecord) (sid : string),
    dict_get (firstProfiles dataset) sid
    = option_map demographics
        (find (fun r => String.eqb (subject_id r) sid) dataset).
Proof.
  intros dataset sid. unfold firstProfiles.
  rewrite firstProfiles_from_get. reflexivity.
Qed.

Lemma groupBySubject_from_get (dataset : list MonthlyRecord)
  (acc : dict (list MonthlyRecord)) (sid : string) :
  dict_get
    (fold_left (fun subjectGroups record =>
                  let subjectGroups :=
                    if dict_has subjectGroups (subject_id record)
                    then subjectGroups
                    else dict_set subjectGroups (subject_id record) [] in
                  match dict_get subjectGroups (subject_id record) with
                  | Some group =>
                      dict_set subjectGroups (subject_id record)
                        (group ++ [record])
                  | None => subjectGroups
                  end)
       dataset acc) sid
  = joinGroup (dict_get acc sid) (recordsOfSubject sid dataset).
Proof.
  revert acc. induction dataset as [|r dataset IH]; intros acc.
  - simpl. now destruct (dict_get acc sid) as [g|]; simpl; rewrite ?app_nil_r.
  - cbn [fold_left]. rewrite IH. cbv zeta. unfold dict_has, recordsOfSubject.
    cbn [filter].
    destruct (String.eqb_spec (subject_id r) sid) as [E|Hne].
    + subst sid. destruct (dict_get acc (subject_id r)) as [g|] eqn:G.
      * rewrite G, dict_get_set_same. simpl. now rewrite <- app_assoc.
      * rewrite dict_get_set_same, dict_get_set_same. reflexivity.
    + destruct (dict_get acc (subject_id r)) as [g|] eqn:G.
      * rewrite G, dict_get_set_other by exact Hne. reflexivity.
      * rewrite dict_get_set_same, !dict_get_set_other by exact Hne.
        reflexivity.
Qed.

(** X24. The subject groups of [validateLongitudinalCoherence] map a subject
    identifier to exactly its records, in dataset order, and have no entry
    for an identifier that does not occur. *)
Theorem groupBySubject_collects_records :
  forall (dataset : list MonthlyRecord) (sid : string),
    dict_get (groupBySubject dataset) sid
    = match recordsOfSubject sid dataset with
      | [] => None
      | group => Some group
      end.
Proof.
  intros dataset sid. unfold groupBySubject.
  rewrite groupBySubject_from_get. simpl.
  now destruct (recordsOfSubject sid dataset).
Qed.

(** ** The aging trajectories of a generated dataset *)













(** ** The distribution distance is the largest gap between proportions *)

Lemma ks_fold_max (observed expected : dict R) (keys : list string) (m0 : R) :
  sum (dict_values observed) <> 0 -> sum (dict_values expected) <> 0 ->
  exists m : R,
    fold_left (fun maxDifference key =>
                 let observedProp :=
                   jdiv (Num (get_or_0 observed key))
                     (Num (sum (dict_values observed))) in
                 let expectedProp :=
                   jdiv (Num (get_or_0 expected key))
                     (Num (sum (dict_values expected))) in
                 jmax maxDifference (jabs (jsub observedProp expectedProp)))
      keys (Num m0) = Num m /\
    m0 <= m /\
    (forall key, In key keys -> proportionGap observed expected key <= m) /\
    (m = m0 \/ exists key, In key keys /\
                           m = proportionGap observed expected key).
Proof.
  intros HtO HtE. revert m0.
  induction keys as [|key keys IH]; intros m0.
  - exists m0. simpl. repeat split; [lra | tauto | now left].
  - cbn [fold_left]. cbv zeta. rewrite !div_num by assumption.
    cbn [jsub jneg jadd jabs jmax].
    destruct (IH (Rmax m0
                    (Rabs (get_or_0 observed key / sum (dict_values observed)
                           + - (get_or_0 expected key
                                / sum (dict_values expected))))))
      as (m & Hfold & Hle & Hall & Hwit).
    exists m. split; [exact Hfold|].
    fold (Rminus (get_or_0 observed key / sum (dict_values observed))
            (get_or_0 expected key / sum (dict_values expected))) in *.
    fold (proportionGap observed expected key) in *.
    pose proof (Rmax_l m0 (proportionGap observed expected key)).
    pose proof (Rmax_r m0 (proportionGap observed expected key)).
    split; [lra|]. split.
    + intros k [<-|Hk]; [lra | now apply Hall].
    + destruct Hwit as [->|(k & Hk & ->)].
      * unfold Rmax. destruct (Rle_dec _ _).
        -- right. exists key. split; [now left | reflexivity].
        -- now left.
      * right. exists k. split; [now right | reflexivity].
Qed.

(** X25. For two distributions with non-zero totals whose keys are not
    inherited member names of a plain object, [kolmogorovSmirnovTest] is the
    largest absolute gap between observed and expected proportions over the
    keys of both distributions: it bounds every gap, is attained (or is 0),
    and is 0 when the proportions of every key agree. *)
Theorem kolmogorovSmirnovTest_is_largest_gap :
  forall observed expected : dict R,
    plainKeys (dict_keys observed ++ dict_keys expected) ->
    sum (dict_values observed) <> 0 -> sum (dict_values expected) <> 0 ->
    exists m : R,
      kolmogorovSmirnovTest observed expected = Num m /\
      0 <= m /\
      (forall key, In key (dict_keys observed ++ dict_keys expected) ->
                   proportionGap observed expected key <= m) /\
      (m = 0 \/
       exists key, In key (dict_keys observed ++ dict_keys expected) /\
                   m = proportionGap observed expected key) /\
      ((forall key, In key (dict_keys observed ++ dict_keys expected) ->
                    get_or_0 observed key / sum (dict_values observed)
                    = get_or_0 expected key / sum (dict_values expected)) ->
       m = 0).
Proof.
  intros observed expected _ HtO HtE. unfold kolmogorovSmirnovTest. cbv zeta.
  destruct (ks_fold_max observed expected
              (from_Set (dict_keys observed ++ dict_keys expected)) 0 HtO HtE)
    as (m & Hfold & Hle & Hall & Hwit).
  exists m. split; [exact Hfold|]. split; [exact Hle|]. split; [|split].
  - intros key Hkey. apply Hall. now apply from_Set_In.
  - destruct Hwit as [->|(k & Hk & ->)]; [now left|].
    right. exists k. split; [now apply from_Set_In | reflexivity].
  - intros Heq. destruct Hwit as [->|(k & Hk & ->)]; [reflexivity|].
    pose proof (proj1 (from_Set_In _ _) Hk) as Hk'.
    unfold proportionGap. rewrite (Heq k Hk'), Rminus_diag. apply Rabs_R0.
Qed.

(** ** The validation view *)

Lemma jlt_NaN_l y : jlt NaN y = false.
Proof. reflexivity. Qed.

Lemma jlt_NaN_r x : jlt x NaN = false.
Proof. now destruct x. Qed.

(** X26. ValidationResults.tsx: the status column of the four result tables
    is the list of the twelve tests in order; every row passes exactly when
    its displayed value is below (distribution distance) or above (all
    others) its displayed threshold, and a NaN value fails. *)
Theorem validation_rows_agree_with_scores :
  forall results : ValidationResults,
    map ValidationResultsComponent.status (allRows results)
    = ValidationResultsComponent.allTests results /\
    (forall row, In row (allRows results) ->
       (ValidationResultsComponent.status row = ValidationResultsComponent.Pass
        <-> rowPasses row = true) /\
       (ValidationResultsComponent.value row = NaN ->
        ValidationResultsComponent.status row
        = ValidationResultsComponent.Fail)).
Proof.
  intros results. split; [reflexivity|].
  intros row Hrow. unfold allRows in Hrow. simpl in Hrow.
  assert (Hif : forall b : bool,
             (if b then ValidationResultsComponent.Pass
              else ValidationResultsComponent.Fail)
             = ValidationResultsComponent.Pass <-> b = true).
  { intros [|]; split; intros H; congruence. }
  repeat (destruct Hrow as [<-|Hrow]; [split;
    [ unfold rowPasses; simpl; apply Hif
    | simpl; intros HNaN; unfold jgt; rewrite HNaN;
      rewrite ?jlt_NaN_l, ?jlt_NaN_r; reflexivity ]|]).
  contradiction.
Qed.

Lemma filter_length_bound {A} (f : A -> bool) (l : list A) :
  (List.length (filter f l) <= List.length l)%nat.
Proof.
  induction l as [|a l IH]; simpl; [lia|]. destruct (f a); simpl; lia.
Qed.

Lemma passedTests_bound results :
  (ValidationResultsComponent.passedTests results <= 12)%nat.
Proof.
  unfold ValidationResultsComponent.passedTests.
  etransitivity; [apply filter_length_bound|]. simpl. lia.
Qed.

(** X27. ValidationResults.tsx: at most 12 tests pass, the overall score is
    [passed * 25 / 3] within 0..100, and the label is Excellent from 10
    passed tests, Good for 8-9, Fair for 5-7 and Needs Improvement up to 4. *)
Theorem overall_score_from_passed_tests :
  forall results : ValidationResults,
    let passed := ValidationResultsComponent.passedTests results in
    (passed <= 12)%nat /\
    ValidationResultsComponent.overallScore results = INR passed * 25 / 3 /\
    0 <= ValidationResultsComponent.overallScore results <= 100 /\
    ((10 <= passed)%nat ->
     ValidationResultsComponent.scoreStatus results = "Excellent"%string) /\
    ((8 <= passed <= 9)%nat ->
     ValidationResultsComponent.scoreStatus results = "Good"%string) /\
    ((5 <= passed <= 7)%nat ->
     ValidationResultsComponent.scoreStatus results = "Fair"%string) /\
    ((passed <= 4)%nat ->
     ValidationResultsComponent.scoreStatus results
     = "Needs Improvement"%string).
Proof.
  intros results passed.
  pose proof (passedTests_bound results) as Hb. fold passed in Hb.
  assert (Hs : ValidationResultsComponent.overallScore results
               = INR passed * 25 / 3).
  { unfold ValidationResultsComponent.overallScore. fold passed.
    change (List.length (ValidationResultsComponent.allTests results))
      with 12%nat.
    replace (INR 12) with 12 by (simpl; lra). lra. }
  assert (Hp : 0 <= INR passed <= 12).
  { split; [apply pos_INR|]. replace 12 with (INR 12) by (simpl; lra).
    apply le_INR. exact Hb. }
  split; [exact Hb|]. split; [exact Hs|]. split; [lra|].
  unfold ValidationResultsComponent.scoreStatus. cbv zeta. rewrite Hs.
  unfold geb.
  repeat split; intros H.
  - assert (10 <= INR passed)
      by (replace 10 with (INR 10) by (simpl; lra); apply le_INR; lia).
    destruct (Rle_dec 80 _); [reflexivity | lra].
  - assert (8 <= INR passed <= 9)
      by (split; [replace 8 with (INR 8) by (simpl; lra)
                 |replace 9 with (INR 9) by (simpl; lra)]; apply le_INR; lia).
    destruct (Rle_dec 80 _); [lra|].
    destruct (Rle_dec 60 _); [reflexivity | lra].
  - assert (5 <= INR passed <= 7)
      by (split; [replace 5 with (INR 5) by (simpl; lra)
                 |replace 7 with (INR 7) by (simpl; lra)]; apply le_INR; lia).
    destruct (Rle_dec 80 _); [lra|]. destruct (Rle_dec 60 _); [lra|].
    destruct (Rle_dec 40 _); [reflexivity | lra].
  - assert (INR passed <= 4)
      by (replace 4 with (INR 4) by (simpl; lra); apply le_INR; lia).
    destruct (Rle_dec 80 _); [lra|]. destruct (Rle_dec 60 _); [lra|].
    destruct (Rle_dec 40 _); [lra | reflexivity].
Qed.

Lemma seasonal_NaN_fails results :
  seasonal_variations (longitudinal_coherence results) = NaN ->
  ValidationResultsComponent.seasonal
    (ValidationResultsComponent.longitudinal
       (ValidationResultsComponent.validationScores results))
  = ValidationResultsComponent.Fail /\
  (ValidationResultsComponent.passedTests results <= 11)%nat.
Proof.
  intros HNaN. split.
  - simpl. rewrite HNaN. reflexivity.
  - unfold ValidationResultsComponent.passedTests,
      ValidationResultsComponent.allTests. cbv zeta.
    cbn [ValidationResultsComponent.validationScores
         ValidationResultsComponent.demographic
         ValidationResultsComponent.behavior
         ValidationResultsComponent.outcome
         ValidationResultsComponent.longitudinal
         ValidationResultsComponent.ageDistribution
         ValidationResultsComponent.incomeEducation
         ValidationResultsComponent.fitnessAge
         ValidationResultsComponent.exerciseSleep
         ValidationResultsComponent.dietMeditation
         ValidationResultsComponent.socialPurpose
         ValidationResultsComponent.biologicalAge
         ValidationResultsComponent.mortalityRisk
         ValidationResultsComponent.purposeLongevity
         ValidationResultsComponent.seasonal
         ValidationResultsComponent.aging
         ValidationResultsComponent.behaviorStability].
    rewrite HNaN. change (jgt NaN (Num 0.1)) with false. cbv iota.
    repeat match goal with
           | |- context [if ?b then ValidationResultsComponent.Pass
                         else ValidationResultsComponent.Fail] =>
               destruct b
           end; simpl; lia.
Qed.

(** X28. A dataset generated for 1 to 8 months (at least one subject) fails
    the seasonal test of the validation view, so at most 11 tests pass and
    the overall score stays below 100. *)
Theorem short_datasets_never_pass_every_test :
  forall (config : DatasetConfig) (draws : RandomSource),
    (1 <= n_subjects config)%Z -> (1 <= months config <= 8)%Z ->
    exists (dataset : list MonthlyRecord) (results : ValidationResults),
      fst (generateCompleteDataset config draws) = Return dataset /\
      validateDataset dataset = Return results /\
      ValidationResultsComponent.seasonal
        (ValidationResultsComponent.longitudinal
           (ValidationResultsComponent.validationScores results))
      = ValidationResultsComponent.Fail /\
      (ValidationResultsComponent.passedTests results <= 11)%nat /\
      ValidationResultsComponent.overallScore results < 100.
Proof.
  intros config draws Hn Hm.
  destruct (seasonal_variation_by_months config draws Hn)
    as (dataset & Hret & Hshort & _).
  exists dataset. eexists. split; [exact Hret|].
  split; [unfold validateDataset; reflexivity|].
  match goal with
  | |- ValidationResultsComponent.seasonal
         (ValidationResultsComponent.longitudinal
            (ValidationResultsComponent.validationScores ?r)) = _ /\ _ =>
      assert (HNaN : seasonal_variations (longitudinal_coherence r) = NaN)
        by (simpl; apply Hshort; lia);
      destruct (seasonal_NaN_fails r HNaN) as [Hfail Hpassed];
      set (results := r) in *
  end.
  split; [exact Hfail|]. split; [exact Hpassed|].
  unfold ValidationResultsComponent.overallScore.
  change (List.length (ValidationResultsComponent.allTests results))
    with 12%nat.
  replace (INR 12) with 12 by (simpl; lra).
  assert (INR (ValidationResultsComponent.passedTests results) <= 11).
  { replace 11 with (INR 11) by (simpl; lra). apply le_INR. exact Hpassed. }
  lra.
Qed.

(** ** The overview header *)

Lemma from_Set_NoDup_from (xs acc : list string) :
  NoDup acc ->
  NoDup (fold_left (fun acc x => if includes acc x then acc else acc ++ [x])
           xs acc).
Proof.
  revert acc. induction xs as [|x xs IH]; intros acc Hacc; simpl.
  - exact Hacc.
  - apply IH. destruct (includes acc x) eqn:E; [exact Hacc|].
    apply NoDup_app; [exact Hacc | repeat constructor; simpl; tauto |].
    intros y Hy [<-|[]].
    apply includes_In in Hy. congruence.
Qed.

Lemma from_Set_NoDup (xs : list string) : NoDup (from_Set xs).
Proof. apply from_Set_NoDup_from. constructor. Qed.

Lemma from_Set_count (l ids : list string) :
  NoDup ids -> (forall x, In x l <-> In x ids) ->
  List.length (from_Set l) = List.length ids.
Proof.
  intros Hnd Hiff. apply Nat.le_antisymm.
  - apply NoDup_incl_length; [apply from_Set_NoDup|].
    intros x Hx. apply Hiff. exact (proj1 (from_Set_In _ _) Hx).
  - apply NoDup_incl_length; [exact Hnd|].
    intros x Hx. apply (proj2 (from_Set_In _ _)). now apply Hiff.
Qed.

Lemma fold_jmax_months (l : list nat) (a : nat) :
  fold_left jmax (map (fun k => Num (INR k)) l) (Num (INR a))
  = Num (INR (fold_left Nat.max l a)).
Proof.
  revert a. induction l as [|k l IH]; intros a; simpl; [reflexivity|].
  replace (Rmax (INR a) (INR k)) with (INR (Nat.max a k)); [apply IH|].
  unfold Rmax. destruct (Rle_dec (INR a) (INR k)) as [H|H].
  - apply INR_le in H. f_equal. lia.
  - assert (k < a)%nat by (apply INR_lt; lra). f_equal. lia.
Qed.

Lemma fold_max_bound (l : list nat) (a b : nat) :
  (a <= b)%nat -> Forall (fun k => (k <= b)%nat) l -> a = b \/ In b l ->
  fold_left Nat.max l a = b.
Proof.
  revert a. induction l as [|k l IH]; intros a Ha Hall Hin; simpl.
  - destruct Hin as [Hin|[]]. exact Hin.
  - inversion Hall as [|? ? Hk Hl]; subst.
    apply IH; [lia | exact Hl |].
    destruct Hin as [->|[->|Hin]]; [left; lia | left; lia | now right].
Qed.

Ltac nat_cases :=
  repeat match goal with
         | |- context [(?a <=? ?b)%nat] => destruct (Nat.leb_spec a b)
         | |- context [(?a <? ?b)%nat] => destruct (Nat.ltb_spec a b)
         end; simpl; try lia.

Lemma seq_filter_one (k a len : nat) :
  List.length (filter (fun m => Nat.eqb m k) (seq a len))
  = if (a <=? k)%nat && (k <? a + len)%nat then 1%nat else 0%nat.
Proof.
  revert a. induction len as [|len IH]; intros a.
  - simpl. nat_cases.
  - cbn [seq filter].
    destruct (Nat.eqb_spec a k) as [->|Hne]; cbn [List.length]; rewrite IH;
      nat_cases.
Qed.

Lemma expectedKeys_month_count (N M k : nat) :
  (k < M)%nat ->
  List.length (filter (fun key => Nat.eqb (snd key) k) (expectedKeys N M)) = N.
Proof.
  intros Hk. unfold expectedKeys.
  transitivity (List.length (seq 0 N)); [|apply length_seq].
  generalize (seq 0 N) as l.
  induction l as [|i l IH]; simpl; [reflexivity|].
  rewrite filter_app, length_app, IH. f_equal.
  assert (E : forall ms,
             List.length (filter (fun key : string * nat => Nat.eqb (snd key) k)
                            (map (fun m => (subjectId i, m)) ms))
             = List.length (filter (fun m => Nat.eqb m k) ms)).
  { induction ms as [|m ms IHm]; simpl; [reflexivity|].
    destruct (Nat.eqb m k); simpl; now rewrite IHm. }
  rewrite E, seq_filter_one. nat_cases.
Qed.

Lemma monthData_by_key (dataset : list MonthlyRecord) (k : nat) :
  List.length (DatasetOverview.monthData dataset k)
  = List.length (filter (fun key => Nat.eqb (snd key) k)
                   (map recordKey dataset)).
Proof.
  unfold DatasetOverview.monthData.
  induction dataset as [|r dataset IH]; simpl; [reflexivity|].
  destruct (Nat.eqb (month r) k); simpl; now rewrite IH.
Qed.

Lemma spreadCall_fits {A} (maxArguments : nat) (f : list jsnum -> A)
  (xs : list jsnum) :
  (List.length xs <= maxArguments)%nat ->
  spreadCall maxArguments f xs = Return (f xs).
Proof.
  intros H. unfold spreadCall. apply Nat.leb_le in H. now rewrite H.
Qed.

Lemma spreadCall_overflows {A} (maxArguments : nat) (f : list jsnum -> A)
  (xs : list jsnum) :
  (maxArguments < List.length xs)%nat ->
  spreadCall maxArguments f xs = Throw RangeError.
Proof.
  intros H. unfold spreadCall.
  destruct (Nat.leb_spec (List.length xs) maxArguments); [lia|reflexivity].
Qed.

(** X29. DatasetOverview.tsx, for a configuration with at least one subject
    and one month: the record count of the generated dataset is
    [subjects * months] and its distinct subject identifiers number
    [subjects].  When the records fit the argument bound of the engine, the
    month count [Math.max(...months) + 1] is the configured one and every
    month of the monthly averages has one record per subject; when they do
    not, the spread call throws a [RangeError]. *)
Theorem overview_header_recovers_configuration :
  forall (maxArguments : nat) (config : DatasetConfig) (draws : RandomSource),
    (1 <= n_subjects config)%Z -> (1 <= months config)%Z ->
    exists dataset : list MonthlyRecord,
      fst (generateCompleteDataset config draws) = Return dataset /\
      DatasetOverview.totalRecords dataset
      = Z.to_nat (n_subjects config * months config) /\
      DatasetOverview.uniqueSubjects dataset = Z.to_nat (n_subjects config) /\
      ((Z.to_nat (n_subjects config * months config) <= maxArguments)%nat ->
       DatasetOverview.months maxArguments dataset
       = Return (Num (IZR (months config))) /\
       forall k, (k < Z.to_nat (months config))%nat ->
         List.length (DatasetOverview.monthData dataset k)
         = Z.to_nat (n_subjects config)) /\
      ((maxArguments < Z.to_nat (n_subjects config * months config))%nat ->
       DatasetOverview.months maxArguments dataset = Throw RangeError).
Proof.
  intros maxArguments config draws Hn Hm.
  destruct (generateCompleteDataset_records config draws)
    as (dataset & Hret & _ & Hkeys).
  set (N := Z.to_nat (n_subjects config)) in *.
  set (M := Z.to_nat (months config)) in *.
  assert (HN : (1 <= N)%nat) by (unfold N; lia).
  assert (HM : (1 <= M)%nat) by (unfold M; lia).
  assert (Hlen : List.length dataset
                 = Z.to_nat (n_subjects config * months config)).
  { rewrite <- (length_map recordKey), Hkeys, expectedKeys_length.
    unfold N, M. rewrite Z2Nat.inj_mul by lia. reflexivity. }
  exists dataset. split; [exact Hret|].
  split; [exact Hlen|]. split; [|split].
  - unfold DatasetOverview.uniqueSubjects.
    rewrite from_Set_count with (ids := map subjectId (seq 0 N)).
    + now rewrite length_map, length_seq.
    + apply subjectIds_NoDup.
    + intros x.
      replace (map subject_id dataset) with (map fst (map recordKey dataset))
        by (rewrite map_map; reflexivity).
      rewrite Hkeys. now apply expectedKeys_subjects.
  - intros Hfits. split.
    + unfold DatasetOverview.months.
      rewrite spreadCall_fits by (rewrite length_map, Hlen; exact Hfits).
      cbn [andThen]. f_equal. unfold Math_max_of.
      replace (map (fun r => Num (INR (month r))) dataset)
        with (map (fun k => Num (INR k)) (map snd (map recordKey dataset)))
        by (rewrite !map_map; reflexivity).
      rewrite Hkeys.
      assert (Hall : Forall (fun k => (k <= M - 1)%nat)
                       (map snd (expectedKeys N M))).
      { apply Forall_forall. intros k Hk.
        apply in_map_iff in Hk as ([sid m] & <- & Hin).
        apply expectedKeys_In in Hin as [_ Hlt]. simpl. lia. }
      assert (Hin : In (M - 1)%nat (map snd (expectedKeys N M))).
      { apply in_map_iff. exists (subjectId 0, (M - 1)%nat).
        split; [reflexivity|].
        apply expectedKeys_In.
        split; [exists 0%nat; split; [lia|reflexivity] | lia]. }
      destruct (map snd (expectedKeys N M)) as [|k0 ks] eqn:E; [destruct Hin|].
      cbn [map fold_left jmax]. rewrite fold_jmax_months.
      inversion Hall as [|? ? Hk0 Hks]; subst.
      rewrite (fold_max_bound ks k0 (M - 1)); [| exact Hk0 | exact Hks |].
      * cbn [jadd]. f_equal. rewrite minus_INR by lia.
        unfold M. rewrite INR_IZR_INZ, Z2Nat.id by lia. simpl. lra.
      * destruct Hin as [->|Hin]; [now left | now right].
    + intros k Hk. rewrite monthData_by_key, Hkeys.
      now apply expectedKeys_month_count.
  - intros Hover. unfold DatasetOverview.months.
    rewrite spreadCall_overflows by (rewrite length_map, Hlen; exact Hover).
    reflexivity.
Qed.

(** ** Health status shares *)



(** ** Instances *)

Lemma weightedRandomChoice_picks_an_item_witness :
  In (fst (weightedRandomChoice EmptyString ["a"; "b"]%string [1; 1]
             constantDraws))
    ["a"; "b"]%string.
Proof.
  apply (weightedRandomChoice_picks_an_item string EmptyString
           ["a"; "b"]%string [1; 1] constantDraws).
  discriminate.
Defined.

Lemma weightedRandomChoice_cumulative_rule_witness :
  exists k : nat,
    nth_error ["a"; "b"]%string k
    = Some (fst (weightedRandomChoice EmptyString ["a"; "b"]%string [1; 3]
                   constantDraws)) /\
    constantDraws 0%nat * sum [1; 3] <= cumulative [1; 3] k /\
    (forall j, (j < k)%nat ->
               cumulative [1; 3] j < constantDraws 0%nat * sum [1; 3]).
Proof.
  apply (weightedRandomChoice_cumulative_rule string EmptyString
           ["a"; "b"]%string [1; 3] constantDraws).
  - reflexivity.
  - discriminate.
  - unfold sum. simpl. lra.
  - unfold constantDraws. lra.
Defined.

Lemma shiftProbabilities_normalized_witness :
  (let out := shiftProbabilitiesTowardHigher [/ 2; / 4; / 4] 2 in
   List.length out = 3%nat /\ sum out = 1 /\ Forall (fun p => 0 <= p) out) /\
  (let out := shiftProbabilitiesTowardLower [/ 2; / 4; / 4] 2 in
   List.length out = 3%nat /\ sum out = 1 /\ Forall (fun p => 0 <= p) out).
Proof.
  destruct shiftProbabilities_normalized as [Hhigher Hlower].
  assert (Hp : Forall (fun p => 0 <= p) [/ 2; / 4; / 4])
    by (repeat constructor; lra).
  split.
  - apply (Hhigher [/ 2; / 4; / 4] 2); [simpl; lia | exact Hp | lra].
  - apply (Hlower [/ 2; / 4; / 4] 2); [simpl; lia | exact Hp | lra].
Defined.

Lemma demographics_constant_per_subject_witness :
  exists dataset : list MonthlyRecord,
    fst (generateCompleteDataset oneSubjectTwoMonths constantDraws)
    = Return dataset /\
    forall r1 r2, In r1 dataset -> In r2 dataset ->
      subject_id r1 = subject_id r2 -> demographics r1 = demographics r2.
Proof.
  exact (demographics_constant_per_subject oneSubjectTwoMonths constantDraws).
Defined.

Lemma biological_age_never_above_chronological_witness :
  calculateBiologicalAge 39.5 sampleBehaviors 0 = Rmax 18 39.5 /\
  calculateBiologicalAge 39.5 restingBehaviors 6 = Rmax 18 (39.5 + 6 / 12) /\
  calculateBiologicalAge 39.5 sampleBehaviors 6
  <= calculateBiologicalAge 39.5 restingBehaviors 6 /\
  Rmax 18 (39.5 + 6 / 12 - 2 * 6) <= calculateBiologicalAge 39.5 sampleBehaviors 6.
Proof.
  destruct biological_age_never_above_chronological as [Hfun _].
  apply (Hfun 39.5 sampleBehaviors restingBehaviors 6);
    [simpl; lra | lra |].
  unfold noRuleFires. simpl. repeat split; try lra. discriminate.
Defined.

Lemma smoking_raises_risk_lowers_biological_age_witness :
  calculateBiologicalAge 39.5 (withSmoking sampleBehaviors Current) 6
  <= calculateBiologicalAge 39.5 (withSmoking sampleBehaviors Never) 6 /\
  calculateMortalityRisk sampleProfile (withSmoking sampleBehaviors Never) 39.5
  <= calculateMortalityRisk sampleProfile
       (withSmoking sampleBehaviors Current) 39.5.
Proof.
  apply (smoking_raises_risk_lowers_biological_age sampleProfile
           sampleBehaviors 39.5 6 39.5).
  lra.
Defined.

Lemma mortality_risk_increases_with_age_witness :
  calculateMortalityRisk sampleProfile sampleBehaviors 40
  <= calculateMortalityRisk sampleProfile sampleBehaviors 50.
Proof.
  apply (mortality_risk_increases_with_age sampleProfile sampleBehaviors 40 50).
  lra.
Defined.

Lemma functional_measures_never_below_baseline_witness :
  let f := generateFunctionalMeasures sampleProfile sampleBehaviors 39.5 in
  getBaseGripStrength (age_numeric sampleProfile) (gender sampleProfile)
  <= grip_strength f /\
  getBaseGaitSpeed (age_numeric sampleProfile) (gender sampleProfile)
  <= gait_speed f /\
  getBaseBalance (age_numeric sampleProfile) (gender sampleProfile)
  <= balance f /\
  frailty f <= getBaseFrailty (age_numeric sampleProfile).
Proof.
  apply (functional_measures_never_below_baseline sampleProfile
           sampleBehaviors 39.5).
  simpl. lra.
Defined.

Lemma composite_scores_in_range_witness :
  0 <= calculateBlueZoneSimilarity sampleBehaviors sampleProfile <= 100.
Proof.
  destruct composite_scores_in_range as (_ & Hblue & _).
  apply (Hblue sampleBehaviors sampleProfile).
  unfold BehaviorInDomain. simpl. lra.
Defined.

Lemma seasonal_variation_defined_from_nine_months_witness :
  exists (dataset : list MonthlyRecord) (report : ValidationResults),
    fst (generateCompleteDataset quickTestConfig constantDraws)
    = Return dataset /\
    validateDataset dataset = Return report /\
    ((months quickTestConfig <= 8)%Z ->
     seasonal_variations (longitudinal_coherence report) = NaN) /\
    ((9 <= months quickTestConfig)%Z ->
     exists v : R,
       seasonal_variations (longitudinal_coherence report) = Num v /\ 0 <= v).
Proof.
  apply (seasonal_variation_defined_from_nine_months quickTestConfig
           constantDraws).
  simpl. lia.
Defined.

Lemma seasons_order_outdoor_behaviors_witness :
  let df := calculateDemographicFactors sampleProfile in
  let motion s :=
    fst (generateMotionBehavior df (calculateSeasonalFactors s)
           constantDraws) in
  let nature s :=
    fst (generateNatureConnection df (calculateSeasonalFactors s)
           constantDraws) in
  motion Winter <= motion Fall /\ motion Fall <= motion Spring /\
  motion Spring <= motion Summer /\
  nature Winter <= nature Fall /\ nature Fall <= nature Spring /\
  nature Spring <= nature Summer.
Proof.
  apply (seasons_order_outdoor_behaviors
           (calculateDemographicFactors sampleProfile) constantDraws);
    unfold constantDraws; simpl; lra.
Defined.

Lemma motion_raises_sleep_and_diet_witness :
  let df := calculateDemographicFactors sampleProfile in
  hours (fst (generateSleepBehavior df 2 constantDraws))
  <= hours (fst (generateSleepBehavior df 5 constantDraws)) /\
  quality (fst (generateSleepBehavior df 2 constantDraws))
  <= quality (fst (generateSleepBehavior df 5 constantDraws)) /\
  fst (generateDietBehavior df 2 constantDraws)
  <= fst (generateDietBehavior df 5 constantDraws).
Proof.
  apply (motion_raises_sleep_and_diet
           (calculateDemographicFactors sampleProfile) 2 5 constantDraws);
    unfold constantDraws; simpl; lra.
Defined.

Lemma diet_score_effects_witness :
  let df := calculateDemographicFactors sampleProfile in
  fst (generateMeditationBehavior df 4 constantDraws)
  <= fst (generateMeditationBehavior df 8 constantDraws) /\
  fst (generateSugarBehavior df 8 constantDraws)
  <= fst (generateSugarBehavior df 4 constantDraws) /\
  fst (generateSodiumBehavior df 8 constantDraws)
  <= fst (generateSodiumBehavior df 4 constantDraws) /\
  fst (generateProcessedFoods df 8 constantDraws)
  <= fst (generateProcessedFoods df 4 constantDraws).
Proof.
  apply (diet_score_effects
           (calculateDemographicFactors sampleProfile) 4 8 constantDraws);
    unfold constantDraws; simpl; lra.
Defined.


Lemma calculateMeanDifference_antisymmetric_and_bounded_witness :
  0 - 10 <= calculateMeanDifference [2; 9] [4] <= 10 - 0.
Proof.
  destruct calculateMeanDifference_antisymmetric_and_bounded
    as (_ & _ & Hbound).
  apply (Hbound 0 10 [2; 9] [4]); [lra | |]; repeat constructor; lra.
Defined.

Lemma calculateBehaviorStability_at_most_one_witness :
  calculateBehaviorStability [[sampleRecord]; []] = 0.
Proof.
  destruct calculateBehaviorStability_at_most_one as (_ & _ & Hshort).
  apply (Hshort [[sampleRecord]; []]).
  repeat constructor; simpl; lia.
Defined.

Lemma calculateLinearSlope_recovers_the_line_witness :
  (exists v : R, calculateLinearSlope [0; 1; 2] [40; 39.5; 39.8] = Num v) /\
  calculateLinearSlope [0; 1; 2] (map (fun xi => 3 * xi + 5) [0; 1; 2])
  = Num 3.
Proof.
  destruct calculateLinearSlope_recovers_the_line as (Hfinite & Hline & _).
  assert (HD : dispersion [0; 1; 2] <> 0)
    by (unfold dispersion, total, sum; simpl; lra).
  split.
  - apply (Hfinite [0; 1; 2] [40; 39.5; 39.8] HD).
  - apply (Hline 3 5 [0; 1; 2] HD).
Defined.

Lemma sortByMonth_sorts_witness :
  sortByMonth [sampleRecord] = [sampleRecord] /\
  sortByMonth [sampleRecord; sampleRecord] = [sampleRecord; sampleRecord].
Proof.
  destruct sortByMonth_sorts as (_ & Hsorted & Hties).
  split.
  - apply (Hsorted [sampleRecord]). repeat constructor.
  - apply (Hties sampleRecord sampleRecord). reflexivity.
Defined.

Lemma calculateDistribution_counts_occurrences_witness :
  get_or_0 (calculateDistribution ["25-34"; "75+"; "25-34"]%string) "25-34"
  = INR (count_occ string_dec ["25-34"; "75+"; "25-34"]%string "25-34"%string)
  /\
  get_or_0 (calculateDistribution ["25-34"; "75+"; "25-34"]%string) "18-24"
  = 0.
Proof.
  assert (Hplain : forall k,
             In k ["18-24"; "25-34"; "75+"]%string ->
             ~ In k objectPrototypeNames).
  { intros k Hk Hin. simpl in Hk, Hin.
    repeat match goal with
           | H : _ \/ _ |- _ => destruct H
           | H : False |- _ => destruct H
           end; subst; discriminate. }
  split.
  - apply (calculateDistribution_counts_occurrences
             ["25-34"; "75+"; "25-34"]%string "25-34"%string).
    repeat constructor; apply Hplain; simpl; tauto.
  - apply (calculateDistribution_counts_occurrences
             ["25-34"; "75+"; "25-34"]%string "18-24"%string).
    + repeat constructor; apply Hplain; simpl; tauto.
    + simpl. intros [H|[H|[H|[]]]]; discriminate.
Defined.

Lemma kolmogorovSmirnovTest_is_largest_gap_witness :
  exists m : R,
    kolmogorovSmirnovTest [("75+"%string, 1)] getExpectedAgeDistribution
    = Num m /\
    0 <= m /\
    (forall key,
        In key (dict_keys [("75+"%string, 1)]
                ++ dict_keys getExpectedAgeDistribution) ->
        proportionGap [("75+"%string, 1)] getExpectedAgeDistribution key <= m).
Proof.
  destruct (kolmogorovSmirnovTest_is_largest_gap
              [("75+"%string, 1)] getExpectedAgeDistribution)
    as (m & Hks & Hm & Hall & _).
  - apply Forall_forall. intros k Hk Hin. simpl in Hk, Hin.
    repeat match goal with
           | H : _ \/ _ |- _ => destruct H
           | H : False |- _ => destruct H
           end; subst; discriminate.
  - unfold sum. simpl. lra.
  - unfold sum. simpl. lra.
  - exists m. split; [exact Hks|]. split; [exact Hm | exact Hall].
Defined.

Lemma validation_rows_agree_with_scores_witness :
  let row :=
    {| ValidationResultsComponent.test := "Seasonal Variation";
       ValidationResultsComponent.value := NaN;
       ValidationResultsComponent.threshold := 0.1;
       ValidationResultsComponent.status := ValidationResultsComponent.Fail |} in
  (ValidationResultsComponent.status row = ValidationResultsComponent.Pass
   <-> rowPasses row = true) /\
  (ValidationResultsComponent.value row = NaN ->
   ValidationResultsComponent.status row = ValidationResultsComponent.Fail).
Proof.
  apply (proj2 (validation_rows_agree_with_scores emptyDatasetReport)).
  simpl. do 9 right. left. reflexivity.
Defined.

Lemma overall_score_from_passed_tests_witness :
  ValidationResultsComponent.scoreStatus emptyDatasetReport
  = "Needs Improvement"%string.
Proof.
  destruct (overall_score_from_passed_tests emptyDatasetReport)
    as (_ & _ & _ & _ & _ & _ & Hlow).
  apply Hlow.
  unfold ValidationResultsComponent.passedTests,
    ValidationResultsComponent.allTests. simpl.
  unfold jgt, jlt, ltb. simpl. rewrite Rabs_R0.
  repeat match goal with
         | |- context [Rlt_dec ?a ?b] => destruct (Rlt_dec a b); [lra|]
         end.
  simpl. lia.
Defined.

Lemma short_datasets_never_pass_every_test_witness :
  exists (dataset : list MonthlyRecord) (results : ValidationResults),
    fst (generateCompleteDataset quickTestConfig constantDraws)
    = Return dataset /\
    validateDataset dataset = Return results /\
    ValidationResultsComponent.seasonal
      (ValidationResultsComponent.longitudinal
         (ValidationResultsComponent.validationScores results))
    = ValidationResultsComponent.Fail /\
    (ValidationResultsComponent.passedTests results <= 11)%nat /\
    ValidationResultsComponent.overallScore results < 100.
Proof.
  apply (short_datasets_never_pass_every_test quickTestConfig constantDraws);
    simpl; lia.
Defined.

Lemma overview_header_recovers_configuration_witness :
  exists dataset : list MonthlyRecord,
    fst (generateCompleteDataset quickTestConfig constantDraws)
    = Return dataset /\
    DatasetOverview.totalRecords dataset = 300%nat /\
    DatasetOverview.uniqueSubjects dataset = 100%nat /\
    DatasetOverview.months 1000 dataset = Return (Num 3) /\
    DatasetOverview.months 299 dataset = Throw RangeError.
Proof.
  assert (Hn : (1 <= n_subjects quickTestConfig)%Z) by (simpl; lia).
  assert (Hm : (1 <= months quickTestConfig)%Z) by (simpl; lia).
  destruct (overview_header_recovers_configuration 1000 quickTestConfig
              constantDraws Hn Hm)
    as (dataset & Hret & Hrecords & Hsubjects & Hfits & _).
  destruct (overview_header_recovers_configuration 299 quickTestConfig
              constantDraws Hn Hm)
    as (dataset' & Hret' & _ & _ & _ & Hover).
  rewrite Hret in Hret'. injection Hret' as <-.
  exists dataset. split; [exact Hret|].
  split; [exact Hrecords|]. split; [exact Hsubjects|]. split.
  - apply Hfits. simpl. lia.
  - apply Hover. simpl. lia.
Defined.


